(** * StackTraceAnalyzer: a shallow embedding of the analysis core

    The development follows the TypeScript sources:
    - [Js]               the string, regular-expression, date and sorting
                         primitives of the host language the code relies on;
    - [GitAdvanced]      [extractPRNumber], [getPRUrl];
    - [StackTraceParser] [deduplicateEntries];
    - [FileFinder]       [calculateNamespaceScore], [findSourceFile],
                         [findMethodLineRange];
    - [GitBlameRefined]  [analyzeBlameResults];
    - [RegexProps], [FileProps], [BlameProps]  the notions in which the
                         properties are stated, with the sample inputs.

    Modelling conventions.  A string is a sequence of 8-bit code units
    (Rocq's [string]); numbers that the code only uses as integers are [Z]
    or [nat]; [undefined]/[null] is [None].  A promise that resolves with [v]
    is [Returned v], one that rejects is [Thrown].  External tools (the
    shell, the file system, the clock, the time zone) are parameters. *)

From Stdlib Require Import ZArith Lia Ascii String List Bool Sorting.Sorted Permutation.
From stdpp Require Import base list strings gmap pretty.

Local Open Scope Z_scope.

(* ===================================================================== *)
(** * Host-language primitives                                            *)
(* ===================================================================== *)

Module Js.

(** ** Characters *)

Definition code (c : ascii) : N := N_of_ascii c.

(** White space and line terminators below code unit 256: what [\s] matches
    and what [trim] strips. *)
Definition isSpace (c : ascii) : bool :=
  match c with
  | "009" | "010" | "011" | "012" | "013" | " " | "160" => true
  | _ => false
  end%char.

(** [\d] *)
Definition isDigit (c : ascii) : bool :=
  match c with
  | "0" | "1" | "2" | "3" | "4" | "5" | "6" | "7" | "8" | "9" => true
  | _ => false
  end%char.

(** [[a-f0-9]] *)
Definition isLowerHex (c : ascii) : bool :=
  match c with
  | "a" | "b" | "c" | "d" | "e" | "f" => true
  | _ => isDigit c
  end%char.

(** [.] : anything but a line terminator *)
Definition isDot (c : ascii) : bool :=
  match c with
  | "010" | "013" => false
  | _ => true
  end%char.

(** [String.prototype.toLowerCase] on one code unit: A-Z, and the Latin-1
    capitals 192..222 except the multiplication sign 215. *)
Definition lowerChar (c : ascii) : ascii :=
  let n := code c in
  if ((65 <=? n) && (n <=? 90))%N then ascii_of_N (n + 32)
  else if ((192 <=? n) && (n <=? 222) && negb (n =? 215))%N then ascii_of_N (n + 32)
  else c.

(** Canonicalisation under the [i] flag: the upper-case form when it is a
    single code unit of the same range (so 181 and 255, whose capitals lie
    above 255, and 223 stay as they are). *)
Definition canonChar (c : ascii) : ascii :=
  let n := code c in
  if ((97 <=? n) && (n <=? 122))%N then ascii_of_N (n - 32)
  else if ((224 <=? n) && (n <=? 254) && negb (n =? 247))%N then ascii_of_N (n - 32)
  else c.

Definition eqChar (a b : ascii) : bool := Ascii.eqb a b.

(** ** Strings *)

Fixpoint toLowerCase (s : string) : string :=
  match s with
  | EmptyString => EmptyString
  | String c s' => String (lowerChar c) (toLowerCase s')
  end.

Fixpoint trimStart (s : string) : string :=
  match s with
  | EmptyString => EmptyString
  | String c s' => if isSpace c then trimStart s' else s
  end.

Fixpoint trimEnd (s : string) : string :=
  match s with
  | EmptyString => EmptyString
  | String c s' =>
      match trimEnd s' with
      | EmptyString => if isSpace c then EmptyString else String c EmptyString
      | t => String c t
      end
  end.

Definition trim (s : string) : string := trimEnd (trimStart s).

(** Truthiness of a string: non-empty. *)
Definition truthy (s : string) : bool :=
  match s with EmptyString => false | _ => true end.

Definition startsWith (p s : string) : bool := String.prefix p s.

(** [s.includes(p)] *)
Fixpoint includes (p s : string) : bool :=
  String.prefix p s ||
  match s with
  | EmptyString => false
  | String _ s' => includes p s'
  end.

Fixpoint includesChar (c : ascii) (s : string) : bool :=
  match s with
  | EmptyString => false
  | String d s' => eqChar d c || includesChar c s'
  end.

Fixpoint dropN (n : nat) (s : string) : string :=
  match n, s with
  | O, _ => s
  | S n', String _ s' => dropN n' s'
  | S _, EmptyString => EmptyString
  end.

Fixpoint takeN (n : nat) (s : string) : string :=
  match n, s with
  | S n', String c s' => String c (takeN n' s')
  | _, _ => EmptyString
  end.

(** [s.replace(p, r)] with a string pattern: the first occurrence only. *)
Fixpoint replaceFirst (p r s : string) : string :=
  if String.prefix p s then r +:+ dropN (String.length p) s
  else match s with
       | EmptyString => EmptyString
       | String c s' => String c (replaceFirst p r s')
       end.

(** [s.replace(/c/g, d)] for a one-character pattern. *)
Fixpoint replaceAllChar (c d : ascii) (s : string) : string :=
  match s with
  | EmptyString => EmptyString
  | String x s' => String (if eqChar x c then d else x) (replaceAllChar c d s')
  end.

(** [(s.match(/c/g) || []).length] for a one-character pattern. *)
Fixpoint countChar (c : ascii) (s : string) : Z :=
  match s with
  | EmptyString => 0
  | String x s' => (if eqChar x c then 1 else 0) + countChar c s'
  end.

(** [s.split(sep)] for a one-character separator; never the empty list. *)
Fixpoint split (sep : ascii) (s : string) : list string :=
  match s with
  | EmptyString => [EmptyString]
  | String c s' =>
      if eqChar c sep then EmptyString :: split sep s'
      else match split sep s' with
           | [] => [String c EmptyString]
           | w :: ws => String c w :: ws
           end
  end.

(** [lines.join("\n")] *)
Definition newline : string := String "010"%char EmptyString.
Definition joinLines (lines : list string) : string := String.concat newline lines.

(** [a.slice(0, -1)] *)
Definition sliceInit {A} (l : list A) : list A := removelast l.

(** ** Regular expressions: a backtracking matcher *)

Inductive regex : Type :=
| Emp                              (* the empty pattern *)
| Cls (p : ascii -> bool)          (* one character of a class *)
| Cat (r1 r2 : regex)              (* r1 r2 *)
| Alt (r1 r2 : regex)              (* r1|r2, left first *)
| Rep (greedy : bool) (r : regex)  (* r* and r*? *)
| Cap (i : nat) (r : regex).       (* the i-th capture group *)

Definition Opt (r : regex) : regex := Alt r Emp.           (* r? *)
Definition Plus (r : regex) : regex := Cat r (Rep true r). (* r+ *)
Definition Lit (c : ascii) : regex := Cls (fun x => eqChar x c).
Definition LitI (c : ascii) : regex := Cls (fun x => eqChar (canonChar x) (canonChar c)).

Fixpoint Word (lit : ascii -> regex) (w : string) : regex :=
  match w with
  | EmptyString => Emp
  | String c w' => Cat (lit c) (Word lit w')
  end.

Definition captures : Type := list (nat * string).

Fixpoint group (i : nat) (caps : captures) : option string :=
  match caps with
  | [] => None
  | (j, s) :: rest => if Nat.eqb i j then Some s else group i rest
  end.

Definition cont : Type := string -> captures -> option captures.

(** The iteration of a repetition around a matcher [body] of the repeated
    pattern.  A greedy repetition tries one more iteration before it tries to
    go on with [k], a lazy one the other way round; an iteration that
    consumes nothing is rejected, so [fuel], the length of the input, is
    never exhausted. *)
Fixpoint repLoop (body : string -> captures -> cont -> option captures)
    (greedy : bool) (k : cont) (fuel : nat) (s : string) (caps : captures)
    : option captures :=
  let more :=
    match fuel with
    | O => None
    | S fuel' =>
        body s caps (fun s1 c1 =>
          if (String.length s1 <? String.length s)%nat
          then repLoop body greedy k fuel' s1 c1
          else None)
    end in
  if greedy
  then match more with Some res => Some res | None => k s caps end
  else match k s caps with Some res => Some res | None => more end.

(** [matchRe r s caps k]: match [r] at the head of [s], then continue with
    [k] on what is left; alternatives are tried in the engine's order and the
    first complete success is returned. *)
Fixpoint matchRe (r : regex) (s : string) (caps : captures) (k : cont)
    {struct r} : option captures :=
  match r with
  | Emp => k s caps
  | Cls p =>
      match s with
      | String c s' => if p c then k s' caps else None
      | EmptyString => None
      end
  | Cat r1 r2 => matchRe r1 s caps (fun s1 c1 => matchRe r2 s1 c1 k)
  | Alt r1 r2 =>
      match matchRe r1 s caps k with
      | Some res => Some res
      | None => matchRe r2 s caps k
      end
  | Rep greedy r1 => repLoop (matchRe r1) greedy k (String.length s) s caps
  | Cap i r1 =>
      matchRe r1 s caps (fun s1 c1 =>
        k s1 ((i, takeN (String.length s - String.length s1) s) :: c1))
  end.

Definition matchHere (r : regex) (s : string) : option captures :=
  matchRe r s [] (fun _ caps => Some caps).

(** An unanchored pattern: the leftmost start position that matches. *)
Fixpoint search (r : regex) (s : string) : option captures :=
  match matchHere r s with
  | Some caps => Some caps
  | None =>
      match s with
      | EmptyString => None
      | String _ s' => search r s'
      end
  end.

(** [re.test(s)] *)
Definition test (r : regex) (s : string) : bool :=
  match search r s with Some _ => true | None => false end.

(** [s.match(re)[1]] for an unanchored pattern, [None] when [re] does not match. *)
Definition match1 (r : regex) (s : string) : option string :=
  match search r s with
  | Some caps => group 1 caps
  | None => None
  end.

(** ** Numbers and dates *)

(** Digits of [parseInt]: value of a character in the given radix. *)
Definition digitValue (radix : Z) (c : ascii) : option Z :=
  let n := Z.of_N (code c) in
  let v := if (48 <=? n) && (n <=? 57) then Some (n - 48)
           else if (97 <=? n) && (n <=? 122) then Some (n - 87)
           else if (65 <=? n) && (n <=? 90) then Some (n - 55)
           else None in
  match v with
  | Some d => if d <? radix then Some d else None
  | None => None
  end.

(** The longest prefix of digits, as a number; [None] when there is none. *)
Fixpoint parseDigits (radix : Z) (acc : option Z) (s : string) : option Z :=
  match s with
  | EmptyString => acc
  | String c s' =>
      match digitValue radix c with
      | Some d => parseDigits radix (Some (match acc with Some a => a * radix + d | None => d end)) s'
      | None => acc
      end
  end.

(** [Number.parseInt(s)]: leading white space, a sign, an optional [0x]
    prefix, then digits up to the first character that is none; [None] is
    NaN.  The result is kept exact: the only use multiplies it by 1000 and
    makes a date of it, and every value too large to be an exact double is
    then far outside the range of dates. *)
Definition parseInt (s : string) : option Z :=
  let s := trimStart s in
  let '(sign, s) :=
    match s with
    | String "-" s' => (-1, s')
    | String "+" s' => (1, s')
    | _ => (1, s)
    end in
  let '(radix, s) :=
    match s with
    | String "0" (String "x" s') => (16, s')
    | String "0" (String "X" s') => (16, s')
    | _ => (10, s)
    end in
  match parseDigits radix None s with
  | Some n => Some (sign * n)
  | None => None
  end.

(** Time values are milliseconds since the epoch; [None] is the invalid
    date (NaN). *)
Definition msPerDay : Z := 86400000.
Definition maxTime : Z := 8640000000000000.

Definition timeClip (t : Z) : option Z :=
  if Z.abs t <=? maxTime then Some t else None.

(** [new Date(n)] for a number [n] (NaN when [None]). *)
Definition dateOfNumber (n : option Z) : option Z :=
  match n with
  | Some t => timeClip t
  | None => None
  end.

(** A calendar date is kept as its day number, counted from 1970-01-01; the
    code holds its rendering [YYYY-MM-DD].  [None] is a string that is no
    date, such as the empty one. *)
Definition calendarDate : Type := option Z.

(** [new Date(s)] for a date-only string: midnight UTC of that day. *)
Definition dateOfCalendar (d : calendarDate) : option Z :=
  match d with
  | Some day => timeClip (day * msPerDay)
  | None => None
  end.

(** [d.setHours(0, 0, 0, 0)]: midnight of the local day of [d], for a time
    zone [tza] milliseconds ahead of UTC. *)
Definition setHours0 (tza : Z) (d : option Z) : option Z :=
  match d with
  | Some t => timeClip ((t + tza) / msPerDay * msPerDay - tza)
  | None => None
  end.

(** [a >= b] on dates: false as soon as one is invalid. *)
Definition dateGe (a b : option Z) : bool :=
  match a, b with
  | Some x, Some y => y <=? x
  | _, _ => false
  end.

(** ** Promises, exceptions *)

Inductive outcome (A : Type) : Type :=
| Returned (a : A)
| Thrown.
Arguments Returned {A} a.
Arguments Thrown {A}.

#[global] Instance outcome_ret : MRet outcome := fun A a => Returned a.

#[global] Instance outcome_bind : MBind outcome := fun A B f m =>
  match m with
  | Returned a => f a
  | Thrown => Thrown
  end.

(** [try { body } catch (error) { handler }] *)
Definition tryCatch {A} (body : outcome A) (handler : outcome A) : outcome A :=
  match body with
  | Returned a => Returned a
  | Thrown => handler
  end.

(** [d.toISOString().split("T")[0]]: the UTC calendar date; a RangeError on
    an invalid date. *)
Definition toISODate (d : option Z) : outcome calendarDate :=
  match d with
  | Some t => Returned (Some (t / msPerDay))
  | None => Thrown
  end.

(** ** Sorting *)

(** [Array.prototype.sort(cmp)] is stable: with a consistent comparator the
    result is the one arrangement in which [a] precedes [b] whenever
    [cmp a b < 0], and elements that compare equal keep their order.
    Insertion from the right computes it. *)
Fixpoint insertBy {A} (cmp : A -> A -> Z) (x : A) (l : list A) : list A :=
  match l with
  | [] => [x]
  | y :: l' => if cmp x y <=? 0 then x :: l else y :: insertBy cmp x l'
  end.

Definition sortBy {A} (cmp : A -> A -> Z) (l : list A) : list A :=
  fold_right (insertBy cmp) [] l.

End Js.

Import Js.

(* ===================================================================== *)
(** * git-advanced: pull-request references                               *)
(* ===================================================================== *)

Module GitAdvanced.

Inductive prSourceT : Type := github | azure.

Definition digits1 : regex := Cap 1 (Plus (Cls isDigit)).

(** [/Merge pull request #(\d+)/] *)
Definition reMergePullRequest : regex :=
  Cat (Word Lit "Merge pull request #") digits1.

(** [/\(#(\d+)\)/] *)
Definition reParenHash : regex :=
  Cat (Lit "("%char) (Cat (Lit "#"%char) (Cat digits1 (Lit ")"%char))).

(** [/\(PR\s+(\d+)\)/] *)
Definition reParenPR : regex :=
  Cat (Lit "("%char) (Cat (Word Lit "PR") (Cat (Plus (Cls isSpace)) (Cat digits1 (Lit ")"%char)))).

(** [/#(\d+)/] *)
Definition reHash : regex := Cat (Lit "#"%char) digits1.

(** [/PR\s+(\d+)/] *)
Definition rePR : regex := Cat (Word Lit "PR") (Cat (Plus (Cls isSpace)) digits1).

Record prRef : Type := mkPrRef {
  prNumber : option string;
  prSource : option prSourceT
}.

Definition extractPRNumber (message : string) : prRef :=
  (* Try "Merge pull request #123" - GitHub *)
  match search reMergePullRequest message with
  | Some m => mkPrRef (group 1 m) (Some github)
  | None =>
  (* Try "(#123)" - GitHub format *)
  match search reParenHash message with
  | Some m => mkPrRef (group 1 m) (Some github)
  | None =>
  (* Try "(PR 1234)" - Azure DevOps format *)
  match search reParenPR message with
  | Some m => mkPrRef (group 1 m) (Some azure)
  | None =>
  (* Try just "#123" - GitHub format *)
  match search reHash message with
  | Some m => mkPrRef (group 1 m) (Some github)
  | None =>
  (* Try just "PR 1234" - Azure DevOps format *)
  match search rePR message with
  | Some m => mkPrRef (group 1 m) (Some azure)
  | None => mkPrRef None None
  end end end end end.

Definition getPRUrl (prNumber : string) (source : option prSourceT) : string :=
  match source with
  | Some azure => "https://devops.wisetechglobal.com/wtg/CargoWise/_git/Dev/pullrequest/" +:+ prNumber
  | _ => "https://github.com/WiseTechGlobal/CargoWise/pull/" +:+ prNumber
  end.

End GitAdvanced.

(* ===================================================================== *)
(** * stack-trace-parser: frames                                          *)
(* ===================================================================== *)

Module StackTraceParser.

Record StackTraceEntry : Type := mkEntry {
  namespace : string;
  methodName : string;
  originalLine : string;
  lineIndex : nat
}.

(** The key [`${entry.namespace}.${entry.methodName}`]. *)
Definition entryKey (entry : StackTraceEntry) : string :=
  namespace entry +:+ "." +:+ methodName entry.

(** The filter callback with its captured set [seen], threaded through the
    traversal. *)
Fixpoint dedupFrom (seen : gset string) (entries : list StackTraceEntry)
    : list StackTraceEntry :=
  match entries with
  | [] => []
  | entry :: rest =>
      let key := entryKey entry in
      if decide (key ∈ seen) then dedupFrom seen rest
      else entry :: dedupFrom ({[key]} ∪ seen) rest
  end.

Definition deduplicateEntries (entries : list StackTraceEntry) : list StackTraceEntry :=
  dedupFrom ∅ entries.

End StackTraceParser.

(* ===================================================================== *)
(** * file-finder: source files and method spans                          *)
(* ===================================================================== *)

Module FileFinder.

Definition dquote : string := String "034"%char EmptyString.

(** ** Namespace affinity *)

(** The loop over [i < namespaceParts.length && i < pathParts.length]. *)
Fixpoint countPositional (pathParts namespaceParts : list string) : Z :=
  match pathParts, namespaceParts with
  | p :: ps, n :: ns =>
      (if String.eqb (toLowerCase p) n then 1 else 0) + countPositional ps ns
  | _, _ => 0
  end.

(** The loop over [namespaceParts] testing [relativePath.includes(part)]. *)
Fixpoint countContained (relativePath : string) (namespaceParts : list string) : Z :=
  match namespaceParts with
  | [] => 0
  | part :: rest =>
      (if includes part relativePath then 1 else 0) + countContained relativePath rest
  end.

(** [path.replace(/^\//, EmptyString)] *)
Definition stripLeadingSlash (s : string) : string :=
  match s with
  | String "/"%char s' => s'
  | _ => s
  end.

Definition normalize (p : string) : string :=
  toLowerCase (replaceAllChar "\"%char "/"%char p).

Definition relativePathOf (filePath projectRoot : string) : string :=
  stripLeadingSlash (replaceFirst (normalize projectRoot) EmptyString (normalize filePath)).

Definition namespacePartsOf (namespace : string) : list string :=
  map toLowerCase (sliceInit (split "."%char namespace)).

Definition calculateNamespaceScore (filePath namespace projectRoot : string) : Z :=
  let relativePath := relativePathOf filePath projectRoot in
  (* Extract namespace parts (excluding class name) *)
  let namespaceParts := namespacePartsOf namespace in
  (* Count consecutive matches from the start of path *)
  let pathParts := split "/"%char relativePath in
  let consecutiveMatches := countPositional pathParts namespaceParts in
  (* Count total occurrences of namespace parts in path *)
  let totalMatches := countContained relativePath namespaceParts in
  consecutiveMatches * 100 + totalMatches * 10.

(** ** Method spans *)

Record lineRange : Type := mkRange { range_start : nat; range_end : nat }.

(** What the file system holds at a path. *)
Inductive fileState : Type :=
| NoFile                      (* [existsSync] is false *)
| Unreadable                  (* exists, [readFileSync] throws *)
| FileContent (content : string).

(** The pattern built by [new RegExp(..., "i")]: an optional access modifier
    (public, private, protected or internal; group 1), white space, an
    optional "async" with white space (group 2), an optional "static" with
    white space (group 3), a lazy run of any characters, at least one white
    space, the method name, white space, an opening parenthesis.  Every
    metacharacter of the method name is escaped, so the name is matched
    literally; the [i] flag makes all letters case-insensitive. *)
Definition methodPattern (methodName : string) : regex :=
  Cat (Opt (Cap 1 (Alt (Word LitI "public") (Alt (Word LitI "private")
                  (Alt (Word LitI "protected") (Word LitI "internal"))))))
 (Cat (Rep true (Cls isSpace))
 (Cat (Opt (Cap 2 (Cat (Word LitI "async") (Rep true (Cls isSpace)))))
 (Cat (Opt (Cap 3 (Cat (Word LitI "static") (Rep true (Cls isSpace)))))
 (Cat (Rep false (Cls isDot))
 (Cat (Plus (Cls isSpace))
 (Cat (Word LitI methodName)
 (Cat (Rep true (Cls isSpace))
      (Lit "("%char)))))))).

(** The first loop: index of the first line the pattern matches. *)
Fixpoint findMethodStart (pattern : regex) (i : nat) (lines : list string) : option nat :=
  match lines with
  | [] => None
  | line :: rest =>
      if test pattern line then Some i else findMethodStart pattern (S i) rest
  end.

(** The second loop, from line [i] on: the line on which it breaks, or
    [methodEndLine] unchanged when it runs off the end. *)
Fixpoint scanBraces (lines : list string) (i : nat) (braceCount : Z)
    (foundOpeningBrace : bool) (methodEndLine : nat) : nat :=
  match lines with
  | [] => methodEndLine
  | line :: rest =>
      let braceCount := braceCount + countChar "{"%char line - countChar "}"%char line in
      let foundOpeningBrace := if 0 <? braceCount then true else foundOpeningBrace in
      if foundOpeningBrace && (braceCount =? 0) then i
      else scanBraces rest (S i) braceCount foundOpeningBrace methodEndLine
  end.

Section WithFileSystem.

Variable fs : string -> fileState.

Definition readFileSync (filePath : string) : outcome string :=
  match fs filePath with
  | FileContent content => Returned content
  | _ => Thrown
  end.

Definition existsSync (filePath : string) : bool :=
  match fs filePath with
  | NoFile => false
  | _ => true
  end.

Definition findMethodLineRange (filePath methodName : string) : outcome (option lineRange) :=
  tryCatch
    (if negb (existsSync filePath) then mret None
     else
       content ← readFileSync filePath;
       let lines := split "010"%char content in
       match findMethodStart (methodPattern methodName) 0 lines with
       | None => mret None
       | Some methodStartLine =>
           (* Find method end by tracking braces *)
           let methodEndLine :=
             scanBraces (drop methodStartLine lines) methodStartLine 0 false methodStartLine in
           mret (Some (mkRange (methodStartLine + 1)
                               (Nat.min (methodEndLine + 1) (length lines))))
       end)
    (Returned None).

End WithFileSystem.

(** ** Source files *)

(** The command line of the recursive search for [<className>.cs]. *)
Definition searchCommand (namespace : string) : string :=
  let parts := split "."%char namespace in
  let className := List.last parts EmptyString in
  let fileName := className +:+ ".cs" in
  "dir /s /b " +:+ dquote +:+ fileName +:+ dquote.

Section WithShell.

(** [execAsync(command, { cwd })]: the standard output, or a rejection. *)
Variable execAsync : string -> string -> outcome string.

Definition findSourceFile (namespace projectRoot : string) : outcome (option string) :=
  tryCatch
    (stdout ← execAsync (searchCommand namespace) projectRoot;
     let filePaths :=
       map trim (List.filter (fun p => truthy (trim p)) (split "010"%char (trim stdout))) in
     match filePaths with
     | [] => mret None
     | [p] => mret (Some p)
     | _ =>
         (* Multiple matches: score each and return best match *)
         let scored :=
           map (fun filePath => (filePath, calculateNamespaceScore filePath namespace projectRoot))
               filePaths in
         match sortBy (fun a b => snd b - snd a) scored with
         | best :: _ => mret (Some (fst best))
         | [] => Thrown
         end
     end)
    (Returned None).

End WithShell.

End FileFinder.

(* ===================================================================== *)
(** * git-blame-refined: commit history of a line range                   *)
(* ===================================================================== *)

Module GitBlameRefined.

Import GitAdvanced.

Record GitBlameAnalysis : Type := mkAnalysis {
  commitHash : string;
  author : string;
  commitDate : calendarDate;
  commitMessage : string;
  prNumber : option string;
  prUrl : option string;
  prSource : option prSourceT;
  inDateRange : bool;
  withinOneYear : bool
}.

(** [/^([a-f0-9]+)\s+/], anchored at the start of the line. *)
Definition reCommitLine : regex :=
  Cat (Cap 1 (Plus (Cls isLowerHex))) (Plus (Cls isSpace)).

(** The [Map] from hash to record, in insertion order.  Its values are
    objects: [currentCommit] is a reference to one of them, kept here as the
    key under which that object is stored, and an assignment through
    [currentCommit] updates the stored record. *)
Definition commitMapT : Type := list (string * GitBlameAnalysis).

Record parseState : Type := mkState {
  commitMap : commitMapT;
  currentCommit : option string
}.

Definition mapHas (hash : string) (m : commitMapT) : bool :=
  existsb (fun kv => String.eqb (fst kv) hash) m.

(** [commitMap.set(hash, record)] for a key that may be present. *)
Fixpoint mapSet (hash : string) (record : GitBlameAnalysis) (m : commitMapT) : commitMapT :=
  match m with
  | [] => [(hash, record)]
  | (h, r) :: rest =>
      if String.eqb h hash then (h, record) :: rest else (h, r) :: mapSet hash record rest
  end.

(** An assignment to fields of the object stored under [hash]. *)
Fixpoint mapUpdate (hash : string) (f : GitBlameAnalysis -> GitBlameAnalysis)
    (m : commitMapT) : commitMapT :=
  match m with
  | [] => []
  | (h, r) :: rest =>
      if String.eqb h hash then (h, f r) :: rest else (h, r) :: mapUpdate hash f rest
  end.

Definition mapValues (m : commitMapT) : list GitBlameAnalysis := map snd m.

Definition newCommit (hash : string) : GitBlameAnalysis :=
  {| commitHash := hash;
     author := "Unknown";
     commitDate := None;
     commitMessage := EmptyString;
     prNumber := None;
     prUrl := None;
     prSource := None;
     inDateRange := false;
     withinOneYear := false |}.

Definition setAuthor (a : string) (c : GitBlameAnalysis) : GitBlameAnalysis :=
  {| commitHash := commitHash c; author := a; commitDate := commitDate c;
     commitMessage := commitMessage c; prNumber := prNumber c; prUrl := prUrl c;
     prSource := prSource c; inDateRange := inDateRange c;
     withinOneYear := withinOneYear c |}.

Definition setCommitDate (d : calendarDate) (c : GitBlameAnalysis) : GitBlameAnalysis :=
  {| commitHash := commitHash c; author := author c; commitDate := d;
     commitMessage := commitMessage c; prNumber := prNumber c; prUrl := prUrl c;
     prSource := prSource c; inDateRange := inDateRange c;
     withinOneYear := withinOneYear c |}.

Section Analysis.

(** Offset of the local time zone, the user's start date as parsed by
    [new Date(startDate)], and the instant [oneYearAgo] taken from the clock. *)
Variable tza : Z.
Variable startDate : calendarDate.
Variable oneYearAgo : Z.

Definition startDateObj : option Z := setHours0 tza (dateOfCalendar startDate).

(** The body of the [summary] branch. *)
Definition setSummary (message : string) (c : GitBlameAnalysis) : GitBlameAnalysis :=
  let pr := extractPRNumber message in
  let '(number, url, source) :=
    match GitAdvanced.prNumber pr with
    | Some n =>
        if truthy n
        then (Some n, Some (getPRUrl n (GitAdvanced.prSource pr)), GitAdvanced.prSource pr)
        else (prNumber c, prUrl c, prSource c)
    | None => (prNumber c, prUrl c, prSource c)
    end in
  (* Check if in user-specified date range *)
  let commitDateObj := setHours0 tza (dateOfCalendar (commitDate c)) in
  {| commitHash := commitHash c; author := author c; commitDate := commitDate c;
     commitMessage := message; prNumber := number; prUrl := url; prSource := source;
     inDateRange := dateGe commitDateObj startDateObj;
     withinOneYear := dateGe commitDateObj (Some oneYearAgo) |}.

Definition tab : ascii := "009"%char.

(** The first half of the loop body: a commit line of a hash not seen yet
    creates the record and makes it current. *)
Definition stepCommitLine (line : string) (st : parseState) : parseState :=
  match matchHere reCommitLine line with
  | Some m =>
      if negb (includesChar tab line) then
        match group 1 m with
        | Some hash =>
            if negb (mapHas hash (commitMap st))
            then mkState (mapSet hash (newCommit hash) (commitMap st)) (Some hash)
            else st
        | None => st
        end
      else st
  | None => st
  end.

(** An assignment through [currentCommit]. *)
Definition assign (cur : string) (f : GitBlameAnalysis -> GitBlameAnalysis)
    (st : parseState) : parseState :=
  mkState (mapUpdate cur f (commitMap st)) (Some cur).

(** The second half: metadata lines write through [currentCommit].  Every
    branch of the chain is guarded by [&& currentCommit], so nothing is done
    while it is null. *)
Definition stepMetadata (line : string) (st : parseState) : outcome parseState :=
  match currentCommit st with
  | None => mret st
  | Some cur =>
      if startsWith "author " line then
        mret (assign cur (setAuthor (replaceFirst "author " EmptyString line)) st)
      else if startsWith "author-time " line then
        let timestamp := parseInt (replaceFirst "author-time " EmptyString line) in
        d ← toISODate (dateOfNumber (option_map (fun t => t * 1000) timestamp));
        mret (assign cur (setCommitDate d) st)
      else if startsWith "summary " line then
        mret (assign cur (setSummary (replaceFirst "summary " EmptyString line)) st)
      else mret st
  end.

Definition step (line : string) (st : parseState) : outcome parseState :=
  if negb (truthy (trim line)) then mret st
  else stepMetadata line (stepCommitLine line st).

Fixpoint parseLines (lines : list string) (st : parseState) : outcome parseState :=
  match lines with
  | [] => mret st
  | line :: rest => st' ← step line st; parseLines rest st'
  end.

Definition parseBlame (stdout : string) : outcome commitMapT :=
  st ← parseLines (split "010"%char stdout) (mkState [] None);
  mret (commitMap st).

(** The comparator of the final sort; a NaN difference counts as 0. *)
Definition byDateDesc (a b : GitBlameAnalysis) : Z :=
  match dateOfCalendar (commitDate b), dateOfCalendar (commitDate a) with
  | Some tb, Some ta => tb - ta
  | _, _ => 0
  end.

Definition postProcess (m : commitMapT) : list GitBlameAnalysis :=
  sortBy byDateDesc (List.filter withinOneYear (mapValues m)).

(** [execAsync(command, { cwd })]: the standard output, or a rejection. *)
Variable execAsync : string -> string -> outcome string.

Definition blameCommand (filePath : string) (lineStart lineEnd : option nat) : string :=
  "git blame -l --incremental"
  +:+ match lineStart, lineEnd with
      | Some s, Some e => " -L " +:+ pretty s +:+ "," +:+ pretty e
      | _, _ => EmptyString
      end
  +:+ " " +:+ FileFinder.dquote +:+ filePath +:+ FileFinder.dquote.

Definition analyzeBlameResults (filePath : string) (lineStart lineEnd : option nat)
    (projectRoot : string) : outcome (list GitBlameAnalysis) :=
  tryCatch
    (stdout ← execAsync (blameCommand filePath lineStart lineEnd) projectRoot;
     m ← parseBlame stdout;
     mret (postProcess m))
    (Returned []).

End Analysis.

End GitBlameRefined.

(* ===================================================================== *)
(** * Notions used to state the properties                                *)
(* ===================================================================== *)

Module RegexProps.

Fixpoint allChars (p : ascii -> bool) (s : string) : bool :=
  match s with
  | EmptyString => true
  | String c s' => p c && allChars p s'
  end.

(** A non-empty run of digits. *)
Definition isNumber (ds : string) : Prop := ds <> EmptyString /\ allChars isDigit ds = true.

(** The head of [s], if any, is not in the class [p]. *)
Definition headOutside (p : ascii -> bool) (s : string) : Prop :=
  match s with
  | EmptyString => True
  | String c _ => p c = false
  end.

(** [w] occurs in [s]. *)
Definition contains (w s : string) : Prop := exists a b, s = a +:+ w +:+ b.

(** Group [i] takes part in every match of [r]. *)
Fixpoint setsGroup (i : nat) (r : regex) : bool :=
  match r with
  | Cap j r1 => Nat.eqb i j || setsGroup i r1
  | Cat r1 r2 => setsGroup i r1 || setsGroup i r2
  | Alt r1 r2 => setsGroup i r1 && setsGroup i r2
  | _ => false
  end.

(** A matcher hands to its continuation captures in which group [i] is
    present if it was before or, when [strict], in any case. *)
Definition keepsGroup (i : nat) (strict : bool)
    (body : string -> captures -> cont -> option captures) : Prop :=
  forall s caps k res, body s caps k = Some res ->
    exists s' caps', k s' caps' = Some res /\
      (strict = true \/ is_Some (group i caps) -> is_Some (group i caps')).

End RegexProps.

Module FileProps.

Import FileFinder.

(** Opening minus closing braces of a line. *)
Definition braceDelta (line : string) : Z :=
  countChar "{"%char line - countChar "}"%char line.

(** The brace counter after the given lines, started at 0. *)
Definition runningCount (lines : list string) : Z :=
  fold_right (fun line acc => braceDelta line + acc) 0 lines.

(** Leading parts that agree, up to the first mismatch: the consecutive
    prefix matches of the specification. *)
Fixpoint consecutivePrefix (pathParts namespaceParts : list string) : Z :=
  match pathParts, namespaceParts with
  | p :: ps, n :: ns =>
      if String.eqb (toLowerCase p) n then 1 + consecutivePrefix ps ns else 0
  | _, _ => 0
  end.

(** The namespace affinity score as the specification words it. *)
Definition affinityScore (filePath namespace projectRoot : string) : Z :=
  let relativePath := relativePathOf filePath projectRoot in
  let namespaceParts := namespacePartsOf namespace in
  100 * consecutivePrefix (split "/"%char relativePath) namespaceParts
  + 10 * countContained relativePath namespaceParts.

(** An interface with a member that has no body. *)
Definition interfaceFile : string :=
  joinLines
    [ "interface IOrders {";
      "  void Submit(Order o);";
      "}" ].

Definition interfaceDisk (filePath : string) : fileState :=
  if String.eqb filePath "IOrders.cs" then FileContent interfaceFile else NoFile.

(** A shell on which every command fails. *)
Definition brokenShell (command cwd : string) : outcome string := Thrown.

End FileProps.

Module BlameProps.

Import GitAdvanced GitBlameRefined.

(** The test of the first half of the loop body: the line starts with a
    lower-case hexadecimal word followed by white space and has no tab. *)
Definition isCommitLine (line : string) : bool :=
  match matchHere reCommitLine line with
  | Some _ => negb (includesChar tab line)
  | None => false
  end.

(** The shape of the blame output the analysis relies on: the summary is the
    last field of a commit, so every [author-time] line is followed by a
    [summary] line before the next commit line and before the end.
    [pending] tells that an [author-time] line still waits for its summary. *)
Fixpoint summaryFollowsTime (pending : bool) (lines : list string) : bool :=
  match lines with
  | [] => negb pending
  | line :: rest =>
      if negb (truthy (trim line)) then summaryFollowsTime pending rest
      else if isCommitLine line && pending then false
      else if startsWith "author " line then summaryFollowsTime pending rest
      else if startsWith "author-time " line then summaryFollowsTime true rest
      else if startsWith "summary " line then summaryFollowsTime false rest
      else summaryFollowsTime pending rest
  end.

(** [a] is dated no earlier than [b], both dates being known. *)
Definition dateDesc (a b : GitBlameAnalysis) : Prop :=
  match commitDate a, commitDate b with
  | Some da, Some db => db <= da
  | _, _ => False
  end.

(** A record whose date, if any, is within the range of time values. *)
Definition dateInRange (c : GitBlameAnalysis) : Prop :=
  forall d, commitDate c = Some d -> Z.abs (d * msPerDay) <= maxTime.

(** A number is present exactly when a source is. *)
Definition refComplete (c : GitBlameAnalysis) : Prop :=
  is_Some (prNumber c) <-> is_Some (prSource c).

(** A retained record has a date, and dates are within the range of time
    values. *)
Definition dated (c : GitBlameAnalysis) : Prop :=
  dateInRange c /\ (withinOneYear c = true -> is_Some (commitDate c)).

(** A retained record is classified by its date against the start day [ds]. *)
Definition classified (ds : Z) (c : GitBlameAnalysis) : Prop :=
  withinOneYear c = true ->
  exists dc, commitDate c = Some dc /\ (inDateRange c = true <-> ds <= dc).

(** Hashes are stored once, and all records are classified, the current
    one apart while an [author-time] line waits for its summary. *)
Definition settled (ds : Z) (pending : bool) (st : parseState) : Prop :=
  NoDup (map fst (commitMap st)) /\
  forall h c, (h, c) ∈ commitMap st ->
    (pending = true /\ currentCommit st = Some h) \/ classified ds c.

(** Sample outputs of the blame tool.  Day 19675 is 2023-11-14: the first
    commit below is dated that day, the second the day before. *)
Definition blameOutput : string :=
  joinLines
    [ "1f3a9c 12 12 2";
      "author Alice";
      "author-time 1700000000";
      "summary Fix rounding (PR 1532)";
      "7be2d0 14 14 1";
      "author Bob";
      "author-time 1699900000";
      "summary Initial import";
      "1f3a9c 15 15 1";
      "filename Orders.cs";
      EmptyString ].

(** An output in which the metadata of a commit is repeated each time the
    commit is named, as the per-line modes of the blame tool print it: the
    first mention of two commits, then a second mention of the first one. *)
Definition firstMentions : string :=
  joinLines
    [ "1f3a9c 12 12 1";
      "author Alice";
      "author-time 1700000000";
      "summary Fix rounding (PR 1532)";
      "7be2d0 13 13 1";
      "author Bob";
      "author-time 1699900000";
      "summary Initial import";
      EmptyString ].

Definition secondMention : string :=
  joinLines
    [ "1f3a9c 14 14 1";
      "author Alice";
      "author-time 1700000000";
      "summary Fix rounding (PR 1532)";
      EmptyString ].

Definition repeatedMetadata : string := firstMentions +:+ secondMention.

Definition fixRounding : GitBlameAnalysis :=
  {| commitHash := "1f3a9c";
     author := "Alice";
     commitDate := Some 19675;
     commitMessage := "Fix rounding (PR 1532)";
     prNumber := Some "1532";
     prUrl := Some "https://devops.wisetechglobal.com/wtg/CargoWise/_git/Dev/pullrequest/1532";
     prSource := Some azure;
     inDateRange := true;
     withinOneYear := true |}.

Definition initialImport : GitBlameAnalysis :=
  {| commitHash := "7be2d0";
     author := "Bob";
     commitDate := Some 19674;
     commitMessage := "Initial import";
     prNumber := None;
     prUrl := None;
     prSource := None;
     inDateRange := false;
     withinOneYear := true |}.

(** What the record of the second commit becomes once the metadata of the
    first commit has been read again. *)
Definition overwrittenImport : GitBlameAnalysis :=
  {| commitHash := "7be2d0";
     author := "Alice";
     commitDate := Some 19675;
     commitMessage := "Fix rounding (PR 1532)";
     prNumber := Some "1532";
     prUrl := Some "https://devops.wisetechglobal.com/wtg/CargoWise/_git/Dev/pullrequest/1532";
     prSource := Some azure;
     inDateRange := true;
     withinOneYear := true |}.

Definition shellPrinting (stdout : string) (command cwd : string) : outcome string :=
  Returned stdout.

End BlameProps.

(* ===================================================================== *)
(** * More host-language primitives                                       *)
(* ===================================================================== *)

Module JsMore.

(** [m[0]] and the captures of a match of [r] at the head of [s]. *)
Definition execHere (r : regex) (s : string) : option (string * captures) :=
  match matchRe r s [] (fun rest caps =>
          Some ((0%nat, takeN (String.length s - String.length rest) s) :: caps)) with
  | Some ((_, whole) :: caps) => Some (whole, caps)
  | _ => None
  end.

(** [s.replace(re, replacement)] for a pattern with the [g] flag and a
    replacement without [$]: matches are taken from left to right, each
    search resuming where the last match ended, one position further after
    an empty match.  [skip] characters of [s] belong to the match just
    replaced. *)
Fixpoint replaceAllFrom (r : regex) (replacement : string) (skip : nat) (s : string)
    : string :=
  match skip with
  | S skip' =>
      match s with
      | EmptyString => EmptyString
      | String _ s' => replaceAllFrom r replacement skip' s'
      end
  | O =>
      match execHere r s with
      | Some (whole, _) =>
          replacement +:+
          match s with
          | EmptyString => EmptyString
          | String c s' =>
              match String.length whole with
              | O => String c (replaceAllFrom r replacement 0 s')
              | S n => replaceAllFrom r replacement n s'
              end
          end
      | None =>
          match s with
          | EmptyString => EmptyString
          | String c s' => String c (replaceAllFrom r replacement 0 s')
          end
      end
  end.

Definition replaceAll (r : regex) (replacement s : string) : string :=
  replaceAllFrom r replacement 0 s.

(** [re.test(s)] for a pattern written between [^] and [$]. *)
Definition testWhole (r : regex) (s : string) : bool :=
  match matchRe r s [] (fun rest caps =>
          match rest with EmptyString => Some caps | _ => None end) with
  | Some _ => true
  | None => false
  end.

(** [[A-Za-z]] and [[A-Za-z0-9]] *)
Definition isLetter (c : ascii) : bool :=
  let n := code c in
  (((65 <=? n) && (n <=? 90)) || ((97 <=? n) && (n <=? 122)))%N.

Definition isAlnum (c : ascii) : bool := isLetter c || isDigit c.

(** [s.split(sep)] for a separator of any length but zero: the pieces
    between the occurrences of [sep], taken from left to right.  [skip]
    characters of [s] belong to the occurrence just found. *)
Fixpoint splitOnFrom (sep : string) (skip : nat) (s : string) : list string :=
  match s with
  | EmptyString => [EmptyString]
  | String c s' =>
      match skip with
      | S skip' => splitOnFrom sep skip' s'
      | O =>
          if String.prefix sep s
          then EmptyString :: splitOnFrom sep (String.length sep - 1) s'
          else match splitOnFrom sep 0 s' with
               | w :: ws => String c w :: ws
               | [] => [String c EmptyString]
               end
      end
  end.

Definition splitOn (sep s : string) : list string := splitOnFrom sep 0 s.

End JsMore.

(* ===================================================================== *)
(** * stack-trace-parser: the frames of a trace                           *)
(* ===================================================================== *)

Module TraceParser.

Import JsMore StackTraceParser.

(** [[A-Za-z0-9._]] *)
Definition isNamespaceChar (c : ascii) : bool :=
  isAlnum c || match c with "."%char | "_"%char => true | _ => false end.

(** The class of the method token: letters, digits, underscore, backtick,
    angle brackets, dollar, plus and square brackets. *)
Definition isMethodChar (c : ascii) : bool :=
  isAlnum c ||
  match c with
  | "_"%char | "`"%char | "<"%char | ">"%char | "$"%char | "+"%char | "["%char | "]"%char => true
  | _ => false
  end.

(** The frame pattern: "at", white space, the namespace (group 1), a dot,
    the method token (group 2), an opening parenthesis. *)
Definition reFrame : regex :=
  Cat (Word Lit "at")
 (Cat (Plus (Cls isSpace))
 (Cat (Cap 1 (Plus (Cls isNamespaceChar)))
 (Cat (Lit "."%char)
 (Cat (Cap 2 (Plus (Cls isMethodChar)))
      (Lit "("%char))))).

(** A backtick and digits: the arity marker of generics. *)
Definition reArity : regex := Cat (Lit "`"%char) (Plus (Cls isDigit)).

(** An opening bracket, a lazy run of any characters, a closing bracket. *)
Definition reBracketed : regex :=
  Cat (Lit "["%char) (Cat (Rep false (Cls isDot)) (Lit "]"%char)).

(** A dollar followed by an opening angle bracket. *)
Definition reDollarAngle : regex := Cat (Lit "$"%char) (Lit "<"%char).

(** Clean up method name (remove generic type parameters for searching) *)
Definition cleanMethodName (methodName : string) : string :=
  hd EmptyString
    (split ">"%char
       (replaceAll reDollarAngle "<"
          (replaceAll reBracketed EmptyString
             (replaceAll reArity EmptyString methodName)))).

(** The body of the loop for line [i]. *)
Definition parseLine (i : nat) (line : string) : list StackTraceEntry :=
  match search reFrame line with
  | Some m =>
      match group 1 m, group 2 m with
      | Some namespace, Some methodName =>
          (* Skip System.* entries *)
          if startsWith "System" namespace then []
          else [mkEntry namespace (cleanMethodName methodName) line i]
      | _, _ => []
      end
  | None => []
  end.

Fixpoint parseFrom (i : nat) (lines : list string) : list StackTraceEntry :=
  match lines with
  | [] => []
  | line :: rest => parseLine i line ++ parseFrom (S i) rest
  end.

Definition parseStackTrace (stackTrace : string) : list StackTraceEntry :=
  parseFrom 0 (split "010"%char stackTrace).

End TraceParser.

(* ===================================================================== *)
(** * Notions used to state the further properties                        *)
(* ===================================================================== *)

Module RegexSemantics.

(** The words a pattern matches, priorities and captures left aside. *)
Inductive lang : regex -> string -> Prop :=
| lang_Emp : lang Emp EmptyString
| lang_Cls p c : p c = true -> lang (Cls p) (String c EmptyString)
| lang_Cat r1 r2 s1 s2 : lang r1 s1 -> lang r2 s2 -> lang (Cat r1 r2) (s1 +:+ s2)
| lang_AltL r1 r2 s : lang r1 s -> lang (Alt r1 r2) s
| lang_AltR r1 r2 s : lang r2 s -> lang (Alt r1 r2) s
| lang_RepNil g r : lang (Rep g r) EmptyString
| lang_RepCons g r s1 s2 : lang r s1 -> lang (Rep g r) s2 -> lang (Rep g r) (s1 +:+ s2)
| lang_Cap i r s : lang r s -> lang (Cap i r) s.

(** The capture groups of a pattern, each with its own pattern. *)
Fixpoint capsOf (r : regex) : list (nat * regex) :=
  match r with
  | Cat r1 r2 | Alt r1 r2 => capsOf r1 ++ capsOf r2
  | Rep _ r1 => capsOf r1
  | Cap i r1 => (i, r1) :: capsOf r1
  | _ => []
  end.

(** What a capture of [caps'] is when the captures were [caps] before [r]
    was matched: an old one, or a word of a group of [r]. *)
Definition capturedBy (r : regex) (caps caps' : captures) : Prop :=
  forall i v, group i caps' = Some v ->
    group i caps = Some v \/ exists r1, In (i, r1) (capsOf r) /\ lang r1 v.

(** A matcher that consumes a word of [r] and then goes on with [k]. *)
Definition matches (r : regex) (body : string -> captures -> cont -> option captures) : Prop :=
  forall s caps k res, body s caps k = Some res ->
    exists m rest caps', s = m +:+ rest /\ lang r m /\ k rest caps' = Some res /\
      capturedBy r caps caps'.

(** Non-empty, and every character in the class. *)
Definition wordOf (p : ascii -> bool) (s : string) : Prop :=
  s <> EmptyString /\ RegexProps.allChars p s = true.

End RegexSemantics.

Module FinderProps.

Import FileFinder FileProps.

(** The paths that the search printed: the non-blank lines of its trimmed
    output, each trimmed. *)
Definition candidatePaths (stdout : string) : list string :=
  map trim (List.filter (fun p => truthy (trim p)) (split "010"%char (trim stdout))).

(** The brace counter, started at [braceCount], has been positive by line
    [k] of [lines] (or [found] tells it was before) and is zero after line
    [k]: the test on which the scan for the end of a body stops. *)
Definition closesAt (braceCount : Z) (found : bool) (lines : list string) (k : nat) : Prop :=
  (found = true \/ exists j, (j <= k)%nat /\ 0 < braceCount + runningCount (take (S j) lines)) /\
  braceCount + runningCount (take (S k) lines) = 0.

(** The output of a search that found two files of the same name. *)
Definition twoCandidates : string :=
  joinLines [ "C:\proj\Legacy\OrderService.cs";
              "C:\proj\App\Orders\OrderService.cs";
              EmptyString ].

(** A class with one method, whose body holds a nested block. *)
Definition classFile : string :=
  joinLines
    [ "class OrderService";
      "{";
      "  public void Submit(Order o)";
      "  {";
      "    if (o.Valid) { Send(o); }";
      "  }";
      "}" ].

Definition classDisk (filePath : string) : fileState :=
  if String.eqb filePath "OrderService.cs" then FileContent classFile else NoFile.

End FinderProps.

Module HistoryProps.

Import GitAdvanced GitBlameRefined.

(** The date of a record as the comparisons see it: midnight of its day in
    the local zone. *)
Definition commitDateObj (tza : Z) (c : GitBlameAnalysis) : option Z :=
  setHours0 tza (dateOfCalendar (commitDate c)).

(** Both flags of a record are the comparisons of the date it holds. *)
Definition flagsExact (tza : Z) (startDate : calendarDate) (oneYearAgo : Z)
    (c : GitBlameAnalysis) : Prop :=
  inDateRange c = dateGe (commitDateObj tza c) (startDateObj tza startDate) /\
  withinOneYear c = dateGe (commitDateObj tza c) (Some oneYearAgo).

(** Hashes are stored once and every record satisfies [Q], the current one
    apart while an [author-time] line waits for its summary. *)
Definition settledBy (Q : GitBlameAnalysis -> Prop) (pending : bool) (st : parseState) : Prop :=
  NoDup (map fst (commitMap st)) /\
  forall h c, (h, c) ∈ commitMap st ->
    (pending = true /\ currentCommit st = Some h) \/ Q c.

(** Every record is stored under its own hash, a non-empty word of
    lower-case hexadecimal digits, and no hash is stored twice. *)
Definition keyedByHash (m : commitMapT) : Prop :=
  NoDup (map fst m) /\
  Forall (fun kv => commitHash (snd kv) = fst kv /\
                    RegexSemantics.wordOf isLowerHex (fst kv)) m.

(** The link of a record is the one built from its number and source, and
    the number is a non-empty word of digits. *)
Definition linked (c : GitBlameAnalysis) : Prop :=
  match prNumber c with
  | Some n => RegexSemantics.wordOf isDigit n /\ prUrl c = Some (getPRUrl n (prSource c))
  | None => prUrl c = None
  end.

End HistoryProps.

(* ===================================================================== *)
(** * analyze-stacktrace route: the analysis of a trace                   *)
(* ===================================================================== *)

Module Orchestrator.

Import JsMore GitBlameRefined.

Record AnalysisResult := mkResult {
  namespace : string;
  methodName : string;
  filePath : string;
  fileFound : bool;
  lineRange : option FileFinder.lineRange;
  methodFound : bool;
  gitBlameResults : list GitBlameAnalysis;
  error : option string
}.

Inductive stepStatus := Running | Complete | Error.

Record ProgressStep := mkStep {
  stepNumber : nat;
  totalSteps : nat;
  title : string;
  description : string;
  status : stepStatus;
  percentage : Z;
  timestamp : string
}.

Definition PROJECT_ROOT : string := "C:\git\GitHub\WiseTechGlobal\CargoWise".

(** The body of the request as [request.json()] yields it; a field is
    [None] when it is absent or null.  The two fields are taken to be
    strings when present, as the page that posts them sends them. *)
Record requestBody := mkBody {
  body_stackTrace : option string;
  body_startDate : option string
}.

Record summaryT := mkSummary {
  totalEntries : nat;
  filesFound : nat;
  methodsFound : nat;
  withChanges : nat;
  dateRange_startDate : string;
  dateRange_endDate : string
}.

(** The three answers of the route: status 400 with a message, status 200
    with results, summary and progress, status 500. *)
Inductive response :=
| Json400 (message : string)
| Json200 (results : list AnalysisResult) (summary : summaryT) (progress : list ProgressStep)
| Json500.

(** [!v] for a string that may be absent. *)
Definition falsy (v : option string) : bool :=
  match v with
  | Some s => negb (truthy s)
  | None => true
  end.

(** The pattern of the date check, between its anchors: four digits, a
    dash, two digits, a dash, two digits. *)
Definition reDateFormat : regex :=
  let d := Cls isDigit in
  let dash := Cls (eqChar "-") in
  Cat d (Cat d (Cat d (Cat d (Cat dash (Cat d (Cat d (Cat dash (Cat d d)))))))).

Section WithEnvironment.

(** The machine the route runs on: the shell and the file system of the
    file finder; the offset of the local zone; [new Date(startDate)] as a
    day; [Math.round((stepNumber / totalSteps) * 100)]; and the readings of
    the clock: the time stamp of the step pushed at each position of the
    log, the instant one year before the history analysis of each entry,
    and the day on which the answer is written. *)
Variable execAsync : string -> string -> outcome string.
Variable fs : string -> FileFinder.fileState.
Variable tza : Z.
Variable parseDate : string -> calendarDate.
Variable roundPercent : nat -> nat -> Z.
Variable timestampAt : nat -> string.
Variable oneYearAgoAt : nat -> Z.
Variable endDate : string.

(** The message of a value caught by the handler of the loop; [outcome]
    does not record what was thrown. *)
Variable caughtMessage : string.

(** [logProgress] on the module's array [progressSteps]; what it prints on
    the console is left out. *)
Definition logProgress (stepNumber totalSteps : nat) (title description : string)
    (status : stepStatus) (progressSteps : list ProgressStep) : list ProgressStep :=
  progressSteps ++
    [mkStep stepNumber totalSteps title description status
            (roundPercent stepNumber totalSteps)
            (timestampAt (length progressSteps))].

(** The body of the [try] of the loop for entry [i]: the result it pushes,
    or a throw, and the log as it stands then. *)
Definition analyzeEntry (startDate : string) (totalSteps i : nat)
    (entry : StackTraceParser.StackTraceEntry) (progressSteps : list ProgressStep)
    : outcome AnalysisResult * list ProgressStep :=
  let entry_namespace := StackTraceParser.namespace entry in
  let entry_methodName := StackTraceParser.methodName entry in
  let baseStep := (1 + i * 3)%nat in
  (* Step: Find source file *)
  let stepCounter := (baseStep + 1)%nat in
  let fileName := List.last (split "."%char entry_namespace) EmptyString in
  let progressSteps :=
    logProgress stepCounter totalSteps "Find Source File"
      ("Locating " +:+ fileName +:+ ".cs for " +:+ entry_namespace) Running progressSteps in
  match FileFinder.findSourceFile execAsync entry_namespace PROJECT_ROOT with
  | Thrown => (Thrown, progressSteps)
  | Returned found =>
      match (match found with Some p => if truthy p then Some p else None | None => None end) with
      | None =>
          let progressSteps :=
            logProgress stepCounter totalSteps "Find Source File"
              ("Source file not found for " +:+ entry_namespace +:+ ". Manual review needed.")
              Error progressSteps in
          (Returned (mkResult entry_namespace entry_methodName EmptyString false None false []
                       (Some "Source file not found. Please manually verify in codebase.")),
           progressSteps)
      | Some filePath =>
          let progressSteps :=
            logProgress stepCounter totalSteps "Find Source File" ("Found: " +:+ filePath)
              Complete progressSteps in
          (* Step: Find method location *)
          let stepCounter := (baseStep + 2)%nat in
          let progressSteps :=
            logProgress stepCounter totalSteps "Find Method Location"
              ("Searching for method " +:+ entry_methodName) Running progressSteps in
          match FileFinder.findMethodLineRange fs filePath entry_methodName with
          | Thrown => (Thrown, progressSteps)
          | Returned None =>
              let progressSteps :=
                logProgress stepCounter totalSteps "Find Method Location"
                  ("Method " +:+ entry_methodName
                   +:+ " not found. May be interface/base class. Manual review needed.")
                  Error progressSteps in
              (Returned (mkResult entry_namespace entry_methodName filePath true None false []
                           (Some "Method not found in file. May be defined in interface or base class.")),
               progressSteps)
          | Returned (Some range) =>
              let range_start := FileFinder.range_start range in
              let range_end := FileFinder.range_end range in
              let progressSteps :=
                logProgress stepCounter totalSteps "Find Method Location"
                  ("Found at lines " +:+ pretty range_start +:+ "-" +:+ pretty range_end)
                  Complete progressSteps in
              (* Step: Query git blame *)
              let stepCounter := (baseStep + 3)%nat in
              let progressSteps :=
                logProgress stepCounter totalSteps "Query Git History"
                  ("Analyzing git blame for lines " +:+ pretty range_start +:+ "-"
                   +:+ pretty range_end) Running progressSteps in
              match analyzeBlameResults tza (parseDate startDate) (oneYearAgoAt i) execAsync
                      filePath (Some range_start) (Some range_end) PROJECT_ROOT with
              | Thrown => (Thrown, progressSteps)
              | Returned blame =>
                  let changesInRange := length (List.filter inDateRange blame) in
                  let progressSteps :=
                    logProgress stepCounter totalSteps "Query Git History"
                      ("Found " +:+ pretty (length blame) +:+ " commits ("
                       +:+ pretty changesInRange +:+ " in date range)")
                      Complete progressSteps in
                  (Returned (mkResult entry_namespace entry_methodName filePath true
                               (Some range) true blame None),
                   progressSteps)
              end
          end
      end
  end.

(** One turn of the loop: the [try] and its [catch]. *)
Definition processEntry (startDate : string) (totalSteps i : nat)
    (entry : StackTraceParser.StackTraceEntry) (progressSteps : list ProgressStep)
    : AnalysisResult * list ProgressStep :=
  match analyzeEntry startDate totalSteps i entry progressSteps with
  | (Returned result, progressSteps) => (result, progressSteps)
  | (Thrown, progressSteps) =>
      let entry_namespace := StackTraceParser.namespace entry in
      let entry_methodName := StackTraceParser.methodName entry in
      let stepCounter := (1 + i * 3 + 3)%nat in
      let progressSteps :=
        logProgress stepCounter totalSteps "Error"
          (entry_namespace +:+ "." +:+ entry_methodName +:+ ": " +:+ caughtMessage)
          Error progressSteps in
      (mkResult entry_namespace entry_methodName EmptyString false None false []
         (Some caughtMessage),
       progressSteps)
  end.

(** The loop over the entries from index [i] on. *)
Fixpoint processEntries (startDate : string) (totalSteps i : nat)
    (entries : list StackTraceParser.StackTraceEntry)
    (results : list AnalysisResult) (progressSteps : list ProgressStep)
    : list AnalysisResult * list ProgressStep :=
  match entries with
  | [] => (results, progressSteps)
  | entry :: rest =>
      let '(result, progressSteps) :=
        processEntry startDate totalSteps i entry progressSteps in
      processEntries startDate totalSteps (S i) rest (results ++ [result]) progressSteps
  end.

(** [POST]: from the outcome of reading the two fields off
    [request.json()] ([Thrown] when the body is no JSON or no object) and
    the array [progressSteps] as earlier requests left it, the answer and
    the array as this request leaves it. *)
Definition POST (json : outcome requestBody) (progressSteps : list ProgressStep)
    : response * list ProgressStep :=
  match json with
  | Thrown => (Json500, progressSteps)
  | Returned body =>
      if falsy (body_stackTrace body) || falsy (body_startDate body)
      then (Json400 "Missing stackTrace or startDate", progressSteps)
      else
        let stackTrace := default EmptyString (body_stackTrace body) in
        let startDate := default EmptyString (body_startDate body) in
        if negb (testWhole reDateFormat startDate)
        then (Json400 "Invalid date format. Use YYYY-MM-DD", progressSteps)
        else
          let progressSteps : list ProgressStep := [] in
          (* Step 1: Parse stack trace *)
          let stepCounter := 1%nat in
          let progressSteps :=
            logProgress stepCounter 1 "Parse Stack Trace" "Extracting stack trace entries"
              Running progressSteps in
          let entries := TraceParser.parseStackTrace stackTrace in
          let entries := StackTraceParser.deduplicateEntries entries in
          if (length entries =? 0)%nat
          then (Json400 "No valid custom code entries found in stack trace (filtered out System.* entries)",
                progressSteps)
          else
            let progressSteps :=
              logProgress stepCounter (length entries + 1) "Parse Stack Trace"
                ("Found " +:+ pretty (length entries) +:+ " entries") Complete progressSteps in
            (* Calculate total steps: 1 parse + 3 per entry *)
            let totalSteps := (1 + length entries * 3)%nat in
            let '(results, progressSteps) :=
              processEntries startDate totalSteps 0 entries [] progressSteps in
            let filesFound := length (List.filter fileFound results) in
            let methodsFound := length (List.filter methodFound results) in
            let withChanges :=
              length (List.filter (fun r => existsb inDateRange (gitBlameResults r)) results) in
            (Json200 results
               (mkSummary (length results) filesFound methodsFound withChanges startDate endDate)
               progressSteps,
             progressSteps)
  end.

End WithEnvironment.

End Orchestrator.

Module RouteProps.

Import Orchestrator.

(** Ten characters: digits with a dash in the fifth and the eighth place. *)
Definition dateShaped (s : string) : bool :=
  match s with
  | String y1 (String y2 (String y3 (String y4 (String d1 (String m1 (String m2
      (String d2 (String a1 (String a2 EmptyString))))))))) =>
      isDigit y1 && isDigit y2 && isDigit y3 && isDigit y4 && eqChar "-" d1
      && isDigit m1 && isDigit m2 && eqChar "-" d2 && isDigit a1 && isDigit a2
  | _ => false
  end.

Definition resultKey (r : AnalysisResult) : string :=
  namespace r +:+ "." +:+ methodName r.

Definition fileMissingMessage : string :=
  "Source file not found. Please manually verify in codebase.".

Definition methodMissingMessage : string :=
  "Method not found in file. May be defined in interface or base class.".

Definition entryPair (e : StackTraceParser.StackTraceEntry) : string * string :=
  (StackTraceParser.namespace e, StackTraceParser.methodName e).

Definition resultPair (r : AnalysisResult) : string * string :=
  (namespace r, methodName r).

Section Stages.

Variable execAsync : string -> string -> outcome string.
Variable fs : string -> FileFinder.fileState.
Variable tza : Z.
Variable start : calendarDate.
Variable oneYearAgoAt : nat -> Z.

(** The three ways the analysis of an entry ends: at the search for the
    file, at the search for the method, or with the history of the lines of
    the method. *)
Definition stoppedAtFile (r : AnalysisResult) : Prop :=
  (FileFinder.findSourceFile execAsync (namespace r) PROJECT_ROOT = Returned None \/
   FileFinder.findSourceFile execAsync (namespace r) PROJECT_ROOT = Returned (Some EmptyString)) /\
  fileFound r = false /\ methodFound r = false /\ filePath r = EmptyString /\
  lineRange r = None /\ gitBlameResults r = [] /\ error r = Some fileMissingMessage.

Definition stoppedAtMethod (r : AnalysisResult) : Prop :=
  FileFinder.findSourceFile execAsync (namespace r) PROJECT_ROOT = Returned (Some (filePath r)) /\
  FileFinder.findMethodLineRange fs (filePath r) (methodName r) = Returned None /\
  fileFound r = true /\ methodFound r = false /\ filePath r <> EmptyString /\
  lineRange r = None /\ gitBlameResults r = [] /\ error r = Some methodMissingMessage.

Definition analysed (i : nat) (r : AnalysisResult) : Prop :=
  FileFinder.findSourceFile execAsync (namespace r) PROJECT_ROOT = Returned (Some (filePath r)) /\
  fileFound r = true /\ methodFound r = true /\ filePath r <> EmptyString /\ error r = None /\
  exists range,
    FileFinder.findMethodLineRange fs (filePath r) (methodName r) = Returned (Some range) /\
    lineRange r = Some range /\
    (1 <= FileFinder.range_start range <= FileFinder.range_end range)%nat /\
    GitBlameRefined.analyzeBlameResults tza start (oneYearAgoAt i) execAsync (filePath r)
      (Some (FileFinder.range_start range)) (Some (FileFinder.range_end range)) PROJECT_ROOT
    = Returned (gitBlameResults r).

Definition settledResult (i : nat) (r : AnalysisResult) : Prop :=
  stoppedAtFile r \/ stoppedAtMethod r \/ analysed i r.

End Stages.

(** A step that was started and the step that closes it. *)
Definition closes (opened closed : ProgressStep) : Prop :=
  status opened = Running /\ status closed <> Running /\
  stepNumber closed = stepNumber opened /\ title closed = title opened.

(** The log is a sequence of started steps, each directly followed by the
    step that closes it. *)
Fixpoint paired (log : list ProgressStep) : Prop :=
  match log with
  | [] => True
  | opened :: closed :: rest => closes opened closed /\ paired rest
  | [_] => False
  end.

(** What one turn of the loop adds to the log. *)
Definition turnSteps (total i : nat) (r : AnalysisResult) (steps : list ProgressStep) : Prop :=
  paired steps /\
  length steps = (2 * (1 + Nat.b2n (fileFound r) + Nat.b2n (methodFound r)))%nat /\
  Forall (fun s => totalSteps s = total /\ (2 + 3 * i <= stepNumber s <= 4 + 3 * i)%nat) steps /\
  StronglySorted le (stepNumber <$> steps).

(** What the loop adds from index [i] on. *)
Definition loopSteps (total i n : nat) (rs : list AnalysisResult) (steps : list ProgressStep)
    : Prop :=
  paired steps /\
  length steps = (2 * (length rs + length (List.filter fileFound rs)
                       + length (List.filter methodFound rs)))%nat /\
  Forall (fun s => totalSteps s = total /\ (2 + 3 * i <= stepNumber s <= 1 + 3 * (i + n))%nat)
    steps /\
  StronglySorted le (stepNumber <$> steps).

(** The two steps that the parse of the trace logs, the second with a
    total of its own. *)
Definition parseSteps (n : nat) (s1 s2 : ProgressStep) : Prop :=
  closes s1 s2 /\ stepNumber s1 = 1%nat /\ totalSteps s1 = 1%nat /\ totalSteps s2 = (n + 1)%nat.

(** A request and a machine to run it on: the search finds the file of
    [FinderProps.classDisk] and the blame tool prints
    [BlameProps.blameOutput]. *)
Definition sampleTrace : string :=
  joinLines
    [ "System.InvalidOperationException: Sequence contains no elements";
      "   at System.Linq.Enumerable.First(IEnumerable source)";
      "   at Acme.Orders.OrderService.Submit(Order o)";
      "   at Acme.Orders.OrderService.Cancel(Order o)";
      "   at Acme.Billing.Invoices.Post(Invoice i)";
      "   at Acme.Orders.OrderService.Submit(Order o)" ].

Definition sampleShell (command cwd : string) : outcome string :=
  if startsWith "git blame" command then Returned BlameProps.blameOutput
  else if includes "OrderService.cs" command then Returned "OrderService.cs"
  else Returned EmptyString.

Definition sampleRequest (startDate : string) : outcome requestBody :=
  Returned (mkBody (Some sampleTrace) (Some startDate)).

Definition sampleRun (parseDate : string -> calendarDate) (startDate : string)
    : response * list ProgressStep :=
  POST sampleShell FinderProps.classDisk (-18000000) parseDate
    (fun stepNumber totalSteps => Z.of_nat (stepNumber * 100 / totalSteps))
    (fun _ => "2024-05-01T10:00:00.000Z") (fun _ => 1690000000000) "2024-05-01"
    "unexpected" (sampleRequest startDate) [].

End RouteProps.

(* ===================================================================== *)
(** * progress-tracker: the class ProgressTracker                         *)
(* ===================================================================== *)

Module ProgressTracker.

Inductive stepStatus := pending | running | success | error.

Section WithNumbers.

(** The numbers that [percentage] holds: with a total of 0 the quotient is
    not finite, so the type is left open. *)
Variable number : Type.

Record ProgressStep := mkStep {
  stepNumber : nat;
  totalSteps : nat;
  stepName : string;
  details : string;
  status : stepStatus;
  percentage : number;
  timestamp : string
}.

(** An instance of the class.  An observer is known by the position at
    which [subscribe] pushed it; [calls] records each call of an observer
    with the step as it was when passed, and [ticks] counts the readings of
    the clock.  What is printed on the console is left out. *)
Record tracker := mkTracker {
  steps : list ProgressStep;
  currentStepNumber : nat;
  tracker_totalSteps : nat;
  observers : nat;
  calls : list (nat * ProgressStep);
  ticks : nat
}.

(** [Math.round((stepNumber / totalSteps) * 100)] and the readings of
    [new Date().toLocaleTimeString()]. *)
Variable roundPercent : nat -> nat -> number.
Variable timeAt : nat -> string.

Definition new (totalSteps : nat) : tracker :=
  mkTracker [] 0 totalSteps 0 [] 0.

(** [observers.forEach((observer) => observer(step))] *)
Definition notify (step : ProgressStep) (t : tracker) : tracker :=
  mkTracker (steps t) (currentStepNumber t) (tracker_totalSteps t) (observers t)
    (calls t ++ map (fun observer => (observer, step)) (seq 0 (observers t)))
    (ticks t).

Definition subscribe (t : tracker) : tracker :=
  let observer := observers t in
  (* Send all existing steps to new observer *)
  mkTracker (steps t) (currentStepNumber t) (tracker_totalSteps t) (S (observers t))
    (calls t ++ map (fun step => (observer, step)) (steps t))
    (ticks t).

Definition startStep (stepName details : string) (t : tracker) : nat * tracker :=
  let currentStepNumber := S (currentStepNumber t) in
  let percentage := roundPercent currentStepNumber (tracker_totalSteps t) in
  let step :=
    mkStep currentStepNumber (tracker_totalSteps t) stepName details running percentage
      (timeAt (ticks t)) in
  let t :=
    mkTracker (steps t ++ [step]) currentStepNumber (tracker_totalSteps t) (observers t)
      (calls t) (S (ticks t)) in
  (stepNumber step, notify step t).

(** [this.steps[stepNumber - 1]] for an integer argument [index]. *)
Definition stepAt (index : Z) (t : tracker) : option ProgressStep :=
  if 1 <=? index then steps t !! Z.to_nat (index - 1) else None.

(** The step is changed in place, so the array holds the changed step. *)
Definition store (index : Z) (step : ProgressStep) (t : tracker) : tracker :=
  mkTracker (<[Z.to_nat (index - 1) := step]> (steps t)) (currentStepNumber t)
    (tracker_totalSteps t) (observers t) (calls t) (S (ticks t)).

Definition completeStep (index : Z) (details : string) (t : tracker) : tracker :=
  match stepAt index t with
  | Some step =>
      let percentage := roundPercent (stepNumber step) (tracker_totalSteps t) in
      let step :=
        mkStep (stepNumber step) (totalSteps step) (stepName step) details
          success percentage (timeAt (ticks t)) in
      notify step (store index step t)
  | None => t
  end.

Definition errorStep (index : Z) (message : string) (t : tracker) : tracker :=
  match stepAt index t with
  | Some step =>
      let step :=
        mkStep (stepNumber step) (totalSteps step) (stepName step) message
          error (percentage step) (timeAt (ticks t)) in
      notify step (store index step t)
  | None => t
  end.

Definition getSteps (t : tracker) : list ProgressStep := steps t.

(** The calls a user of an instance can make, and a sequence of them. *)
Inductive call :=
| Subscribe
| StartStep (stepName details : string)
| CompleteStep (index : Z) (details : string)
| ErrorStep (index : Z) (message : string).

Definition perform (c : call) (t : tracker) : tracker :=
  match c with
  | Subscribe => subscribe t
  | StartStep stepName details => snd (startStep stepName details t)
  | CompleteStep index details => completeStep index details t
  | ErrorStep index message => errorStep index message t
  end.

Definition performAll (cs : list call) (t : tracker) : tracker :=
  fold_left (fun t c => perform c t) cs t.

(** The step that observer [o] was last passed under number [n]. *)
Definition lastSeen (o n : nat) (t : tracker) : option ProgressStep :=
  last (snd <$> List.filter (fun oc => (fst oc =? o)%nat && (stepNumber (snd oc) =? n)%nat)
                  (calls t)).

End WithNumbers.

Arguments mkStep {number}.
Arguments stepNumber {number}.
Arguments totalSteps {number}.
Arguments stepName {number}.
Arguments details {number}.
Arguments status {number}.
Arguments percentage {number}.
Arguments timestamp {number}.
Arguments steps {number}.
Arguments currentStepNumber {number}.
Arguments tracker_totalSteps {number}.
Arguments observers {number}.
Arguments calls {number}.
Arguments ticks {number}.
Arguments new {number}.
Arguments subscribe {number}.
Arguments stepAt {number}.
Arguments getSteps {number}.
Arguments lastSeen {number}.

End ProgressTracker.

Module TrackerProps.

Import ProgressTracker.

Section WithNumbers.

Variable number : Type.

(** The steps are numbered from 1 in the order of the array, each with the
    total of the instance, and none is pending. *)
Definition wellNumbered (total : nat) (t : tracker number) : Prop :=
  currentStepNumber t = length (steps t) /\
  tracker_totalSteps t = total /\
  forall i s, steps t !! i = Some s ->
    stepNumber s = S i /\ totalSteps s = total /\ status s <> pending.

(** Every observer was last passed each step as the array holds it now, and
    no one else was ever called. *)
Definition upToDate (t : tracker number) : Prop :=
  (forall o s, (o, s) ∈ calls t -> (o < observers t)%nat) /\
  (forall o i s, (o < observers t)%nat -> steps t !! i = Some s ->
     lastSeen o (S i) t = Some s).

End WithNumbers.

Arguments wellNumbered {number}.
Arguments upToDate {number}.

End TrackerProps.

(* ===================================================================== *)
(** * git-blame-query: the per-line history                               *)
(* ===================================================================== *)

Module GitBlameQuery.

Record GitBlameResult := mkResult {
  commitHash : string;
  author : string;
  commitDate : string;
  commitMessage : string;
  prNumber : option string;
  prUrl : option string;
  inDateRange : bool
}.

Definition GITHUB_REPO : string := "https://github.com/WiseTechGlobal/CargoWise".

(** The patterns [#(\d+)] and [pr[_-](\d+)] without regard to case. *)
Definition reHashNumber : regex := Cat (Lit "#") GitAdvanced.digits1.

Definition rePrNumber : regex :=
  Cat (LitI "p") (Cat (LitI "r")
    (Cat (Cls (fun c => eqChar c "_" || eqChar c "-")) GitAdvanced.digits1)).

Definition extractPRNumber (commitMessage : string) : option string :=
  match search reHashNumber commitMessage with
  | Some caps => group 1 caps
  | None =>
      match search rePrNumber commitMessage with
      | Some caps => group 1 caps
      | None => None
      end
  end.

(** Forty lower-case hexadecimal digits at the start of the line. *)
Fixpoint times (n : nat) (r : regex) : regex :=
  match n with
  | O => Emp
  | S n' => Cat r (times n' r)
  end.

Definition reCommitHash : regex := times 40 (Cls isLowerHex).

(** [Partial<GitBlameResult>]: the fields the loop sets. *)
Record partialResult := mkPartial {
  partial_commitHash : option string;
  partial_author : option string;
  partial_commitDate : option string;
  partial_commitMessage : option string
}.

(** The Map [results], in insertion order, and [currentCommit]. *)
Record queryState := mkState {
  results : list (string * GitBlameResult);
  currentCommit : partialResult
}.

(** [v || d] for a string that may be undefined. *)
Definition orElse (v : option string) (d : string) : string :=
  match v with
  | Some s => if truthy s then s else d
  | None => d
  end.

Definition has (hash : string) (m : list (string * GitBlameResult)) : bool :=
  existsb (fun kv => String.eqb (fst kv) hash) m.

(** [a.split(sep)[0]] *)
Definition firstPiece (sep : ascii) (s : string) : string :=
  match split sep s with
  | w :: _ => w
  | [] => EmptyString
  end.

Section Query.

(** The offset of the local zone and [new Date(s).getTime()] for a string
    that is not empty; the empty string is no date. *)
Variable tza : Z.
Variable parseDate : string -> option Z.

Definition newDate (s : string) : option Z :=
  if truthy s then parseDate s else None.

Variable startDate : string.

Definition startDateObj : option Z := setHours0 tza (newDate startDate).

(** The branch of a [summary] line. *)
Definition summaryLine (line : string) (st : queryState) : queryState :=
  let commitMessage := replaceFirst "summary " EmptyString line in
  let currentCommit :=
    mkPartial (partial_commitHash (currentCommit st)) (partial_author (currentCommit st))
      (partial_commitDate (currentCommit st)) (Some commitMessage) in
  match partial_commitHash currentCommit with
  | Some hash =>
      if truthy hash && negb (has hash (results st))
      then
        let commitDateObj :=
          setHours0 tza (newDate (orElse (partial_commitDate currentCommit) EmptyString)) in
        let inDateRange := dateGe commitDateObj startDateObj in
        let prNumber := extractPRNumber (orElse (Some commitMessage) EmptyString) in
        let result :=
          mkResult hash
            (orElse (partial_author currentCommit) "Unknown")
            (orElse (partial_commitDate currentCommit) EmptyString)
            (orElse (Some commitMessage) EmptyString)
            prNumber
            (match prNumber with
             | Some n => if truthy n then Some (GITHUB_REPO +:+ "/pull/" +:+ n) else None
             | None => None
             end)
            inDateRange in
        mkState (results st ++ [(hash, result)]) currentCommit
      else mkState (results st) currentCommit
  | None => mkState (results st) currentCommit
  end.

(** The body of the loop over the lines. *)
Definition step (line : string) (st : queryState) : queryState :=
  if negb (truthy (trim line)) then st
  else
    match matchHere reCommitHash line with
    | Some _ =>
        (* Commit hash line *)
        let commitHash := firstPiece " " (firstPiece "009" line) in
        mkState (results st) (mkPartial (Some commitHash) None None None)
    | None =>
        if startsWith "author " line
        then mkState (results st)
               (mkPartial (partial_commitHash (currentCommit st))
                  (Some (replaceFirst "author " EmptyString line))
                  (partial_commitDate (currentCommit st))
                  (partial_commitMessage (currentCommit st)))
        else if startsWith "author-date " line
        then
          let dateStr := firstPiece " " (replaceFirst "author-date " EmptyString line) in
          mkState (results st)
            (mkPartial (partial_commitHash (currentCommit st))
               (partial_author (currentCommit st)) (Some dateStr)
               (partial_commitMessage (currentCommit st)))
        else if startsWith "summary " line then summaryLine line st
        else st
    end.

Definition parseLines (lines : list string) (st : queryState) : queryState :=
  fold_left (fun st line => step line st) lines st.

(** The comparator of the final sort; a NaN difference counts as 0. *)
Definition byDateDesc (a b : GitBlameResult) : Z :=
  match newDate (commitDate b), newDate (commitDate a) with
  | Some tb, Some ta => tb - ta
  | _, _ => 0
  end.

Variable execAsync : string -> string -> outcome string.

Definition blameCommand (filePath : string) (lineStart lineEnd : option nat) : string :=
  "git blame --date=short --line-porcelain"
  +:+ match lineStart, lineEnd with
      | Some s, Some e => " -L " +:+ pretty s +:+ "," +:+ pretty e
      | _, _ => EmptyString
      end
  +:+ " " +:+ FileFinder.dquote +:+ filePath +:+ FileFinder.dquote.

Definition queryGitBlame (filePath : string) (lineStart lineEnd : option nat)
    (projectRoot : string) : outcome (list GitBlameResult) :=
  tryCatch
    (stdout ← execAsync (blameCommand filePath lineStart lineEnd) projectRoot;
     let lines := split "010"%char stdout in
     let st := parseLines lines (mkState [] (mkPartial None None None None)) in
     mret (sortBy byDateDesc (map snd (results st))))
    (Returned []).

End Query.

End GitBlameQuery.

Module QueryProps.

Import GitBlameQuery.

(** Forty lower-case hexadecimal digits and then no blank or tab. *)
Definition fullHash (h : string) : Prop :=
  (exists digits rest, h = digits +:+ rest /\ String.length digits = 40%nat /\
     RegexProps.allChars isLowerHex digits = true) /\
  includesChar " " h = false /\ includesChar "009" h = false.

(** A record as the loop stores it. *)
Definition wellFormed (r : GitBlameResult) : Prop :=
  fullHash (commitHash r) /\
  author r <> EmptyString /\
  match prNumber r with
  | Some n => RegexSemantics.wordOf isDigit n /\ prUrl r = Some (GITHUB_REPO +:+ "/pull/" +:+ n)
  | None => prUrl r = None
  end.

(** Nothing is stored yet and no commit is current. *)
Definition initial : queryState := mkState [] (mkPartial None None None None).

(** The output of the blame tool for two lines of one commit and one line
    of another, as the porcelain format prints it for each line. *)
Definition porcelainOutput : string :=
  joinLines
    [ "1f3a9c0b5d7e2a4c6f8091b3d5e7f9a1c3e5a7b9 12 12 2";
      "author Alice";
      "author-mail <alice@example.com>";
      "author-time 1700000000";
      "author-tz +0000";
      "summary Fix rounding (#1532)";
      "filename Orders.cs";
      String "009" "  total = Math.Round(total, 2);";
      "1f3a9c0b5d7e2a4c6f8091b3d5e7f9a1c3e5a7b9 13 13";
      "author Mallory";
      "author-time 1700000001";
      "summary Rewritten";
      "filename Orders.cs";
      String "009" "  return total;";
      "7be2d0aa11bb22cc33dd44ee55ff66778899aabb 14 14 1";
      "author Bob";
      "author-time 1699900000";
      "summary Initial import";
      "filename Orders.cs";
      String "009" "}" ].

End QueryProps.

(* ===================================================================== *)
(** * git-advanced: commits from the log                                  *)
(* ===================================================================== *)

Module GitLog.

Import JsMore GitAdvanced.

Record CommitInfo := mkCommit {
  hash : string;
  author : string;
  authorEmail : string;
  date : string;
  timestamp : option Z;
  message : string;
  prNumber : option string;
  prSource : option prSourceT
}.

Section WithTools.

(** [execAsync(command, { cwd })], and [new Date(s).getTime()] with [None]
    for NaN. *)
Variable execAsync : string -> string -> outcome string.
Variable dateTime : string -> option Z.

(** [array[i]] where the index is known to be in range. *)
Definition at_ (lines : list string) (i : nat) : string := nth i lines EmptyString.

(** What both functions make of the lines of one record; [None] when there
    are fewer than five. *)
Definition commitOfLines (lines : list string) : option CommitInfo :=
  if (length lines <? 5)%nat then None
  else
    let date := at_ lines 3 in
    let message := at_ lines 4 in
    let pr := extractPRNumber message in
    Some (mkCommit (at_ lines 0) (at_ lines 1) (at_ lines 2) date (dateTime date) message
            (GitAdvanced.prNumber pr) (GitAdvanced.prSource pr)).

Definition logFormat : string := "%H%n%an%n%ae%n%ai%n%s".

Definition commitInfoCommand (commitHash : string) : string :=
  "git log -1 --format=" +:+ FileFinder.dquote +:+ logFormat +:+ FileFinder.dquote
  +:+ " " +:+ commitHash.

Definition getCommitInfo (commitHash projectRoot : string) : outcome (option CommitInfo) :=
  tryCatch
    (stdout ← execAsync (commitInfoCommand commitHash) projectRoot;
     mret (commitOfLines (split "010"%char (trim stdout))))
    (Returned None).

Definition endMarker : string := "---END---".

Definition fileCommitsCommand (filePath startDate endDate : string) : string :=
  "git log --since=" +:+ FileFinder.dquote +:+ startDate +:+ FileFinder.dquote
  +:+ " --until=" +:+ FileFinder.dquote +:+ endDate +:+ FileFinder.dquote
  +:+ " --pretty=format:" +:+ FileFinder.dquote +:+ logFormat +:+ "%n" +:+ endMarker
  +:+ FileFinder.dquote
  +:+ " -- " +:+ FileFinder.dquote +:+ filePath +:+ FileFinder.dquote.

(** The loop over the records: those with fewer than five lines are passed
    over. *)
Definition commitsOfRecords (records : list string) : list CommitInfo :=
  omap (fun record => commitOfLines (split "010"%char (trim record))) records.

(** The comparator of the final sort; a NaN difference counts as 0. *)
Definition byTimestampDesc (a b : CommitInfo) : Z :=
  match timestamp b, timestamp a with
  | Some tb, Some ta => tb - ta
  | _, _ => 0
  end.

(** [endDate] is given by the caller; its default, the day of the call, is
    the caller's to supply here. *)
Definition getFileCommitsInDateRange (filePath startDate endDate projectRoot : string)
    : outcome (list CommitInfo) :=
  tryCatch
    (stdout ← execAsync (fileCommitsCommand filePath startDate endDate) projectRoot;
     let records := List.filter (fun r => truthy (trim r)) (splitOn endMarker stdout) in
     mret (sortBy byTimestampDesc (commitsOfRecords records)))
    (Returned []).

End WithTools.

End GitLog.

Module LogProps.

Import GitAdvanced GitLog.

(** A field as the log prints it on one line. *)
Definition oneLine (s : string) : Prop := includesChar "010" s = false.

(** Not empty, and no white space at the start, or at the end. *)
Definition cleanStart (s : string) : Prop := s <> EmptyString /\ trimStart s = s.
Definition cleanEnd (s : string) : Prop := s <> EmptyString /\ trimEnd s = s.

(** The commit that five fields denote. *)
Definition commitOfFields (dateTime : string -> option Z) (h an ae ai s : string) : CommitInfo :=
  mkCommit h an ae ai (dateTime ai) s
    (GitAdvanced.prNumber (extractPRNumber s)) (GitAdvanced.prSource (extractPRNumber s)).

(** What the log prints for one commit in the format of the two functions. *)
Definition printed (h an ae ai s : string) : string := joinLines [h; an; ae; ai; s].

(** The five fields of a commit. *)
Record fields := mkFields {
  f_hash : string;
  f_author : string;
  f_email : string;
  f_date : string;
  f_subject : string
}.

Definition printedFields (c : fields) : string :=
  printed (f_hash c) (f_author c) (f_email c) (f_date c) (f_subject c).

Definition commitOf (dateTime : string -> option Z) (c : fields) : CommitInfo :=
  commitOfFields dateTime (f_hash c) (f_author c) (f_email c) (f_date c) (f_subject c).

(** Fields that the format prints on five lines and that the reader takes
    apart again: each on one line, the first not starting and the last not
    ending with white space, and the end marker nowhere in their text. *)
Definition printable (c : fields) : Prop :=
  cleanStart (f_hash c) /\ cleanEnd (f_subject c) /\
  oneLine (f_hash c) /\ oneLine (f_author c) /\ oneLine (f_email c) /\
  oneLine (f_date c) /\ oneLine (f_subject c) /\
  includes endMarker (printedFields c) = false.

(** What the log prints for a sequence of commits in the format of
    [getFileCommitsInDateRange]: each commit followed by a line with the
    marker, and a line break between two of them. *)
Definition printedLog (cs : list fields) : string :=
  joinLines (map (fun c => printedFields c +:+ newline +:+ endMarker) cs).

(** The first commit is not older than the second, both being dated. *)
Definition newestFirst (a b : CommitInfo) : Prop :=
  match timestamp a, timestamp b with
  | Some ta, Some tb => tb <= ta
  | _, _ => False
  end.

(** Two commits as the log prints them, the older first. *)
Definition sampleLog : list fields :=
  [ mkFields "7be2d0aa11bb22cc33dd44ee55ff66778899aabb" "Bob" "bob@example.com"
      "2023-11-13 18:26:40 +0000" "Initial import";
    mkFields "1f3a9c0b5d7e2a4c6f8091b3d5e7f9a1c3e5a7b9" "Alice" "alice@example.com"
      "2023-11-14 22:13:20 +0000" "Fix rounding (PR 1532)" ].

(** A clock that knows the two dates of the sample. *)
Definition sampleDateTime (s : string) : option Z :=
  if String.eqb s "2023-11-13 18:26:40 +0000" then Some 1699900000000
  else if String.eqb s "2023-11-14 22:13:20 +0000" then Some 1700000000000
  else None.

End LogProps.

(* ===================================================================== *)
(** * stack-trace-analyzer component: the links of the result list        *)
(* ===================================================================== *)

Module ResultsView.

Import GitAdvanced GitBlameRefined.

(** Extract Azure DevOps PR URL from commit message if pattern found *)
Definition extractAzureDevOpsPRUrl (commitMessage : string) : option string :=
  match search reParenPR commitMessage with
  | Some m =>
      Some ("https://devops.wisetechglobal.com/wtg/CargoWise/_git/Dev/pullrequest/"
            +:+ default EmptyString (group 1 m))
  | None => None
  end.

(** [blame.prUrl || azureUrl], the link that a row of the list shows. *)
Definition shownUrl (blame : GitBlameAnalysis) : option string :=
  let azureUrl := extractAzureDevOpsPRUrl (commitMessage blame) in
  match prUrl blame with
  | Some url => if truthy url then Some url else azureUrl
  | None => azureUrl
  end.

(** [blame.prSource || (azureUrl ? "azure" : undefined)] *)
Definition shownSource (blame : GitBlameAnalysis) : option prSourceT :=
  let azureUrl := extractAzureDevOpsPRUrl (commitMessage blame) in
  match prSource blame with
  | Some source => Some source
  | None =>
      match azureUrl with
      | Some url => if truthy url then Some azure else None
      | None => None
      end
  end.

End ResultsView.

(* ===================================================================== *)
(** * Properties                                                          *)
(* ===================================================================== *)

Import RegexProps.

(* ===================================================================== *)
(** * The embedding on the scenarios of the specification                 *)
(* ===================================================================== *)

Section Scenarios.

Import GitAdvanced StackTraceParser FileFinder GitBlameRefined FileProps BlameProps.

Example azure_reference :
  extractPRNumber "Fix rounding (PR 1532)" = mkPrRef (Some "1532") (Some azure).
Proof. reflexivity. Qed.

Example no_reference :
  extractPRNumber "Bump version, PR pending #" = mkPrRef None None.
Proof. reflexivity. Qed.

Example pattern_is_case_insensitive :
  test (methodPattern "submit") "    public async Task<Result> Submit (Order o)" = true
  /\ test (methodPattern "Submit") "Submit(o);" = false.
Proof. split; reflexivity. Qed.

Example mirrored_directory_wins :
  findSourceFile
    (shellPrinting (joinLines [ "C:\proj\Legacy\OrderService.cs";
                                "C:\proj\App\Orders\OrderService.cs";
                                EmptyString ]))
    "App.Orders.OrderService" "C:\proj"
  = Returned (Some "C:\proj\App\Orders\OrderService.cs").
Proof. reflexivity. Qed.

Example nested_blocks_close_at_balance :
  findMethodLineRange
    (fun _ => FileContent (joinLines
       [ "class OrderService";
         "{";
         "  public void Submit(Order o)";
         "  {";
         "    if (o.Valid) { Send(o); }";
         "  }";
         "}" ]))
    "OrderService.cs" "Submit"
  = Returned (Some (mkRange 3 6)).
Proof. reflexivity. Qed.

Example blame_command_line :
  blameCommand "Orders.cs" (Some 12%nat) (Some 15%nat)
  = "git blame -l --incremental -L 12,15 " +:+ dquote +:+ "Orders.cs" +:+ dquote.
Proof. reflexivity. Qed.

Example history_of_the_sample :
  analyzeBlameResults (-18000000) (Some 19675) 1690000000000 (shellPrinting blameOutput)
    "Orders.cs" (Some 12%nat) (Some 15%nat) "C:\proj"
  = Returned [fixRounding; initialImport].
Proof. vm_compute. reflexivity. Qed.

Example malformed_timestamp_is_absorbed :
  analyzeBlameResults 0 (Some 19675) 1690000000000
    (shellPrinting (joinLines [ "1f3a9c 12 12 2"; "author-time soon"; EmptyString ]))
    "Orders.cs" None None "C:\proj"
  = Returned [].
Proof. reflexivity. Qed.

End Scenarios.

(* ===================================================================== *)
(** * Strings and the matcher                                             *)
(* ===================================================================== *)

Section StringFacts.

Lemma app_nil_l (s : string) : EmptyString +:+ s = s.
Proof. reflexivity. Qed.

Lemma app_cons (c : ascii) (s t : string) : String c s +:+ t = String c (s +:+ t).
Proof. reflexivity. Qed.

Lemma length_app (a b : string) :
  String.length (a +:+ b) = (String.length a + String.length b)%nat.
Proof.
  induction a as [|x a IH]; [reflexivity|].
  rewrite app_cons. cbn [String.length]. rewrite IH. reflexivity.
Qed.

Lemma takeN_app (a b : string) :
  takeN (String.length (a +:+ b) - String.length b) (a +:+ b) = a.
Proof.
  rewrite length_app. replace (_ + _ - _)%nat with (String.length a) by lia.
  induction a as [|x a IH].
  - rewrite app_nil_l. destruct b; reflexivity.
  - rewrite app_cons. cbn [String.length takeN]. rewrite IH. reflexivity.
Qed.

Lemma includes_app_r (w a b : string) :
  includes w (a +:+ b) = false -> includes w b = false.
Proof.
  induction a as [|x a IH]; [auto|].
  rewrite app_cons. cbn [includes]. intros H.
  apply orb_false_iff in H as [_ H]. auto.
Qed.

End StringFacts.

Section SearchFacts.

Lemma search_found r pre s caps :
  matchHere r s = Some caps -> search r (pre +:+ s) <> None.
Proof.
  intros H. induction pre as [|c pre IH].
  - rewrite app_nil_l. destruct s; simpl; rewrite H; done.
  - rewrite app_cons. simpl. destruct (matchHere r (String c _)); [done|exact IH].
Qed.

Lemma search_skip r pre s :
  (forall a b, pre = a +:+ b -> b <> EmptyString -> matchHere r (b +:+ s) = None) ->
  search r (pre +:+ s) = search r s.
Proof.
  induction pre as [|c pre IH]; intros H; [reflexivity|].
  rewrite app_cons. simpl. rewrite <- app_cons.
  rewrite (H EmptyString (String c pre)); [|reflexivity|discriminate].
  apply IH. intros a b -> Hb. apply (H (String c a) b); [reflexivity|exact Hb].
Qed.

End SearchFacts.

Section CaptureFacts.

Variable i : nat.

Lemma repLoop_group body g k :
  keepsGroup i false body ->
  forall fuel s caps res, repLoop body g k fuel s caps = Some res ->
    exists s' caps', k s' caps' = Some res /\ (is_Some (group i caps) -> is_Some (group i caps')).
Proof.
  intros Hb. induction fuel as [|fuel IH]; intros s caps res H; simpl in H.
  - exists s, caps. split; [|auto]. destruct g; [exact H|]. destruct (k s caps); [exact H|discriminate].
  - assert (Hmore : forall res',
      body s caps (fun s1 c1 => if (String.length s1 <? String.length s)%nat
                                then repLoop body g k fuel s1 c1 else None) = Some res' ->
      exists s' caps', k s' caps' = Some res' /\ (is_Some (group i caps) -> is_Some (group i caps'))).
    { intros res' Hm. apply Hb in Hm as (s1 & c1 & Hk & G).
      destruct (_ <? _)%nat; [|discriminate].
      apply IH in Hk as (s2 & c2 & Hk & G2). exists s2, c2. split; [exact Hk|].
      intros Hc. apply G2, G. right. exact Hc. }
    destruct g.
    + destruct (body s caps _) eqn:E; [injection H as <-; eauto|]. exists s, caps. auto.
    + destruct (k s caps) eqn:E; [injection H as <-|eauto]. exists s, caps. auto.
Qed.

Lemma matchRe_group r : keepsGroup i (setsGroup i r) (matchRe r).
Proof.
  induction r as [|p|r1 IH1 r2 IH2|r1 IH1 r2 IH2|g r1 IH1|j r1 IH1];
    intros s caps k res H; simpl in H.
  - exists s, caps. split; [exact H|]. intros [F|G]; [discriminate F|exact G].
  - destruct s as [|c s']; [discriminate|]. destruct (p c); [|discriminate].
    exists s', caps. split; [exact H|]. intros [F|G]; [discriminate F|exact G].
  - apply IH1 in H as (s1 & c1 & H & G1). apply IH2 in H as (s2 & c2 & H & G2).
    exists s2, c2. split; [exact H|]. simpl. intros [F|G].
    + apply orb_true_iff in F as [F|F]; [apply G2; right; apply G1; left; exact F|].
      apply G2. left. exact F.
    + apply G2. right. apply G1. right. exact G.
  - simpl. destruct (matchRe r1 s caps k) eqn:E.
    + injection H as <-. apply IH1 in E as (s1 & c1 & H & G1). exists s1, c1.
      split; [exact H|]. intros [F|G]; [|auto]. apply andb_true_iff in F as [F _]. auto.
    + apply IH2 in H as (s1 & c1 & H & G1). exists s1, c1.
      split; [exact H|]. intros [F|G]; [|auto]. apply andb_true_iff in F as [_ F]. auto.
  - eapply repLoop_group in H as (s1 & c1 & H & G1).
    + exists s1, c1. split; [exact H|]. intros [F|G]; [discriminate F|auto].
    + intros s0 c0 k0 res0 H0. apply IH1 in H0 as (s1 & c1 & H0 & G1).
      exists s1, c1. split; [exact H0|]. intros [F|G]; [discriminate F|auto].
  - apply IH1 in H as (s1 & c1 & H & G1). eexists s1, _. split; [exact H|].
    simpl. destruct (Nat.eqb i j) eqn:E; [eauto|]. simpl. exact G1.
Qed.

Lemma search_group r s caps :
  setsGroup i r = true -> search r s = Some caps -> is_Some (group i caps).
Proof.
  intros Hr.
  assert (Hh : forall s', matchHere r s' = Some caps -> is_Some (group i caps)).
  { intros s' H. apply matchRe_group in H as (s1 & c1 & [= ->] & G). apply G. left. exact Hr. }
  induction s as [|c s IH]; simpl; intros H.
  - destruct (matchHere r EmptyString) eqn:E; [injection H as ->; eauto|discriminate].
  - destruct (matchHere r (String c s)) eqn:E; [injection H as ->; eauto|auto].
Qed.

End CaptureFacts.

Section GreedyFacts.

Lemma repLoop_Cls_greedy p k res rest caps :
  headOutside p rest -> k rest caps = Some res ->
  forall ds fuel, allChars p ds = true -> (String.length ds <= fuel)%nat ->
    repLoop (matchRe (Cls p)) true k fuel (ds +:+ rest) caps = Some res.
Proof.
  intros Hrest Hk. induction ds as [|d ds IH]; intros fuel Hds Hfuel.
  - rewrite app_nil_l. destruct fuel as [|fuel]; simpl; [exact Hk|].
    destruct rest as [|c rest']; [exact Hk|]. simpl in Hrest. rewrite Hrest. exact Hk.
  - simpl in Hds. apply andb_true_iff in Hds as [Hd Hds].
    destruct fuel as [|fuel]; [simpl in Hfuel; lia|].
    rewrite app_cons. cbn [repLoop matchRe]. rewrite Hd.
    replace (String.length (ds +:+ rest) <? String.length (String d (ds +:+ rest)))%nat
      with true by (symmetry; apply Nat.ltb_lt; simpl; lia).
    rewrite IH; [reflexivity|exact Hds|simpl in Hfuel; lia].
Qed.

Lemma Plus_Cls_greedy p k res rest caps ds :
  ds <> EmptyString -> allChars p ds = true -> headOutside p rest -> k rest caps = Some res ->
  matchRe (Plus (Cls p)) (ds +:+ rest) caps k = Some res.
Proof.
  intros Hne Hds Hrest Hk. destruct ds as [|d ds]; [congruence|].
  simpl in Hds. apply andb_true_iff in Hds as [Hd Hds].
  rewrite app_cons. unfold Plus. cbn [matchRe]. rewrite Hd.
  apply repLoop_Cls_greedy; auto. rewrite length_app. lia.
Qed.

Lemma digits1_greedy ds rest caps k res :
  isNumber ds -> headOutside isDigit rest -> k rest ((1%nat, ds) :: caps) = Some res ->
  matchRe GitAdvanced.digits1 (ds +:+ rest) caps k = Some res.
Proof.
  intros [Hne Hds] Hrest Hk. unfold GitAdvanced.digits1. cbn [matchRe].
  apply Plus_Cls_greedy; auto. rewrite takeN_app. exact Hk.
Qed.

End GreedyFacts.

(* ===================================================================== *)
(** * Pull-request references                                             *)
(* ===================================================================== *)

Section PRFacts.

Import GitAdvanced.

Lemma reParenHash_at_42 post :
  matchHere reParenHash ("(#42)" +:+ post) = Some [(1%nat, "42")].
Proof.
  change ("(#42)" +:+ post) with (String "(" (String "#" ("42" +:+ String ")" post))).
  unfold matchHere, reParenHash. cbn [matchRe Lit eqChar Ascii.eqb Bool.eqb].
  apply digits1_greedy; [split; [discriminate|reflexivity]|reflexivity|reflexivity].
Qed.

Lemma reParenHash_needs_head c c' s :
  (c <> "("%char \/ c' <> "#"%char) -> matchHere reParenHash (String c (String c' s)) = None.
Proof.
  intros H. unfold matchHere, reParenHash. cbn [matchRe Lit]. unfold eqChar.
  destruct (Ascii.eqb_spec c "("); [|reflexivity].
  destruct (Ascii.eqb_spec c' "#"); [|reflexivity]. tauto.
Qed.

Lemma reParenHash_before_42 pre post a b :
  includes "(#" pre = false -> pre = a +:+ b -> b <> EmptyString ->
  matchHere reParenHash (b +:+ "(#42)" +:+ post) = None.
Proof.
  intros Hinc -> Hb. apply includes_app_r in Hinc.
  destruct b as [|c b]; [congruence|]. rewrite app_cons.
  cbn [includes] in Hinc. apply orb_false_iff in Hinc as [Hp _].
  destruct b as [|c' b].
  - rewrite app_nil_l. apply reParenHash_needs_head. right. discriminate.
  - rewrite app_cons. apply reParenHash_needs_head.
    cbn [String.prefix] in Hp.
    destruct (ascii_dec "(" c) as [<-|]; [|left; congruence].
    destruct (ascii_dec "#" c') as [<-|]; [destruct b; discriminate|right; congruence].
Qed.

Lemma search_reParenHash_42 pre post :
  includes "(#" pre = false ->
  search reParenHash (pre +:+ "(#42)" +:+ post) = Some [(1%nat, "42")].
Proof.
  intros Hinc. rewrite search_skip.
  - change ("(#42)" +:+ post) with (String "(" ("#42)" +:+ post)). cbn [search].
    change (String "(" ("#42)" +:+ post)) with ("(#42)" +:+ post).
    rewrite reParenHash_at_42. reflexivity.
  - intros a b. apply reParenHash_before_42. exact Hinc.
Qed.

Lemma search_reParenHash_contains message :
  contains "(#42)" message -> search reParenHash message <> None.
Proof. intros (a & b & ->). eapply search_found, reParenHash_at_42. Qed.

(** C5 (as amended).  [extractPRNumber] answers with the first of its five
    rules that matches, in the order: merge message (github), parenthesised
    hash (github), parenthesised PR (azure), bare hash (github), bare PR
    (azure); a message that no rule matches has no reference.  A message
    containing both "(#42)" and "(PR 99)" always resolves to github; its
    number is 42 when the merge rule does not match and no "(#" occurs
    before the "(#42)". *)
Theorem extractPRNumber_priority (message : string) :
  (forall m, search reMergePullRequest message = Some m ->
     extractPRNumber message = mkPrRef (group 1 m) (Some github)) /\
  (forall m, search reMergePullRequest message = None ->
     search reParenHash message = Some m ->
     extractPRNumber message = mkPrRef (group 1 m) (Some github)) /\
  (forall m, search reMergePullRequest message = None ->
     search reParenHash message = None ->
     search reParenPR message = Some m ->
     extractPRNumber message = mkPrRef (group 1 m) (Some azure)) /\
  (forall m, search reMergePullRequest message = None ->
     search reParenHash message = None ->
     search reParenPR message = None ->
     search reHash message = Some m ->
     extractPRNumber message = mkPrRef (group 1 m) (Some github)) /\
  (forall m, search reMergePullRequest message = None ->
     search reParenHash message = None ->
     search reParenPR message = None ->
     search reHash message = None ->
     search rePR message = Some m ->
     extractPRNumber message = mkPrRef (group 1 m) (Some azure)) /\
  (search reMergePullRequest message = None ->
     search reParenHash message = None ->
     search reParenPR message = None ->
     search reHash message = None ->
     search rePR message = None ->
     extractPRNumber message = mkPrRef None None) /\
  (contains "(#42)" message -> contains "(PR 99)" message ->
     prSource (extractPRNumber message) = Some github) /\
  (forall pre post, message = pre +:+ "(#42)" +:+ post -> contains "(PR 99)" message ->
     search reMergePullRequest message = None ->
     includes "(#" pre = false ->
     extractPRNumber message = mkPrRef (Some "42") (Some github)).
Proof.
  unfold extractPRNumber. repeat split.
  - intros m ->. reflexivity.
  - intros m -> ->. reflexivity.
  - intros m -> -> ->. reflexivity.
  - intros m -> -> -> ->. reflexivity.
  - intros m -> -> -> -> ->. reflexivity.
  - intros -> -> -> -> ->. reflexivity.
  - intros H42 _. apply search_reParenHash_contains in H42.
    destruct (search reMergePullRequest message); [reflexivity|].
    destruct (search reParenHash message); [reflexivity|congruence].
  - intros pre post -> _ -> Hinc. rewrite search_reParenHash_42 by exact Hinc. reflexivity.
Qed.

Lemma extractPRNumber_priority_witness :
  extractPRNumber "Fix rounding (#42), see also (PR 99)" = mkPrRef (Some "42") (Some github).
Proof.
  refine (proj2 (proj2 (proj2 (proj2 (proj2 (proj2 (proj2
    (extractPRNumber_priority "Fix rounding (#42), see also (PR 99)")))))))
    "Fix rounding " ", see also (PR 99)" _ _ _ _).
  - reflexivity.
  - exists "Fix rounding (#42), see also ", EmptyString. reflexivity.
  - reflexivity.
  - reflexivity.
Defined.

(** C5 as first stated fails: a merge message that also carries both
    references resolves to the number of the merge rule. *)
Lemma extractPRNumber_not_always_42 :
  contains "(#42)" "Merge pull request #7 from fix (#42) (PR 99)" /\
  contains "(PR 99)" "Merge pull request #7 from fix (#42) (PR 99)" /\
  extractPRNumber "Merge pull request #7 from fix (#42) (PR 99)"
    = mkPrRef (Some "7") (Some github) /\
  extractPRNumber "Merge pull request #7 from fix (#42) (PR 99)"
    <> mkPrRef (Some "42") (Some github).
Proof.
  split; [exists "Merge pull request #7 from fix ", " (PR 99)"; reflexivity|].
  split; [exists "Merge pull request #7 from fix (#42) ", EmptyString; reflexivity|].
  split; [reflexivity|discriminate].
Qed.

Lemma setsGroup_rules :
  setsGroup 1 reMergePullRequest = true /\ setsGroup 1 reParenHash = true /\
  setsGroup 1 reParenPR = true /\ setsGroup 1 reHash = true /\ setsGroup 1 rePR = true.
Proof. repeat split; reflexivity. Qed.

Lemma extractPRNumber_both_or_neither message :
  is_Some (prNumber (extractPRNumber message)) <-> is_Some (prSource (extractPRNumber message)).
Proof.
  destruct setsGroup_rules as (G1 & G2 & G3 & G4 & G5).
  assert (Hrule : forall r m src, setsGroup 1 r = true -> search r message = Some m ->
    is_Some (prNumber (mkPrRef (group 1 m) (Some src))) <->
    is_Some (prSource (mkPrRef (group 1 m) (Some src)))).
  { intros r m src G E. simpl. split; [intros _; eexists; reflexivity|].
    intros _. eapply search_group; eassumption. }
  unfold extractPRNumber.
  destruct (search reMergePullRequest message) eqn:E1; [apply (Hrule reMergePullRequest); assumption|].
  destruct (search reParenHash message) eqn:E2; [apply (Hrule reParenHash); assumption|].
  destruct (search reParenPR message) eqn:E3; [apply (Hrule reParenPR); assumption|].
  destruct (search reHash message) eqn:E4; [apply (Hrule reHash); assumption|].
  destruct (search rePR message) eqn:E5; [apply (Hrule rePR); assumption|].
  simpl. split; intros [? [=]].
Qed.

End PRFacts.

(* ===================================================================== *)
(** * Deduplication of frames                                             *)
(* ===================================================================== *)

Section DedupFacts.

Import StackTraceParser.

Implicit Types (seen : gset string) (entries : list StackTraceEntry).

Lemma dedupFrom_fresh seen entries e :
  e ∈ dedupFrom seen entries -> entryKey e ∉ seen.
Proof.
  revert seen. induction entries as [|x rest IH]; intros seen; simpl.
  - intros H. inversion H.
  - case_decide as Hx.
    + apply IH.
    + intros [->|H]%elem_of_cons; [exact Hx|]. apply IH in H. set_solver.
Qed.

Lemma dedupFrom_NoDup seen entries : NoDup (entryKey <$> dedupFrom seen entries).
Proof.
  revert seen. induction entries as [|x rest IH]; intros seen; simpl.
  - constructor.
  - case_decide as Hx; [apply IH|]. rewrite fmap_cons. constructor; [|apply IH].
    intros (e & Hk & He)%list_elem_of_fmap. apply dedupFrom_fresh in He.
    rewrite <- Hk in He. set_solver.
Qed.

Lemma dedupFrom_sublist seen entries : dedupFrom seen entries `sublist_of` entries.
Proof.
  revert seen. induction entries as [|x rest IH]; intros seen; simpl.
  - constructor.
  - case_decide; [apply sublist_cons, IH|apply sublist_skip, IH].
Qed.

Lemma dedupFrom_filter seen entries k :
  filter (fun e => entryKey e = k) (dedupFrom seen entries)
  = if decide (k ∈ seen) then [] else take 1 (filter (fun e => entryKey e = k) entries).
Proof.
  revert seen. induction entries as [|x rest IH]; intros seen; simpl.
  - case_decide; reflexivity.
  - case_decide as Hx.
    + rewrite IH. case_decide as Hk; [reflexivity|].
      rewrite (filter_cons_False _ x); [reflexivity|]. intros Heq. subst k. contradiction.
    + destruct (decide (entryKey x = k)) as [Heq|Hne].
      * rewrite !(filter_cons_True _ x) by exact Heq. rewrite IH. subst k.
        rewrite decide_True by (apply elem_of_union; left; apply elem_of_singleton; reflexivity).
        rewrite decide_False by exact Hx. reflexivity.
      * rewrite !(filter_cons_False _ x) by exact Hne. rewrite IH.
        destruct (decide (k ∈ seen)) as [Hk|Hk].
        -- rewrite decide_True by (apply elem_of_union; right; exact Hk). reflexivity.
        -- rewrite decide_False; [reflexivity|].
           intros [Hin|Hin]%elem_of_union; [|exact (Hk Hin)].
           apply elem_of_singleton in Hin. congruence.
Qed.


End DedupFacts.

(* ===================================================================== *)
(** * The method locator                                                  *)
(* ===================================================================== *)

Section LocatorFacts.

Import FileFinder FileProps.

Lemma findMethodStart_first pattern lines : forall i d line,
  lines !! d = Some line -> test pattern line = true ->
  (forall j l, (j < d)%nat -> lines !! j = Some l -> test pattern l = false) ->
  findMethodStart pattern i lines = Some (i + d)%nat.
Proof.
  induction lines as [|x rest IH]; intros i d line Hd Ht Hbefore; [discriminate|].
  destruct d as [|d]; simpl in *.
  - injection Hd as ->. rewrite Ht. f_equal. lia.
  - rewrite (Hbefore 0%nat x) by (lia || reflexivity).
    rewrite (IH (S i) d line Hd Ht); [f_equal; lia|].
    intros j l Hj Hl. apply (Hbefore (S j) l); [lia|exact Hl].
Qed.

Lemma findMethodStart_none pattern lines : forall i,
  (forall line, line ∈ lines -> test pattern line = false) ->
  findMethodStart pattern i lines = None.
Proof.
  induction lines as [|x rest IH]; intros i H; [reflexivity|]. simpl.
  rewrite (H x) by (left). apply IH. intros line Hl. apply H. right. exact Hl.
Qed.

Lemma runningCount_take_cons n line rest :
  runningCount (take (S n) (line :: rest)) = braceDelta line + runningCount (take n rest).
Proof. reflexivity. Qed.

(** While the counter has not been positive the scan does not stop. *)
Lemma scanBraces_never_positive lines : forall i braceCount methodEndLine,
  (forall n, braceCount + runningCount (take n lines) <= 0) ->
  scanBraces lines i braceCount false methodEndLine = methodEndLine.
Proof.
  induction lines as [|line rest IH]; intros i c e H; [reflexivity|].
  cbn [scanBraces].
  assert (H1 : c + countChar "{" line - countChar "}" line <= 0).
  { specialize (H 1%nat). rewrite runningCount_take_cons in H.
    unfold braceDelta in H. rewrite take_0 in H. cbn [runningCount fold_right] in H. lia. }
  replace (0 <? c + countChar "{" line - countChar "}" line) with false
    by (symmetry; apply Z.ltb_ge; exact H1).
  cbn [andb]. apply IH. intros n. specialize (H (S n)).
  rewrite runningCount_take_cons in H. unfold braceDelta in H. lia.
Qed.

Lemma tryCatch_returned {A} (a : A) handler : tryCatch (Returned a) handler = Returned a.
Proof. reflexivity. Qed.

(** C1 (as amended).  When the pattern first matches on line [d] (counted
    from 0) and, from that line to the end of the file, the brace counter is
    never positive, the scan for the end of the body runs off the end of the
    file without stopping and [findMethodLineRange] returns the one-line
    range of the declaration, [d + 1 .. d + 1]. *)
Theorem findMethodLineRange_without_body
    (fs : string -> fileState) (filePath methodName content declaration : string) (d : nat) :
  fs filePath = FileContent content ->
  split "010"%char content !! d = Some declaration ->
  test (methodPattern methodName) declaration = true ->
  (forall j l, (j < d)%nat -> split "010"%char content !! j = Some l ->
     test (methodPattern methodName) l = false) ->
  (forall n, runningCount (take n (drop d (split "010"%char content))) <= 0) ->
  findMethodLineRange fs filePath methodName
  = Returned (Some (mkRange (d + 1) (d + 1))).
Proof.
  intros Hfs Hd Ht Hfirst Hcount. unfold findMethodLineRange, existsSync, readFileSync.
  rewrite Hfs. cbn [negb mbind outcome_bind].
  rewrite (findMethodStart_first _ _ 0 d declaration Hd Ht Hfirst). cbn [Nat.add].
  rewrite scanBraces_never_positive by (intros n; specialize (Hcount n); lia).
  apply lookup_lt_Some in Hd.
  replace (Nat.min (d + 1) _) with (d + 1)%nat by lia. reflexivity.
Qed.

Lemma interfaceFile_count n :
  runningCount (take n (drop 1 (split "010"%char interfaceFile))) <= 0.
Proof. destruct n as [|[|[|n]]]; vm_compute; discriminate. Qed.

Lemma findMethodLineRange_without_body_witness :
  findMethodLineRange interfaceDisk "IOrders.cs" "Submit" = Returned (Some (mkRange 2 2)).
Proof.
  apply (findMethodLineRange_without_body interfaceDisk "IOrders.cs" "Submit"
           interfaceFile "  void Submit(Order o);" 1).
  - reflexivity.
  - reflexivity.
  - vm_compute. reflexivity.
  - intros [|j] l Hj Hl; [|lia]. vm_compute in Hl. injection Hl as <-. vm_compute. reflexivity.
  - exact interfaceFile_count.
Defined.

(** C1 as first stated fails on a member without a body: the pattern
    matches its line, the counter is never positive from there on, and the
    result is a range, not absent. *)
Lemma findMethodLineRange_stub_not_absent :
  test (methodPattern "Submit") "  void Submit(Order o);" = true /\
  findMethodStart (methodPattern "Submit") 0 (split "010"%char interfaceFile) = Some 1%nat /\
  (forall n, runningCount (take n (drop 1 (split "010"%char interfaceFile))) <= 0) /\
  findMethodLineRange interfaceDisk "IOrders.cs" "Submit" = Returned (Some (mkRange 2 2)) /\
  findMethodLineRange interfaceDisk "IOrders.cs" "Submit" <> Returned None.
Proof.
  split; [vm_compute; reflexivity|]. split; [vm_compute; reflexivity|].
  split; [exact interfaceFile_count|]. split; [vm_compute; reflexivity|].
  vm_compute. discriminate.
Qed.

(** C10.  When nothing exists at the path, [findMethodLineRange] returns
    absent and raises nothing; this is also what it returns for a file that
    exists and in which no line matches the pattern. *)
Theorem findMethodLineRange_missing_file
    (fs : string -> fileState) (filePath methodName : string) :
  fs filePath = NoFile ->
  findMethodLineRange fs filePath methodName = Returned None /\
  (forall (fs' : string -> fileState) (filePath' content : string),
     fs' filePath' = FileContent content ->
     (forall line, line ∈ split "010"%char content ->
        test (methodPattern methodName) line = false) ->
     findMethodLineRange fs' filePath' methodName
     = findMethodLineRange fs filePath methodName).
Proof.
  intros Hfs.
  assert (Hnone : findMethodLineRange fs filePath methodName = Returned None).
  { unfold findMethodLineRange, existsSync. rewrite Hfs. reflexivity. }
  split; [exact Hnone|]. intros fs' filePath' content Hfs' Hlines. rewrite Hnone.
  unfold findMethodLineRange, existsSync, readFileSync. rewrite Hfs'.
  cbn [negb mbind outcome_bind]. rewrite findMethodStart_none by exact Hlines. reflexivity.
Qed.

Lemma findMethodLineRange_missing_file_witness :
  findMethodLineRange interfaceDisk "Orders.cs" "Submit" = Returned None.
Proof.
  apply (findMethodLineRange_missing_file interfaceDisk "Orders.cs" "Submit"). reflexivity.
Defined.

End LocatorFacts.

(* ===================================================================== *)
(** * The namespace affinity score                                        *)
(* ===================================================================== *)

Section ScoreFacts.

Import FileFinder FileProps.

Lemma consecutivePrefix_le pathParts : forall namespaceParts,
  0 <= consecutivePrefix pathParts namespaceParts <= countPositional pathParts namespaceParts.
Proof.
  induction pathParts as [|p ps IH]; intros [|n ns]; simpl; try lia.
  specialize (IH ns). destruct (String.eqb _ _); lia.
Qed.

(** C2.  The code counts every position at which a path part equals the
    namespace part, also after a mismatch: for the path [a/x/c/File.cs] and
    the namespace [a.b.c.File] it counts 2 and scores 220, where the
    consecutive count of the specification is 1 and the score 120.  The score
    of the code is never below that of the specification. *)
Theorem calculateNamespaceScore_counts_past_mismatch :
  calculateNamespaceScore "C:\proj\a\x\c\File.cs" "a.b.c.File" "C:\proj" = 220 /\
  affinityScore "C:\proj\a\x\c\File.cs" "a.b.c.File" "C:\proj" = 120 /\
  (forall filePath namespace projectRoot,
     affinityScore filePath namespace projectRoot
     <= calculateNamespaceScore filePath namespace projectRoot).
Proof.
  split; [vm_compute; reflexivity|]. split; [vm_compute; reflexivity|].
  intros filePath namespace projectRoot. unfold affinityScore, calculateNamespaceScore.
  cbv zeta.
  pose proof (consecutivePrefix_le (split "/" (relativePathOf filePath projectRoot))
                (namespacePartsOf namespace)). lia.
Qed.

End ScoreFacts.

(* ===================================================================== *)
(** * The stable sort                                                     *)
(* ===================================================================== *)

Section SortFacts.

Context {A : Type} (cmp : A -> A -> Z).

Lemma insertBy_Permutation x l : Permutation (insertBy cmp x l) (x :: l).
Proof.
  induction l as [|y l IH]; simpl; [reflexivity|].
  destruct (cmp x y <=? 0); [reflexivity|].
  rewrite IH. apply perm_swap.
Qed.

Lemma sortBy_Permutation l : Permutation (sortBy cmp l) l.
Proof.
  induction l as [|x l IH]; simpl; [reflexivity|].
  fold (sortBy cmp l). rewrite insertBy_Permutation, IH. reflexivity.
Qed.

(** Elements of one class, any two of which compare as equal, keep their
    order. *)
Lemma insertBy_filter (P : A -> Prop) `{forall a, Decision (P a)} x l :
  (forall y, y ∈ l -> P x -> P y -> cmp x y <= 0) ->
  filter P (insertBy cmp x l) = filter P (x :: l).
Proof.
  induction l as [|y l IH]; intros Hxy; simpl; [reflexivity|].
  destruct (cmp x y <=? 0) eqn:E; [reflexivity|].
  apply Z.leb_gt in E.
  assert (Hnot : ~ (P x /\ P y)).
  { intros [Hx Hy]. specialize (Hxy y (list_elem_of_here _ _) Hx Hy). lia. }
  rewrite (filter_cons P y), IH by (intros z Hz; apply Hxy; right; exact Hz).
  rewrite !(filter_cons P x), (filter_cons P y).
  destruct (decide (P x)), (decide (P y)); tauto || reflexivity.
Qed.

Lemma sortBy_filter (P : A -> Prop) `{forall a, Decision (P a)} l :
  (forall x y, x ∈ l -> y ∈ l -> P x -> P y -> cmp x y <= 0) ->
  filter P (sortBy cmp l) = filter P l.
Proof.
  induction l as [|x l IH]; intros Hl; [reflexivity|].
  cbn [sortBy fold_right]. fold (sortBy cmp l). rewrite insertBy_filter.
  - rewrite !(filter_cons P x), IH; [reflexivity|].
    intros a b Ha Hb. apply Hl; right; assumption.
  - intros y Hy. apply Hl; [left|right].
    rewrite <- (sortBy_Permutation l). exact Hy.
Qed.

Variables (R : A -> A -> Prop) (valid : A -> Prop).
Hypothesis R_trans : forall a b c, R a b -> R b c -> R a c.
Hypothesis cmp_le : forall a b, valid a -> valid b -> cmp a b <= 0 -> R a b.
Hypothesis cmp_gt : forall a b, valid a -> valid b -> 0 < cmp a b -> R b a.

Lemma insertBy_sorted x l :
  valid x -> Forall valid l -> StronglySorted R l -> StronglySorted R (insertBy cmp x l).
Proof.
  intros Hx Hl Hs. induction Hs as [|y l Hs IH Hy]; simpl.
  - repeat constructor.
  - apply Forall_cons in Hl as [Hvy Hl].
    destruct (cmp x y <=? 0) eqn:E.
    + apply Z.leb_le in E. constructor; [constructor; assumption|].
      constructor; [apply cmp_le; assumption|].
      eapply Forall_impl; [exact Hy|]. intros b Hb. simpl in Hb.
      eapply R_trans; [apply cmp_le; eassumption|exact Hb].
    + apply Z.leb_gt in E. constructor; [apply IH; exact Hl|].
      rewrite insertBy_Permutation. constructor; [apply cmp_gt; assumption|exact Hy].
Qed.

Lemma sortBy_sorted l : Forall valid l -> StronglySorted R (sortBy cmp l).
Proof.
  induction l as [|x l IH]; intros Hl; [constructor|].
  apply Forall_cons in Hl as [Hx Hl]. cbn [sortBy fold_right]. fold (sortBy cmp l).
  apply insertBy_sorted; [exact Hx| |apply IH; exact Hl].
  rewrite sortBy_Permutation. exact Hl.
Qed.

End SortFacts.

(* ===================================================================== *)
(** * The blame parser                                                    *)
(* ===================================================================== *)

Section MapFacts.

Import GitBlameRefined.

Lemma mapHas_false hash m : mapHas hash m = false -> hash ∉ map fst m.
Proof.
  induction m as [|[h r] m IH]; simpl; intros H; [apply not_elem_of_nil|].
  apply orb_false_iff in H as [Hh Hm]. apply String.eqb_neq in Hh.
  intros [->|Hin]%elem_of_cons; [congruence|]. exact (IH Hm Hin).
Qed.

Lemma mapSet_new hash record m :
  mapHas hash m = false -> mapSet hash record m = m ++ [(hash, record)].
Proof.
  induction m as [|[h r] m IH]; simpl; intros H; [reflexivity|].
  apply orb_false_iff in H as [Hh Hm]. rewrite Hh, (IH Hm). reflexivity.
Qed.

Lemma mapUpdate_keys cur f m : map fst (mapUpdate cur f m) = map fst m.
Proof.
  induction m as [|[h r] m IH]; simpl; [reflexivity|].
  destruct (String.eqb h cur); simpl; [reflexivity|]. rewrite IH. reflexivity.
Qed.

Lemma mapUpdate_Forall (P : GitBlameAnalysis -> Prop) cur f m :
  (forall r, P r -> P (f r)) ->
  Forall (fun kv => P (snd kv)) m -> Forall (fun kv => P (snd kv)) (mapUpdate cur f m).
Proof.
  intros Hf. induction 1 as [|[h r] m Hr Hm IH]; simpl; [constructor|].
  destruct (String.eqb h cur); constructor; simpl; auto.
Qed.

Lemma mapUpdate_elem cur f m h r' :
  NoDup (map fst m) -> (h, r') ∈ mapUpdate cur f m ->
  (h <> cur /\ (h, r') ∈ m) \/ (h = cur /\ exists r, (h, r) ∈ m /\ r' = f r).
Proof.
  induction m as [|[k r] m IH]; simpl; intros Hnd Hin; [inversion Hin|].
  apply NoDup_cons in Hnd as [Hk Hnd].
  destruct (String.eqb_spec k cur) as [->|Hne].
  - apply elem_of_cons in Hin as [[= -> ->]|Hin].
    + right. split; [reflexivity|]. exists r. split; [left|reflexivity].
    + left. split; [|right; exact Hin]. intros ->. apply Hk.
      apply (list_elem_of_fmap_2 fst) in Hin. exact Hin.
  - apply elem_of_cons in Hin as [[= -> ->]|Hin].
    + left. split; [exact Hne|left].
    + destruct (IH Hnd Hin) as [[H1 H2]|[H1 (r0 & H2 & H3)]].
      * left. split; [exact H1|right; exact H2].
      * right. split; [exact H1|]. exists r0. split; [right; exact H2|exact H3].
Qed.

End MapFacts.

Section ParserFacts.

Import GitAdvanced GitBlameRefined BlameProps.

Variables (tza : Z) (startDate : calendarDate) (oneYearAgo : Z).

Local Abbreviation setSummary := (GitBlameRefined.setSummary tza startDate oneYearAgo).
Local Abbreviation step := (GitBlameRefined.step tza startDate oneYearAgo).
Local Abbreviation stepMetadata := (GitBlameRefined.stepMetadata tza startDate oneYearAgo).
Local Abbreviation parseLines := (GitBlameRefined.parseLines tza startDate oneYearAgo).
Local Abbreviation parseBlame := (GitBlameRefined.parseBlame tza startDate oneYearAgo).
Local Abbreviation postProcess := (GitBlameRefined.postProcess).

Lemma toISODate_returned n d :
  toISODate (dateOfNumber n) = Returned d ->
  exists t, Z.abs t <= maxTime /\ d = Some (t / msPerDay).
Proof.
  destruct n as [t|]; simpl; [|discriminate]. unfold timeClip.
  destruct (Z.abs t <=? maxTime) eqn:E; simpl; [|discriminate].
  intros [= <-]. exists t. split; [apply Z.leb_le; exact E|reflexivity].
Qed.

Lemma stepCommitLine_cases line st :
  stepCommitLine line st = st \/
  exists hash, isCommitLine line = true /\ mapHas hash (commitMap st) = false /\
    stepCommitLine line st
    = mkState (commitMap st ++ [(hash, newCommit hash)]) (Some hash).
Proof.
  unfold stepCommitLine, isCommitLine.
  destruct (matchHere reCommitLine line) as [m|]; [|left; reflexivity].
  destruct (negb (includesChar tab line)); [|left; reflexivity].
  destruct (group 1 m) as [hash|]; [|left; reflexivity].
  destruct (mapHas hash (commitMap st)) eqn:E; [left; reflexivity|].
  right. exists hash. cbn [negb]. rewrite mapSet_new by exact E. auto.
Qed.

(** ** Properties of single records *)

Section PerRecord.

Variable P : GitBlameAnalysis -> Prop.
Hypothesis P_new : forall hash, P (newCommit hash).
Hypothesis P_author : forall a c, P c -> P (setAuthor a c).
Hypothesis P_date : forall t c, P c -> Z.abs t <= maxTime ->
  P (setCommitDate (Some (t / msPerDay)) c).
Hypothesis P_summary : forall message c, P c -> P (setSummary message c).

Local Abbreviation allP m := (Forall (fun kv : string * GitBlameAnalysis => P (snd kv)) m).

Lemma stepCommitLine_records line st :
  allP (commitMap st) -> allP (commitMap (stepCommitLine line st)).
Proof.
  intros H. destruct (stepCommitLine_cases line st) as [->|(hash & _ & _ & ->)]; [exact H|].
  simpl. apply Forall_app. split; [exact H|]. constructor; [apply P_new|constructor].
Qed.

Lemma stepMetadata_records line st st' :
  allP (commitMap st) -> stepMetadata line st = Returned st' -> allP (commitMap st').
Proof.
  intros H. unfold GitBlameRefined.stepMetadata.
  destruct (currentCommit st) as [cur|]; [|intros [= <-]; exact H].
  destruct (startsWith "author " line).
  { intros [= <-]. simpl. apply mapUpdate_Forall; auto. }
  destruct (startsWith "author-time " line).
  { destruct (toISODate _) as [d|] eqn:E; [|discriminate].
    apply toISODate_returned in E as (t & Ht & ->).
    intros [= <-]. simpl. apply mapUpdate_Forall; auto. }
  destruct (startsWith "summary " line).
  { intros [= <-]. simpl. apply mapUpdate_Forall; auto. }
  intros [= <-]. exact H.
Qed.

Lemma parseLines_records lines : forall st st',
  allP (commitMap st) -> parseLines lines st = Returned st' -> allP (commitMap st').
Proof.
  induction lines as [|line rest IH]; intros st st' H; simpl.
  - intros [= <-]. exact H.
  - destruct (step line st) as [st1|] eqn:E; [|discriminate]. simpl. apply IH.
    unfold GitBlameRefined.step in E. destruct (negb (truthy (trim line))).
    + injection E as <-. exact H.
    + eapply stepMetadata_records; [|exact E]. apply stepCommitLine_records. exact H.
Qed.

Lemma parseBlame_records stdout m :
  parseBlame stdout = Returned m -> Forall P (mapValues m).
Proof.
  unfold GitBlameRefined.parseBlame.
  destruct (parseLines _ _) as [st|] eqn:E; [|discriminate]. intros [= <-].
  apply parseLines_records in E; [|constructor].
  unfold mapValues. apply Forall_fmap. exact E.
Qed.

End PerRecord.

Lemma parseBlame_refComplete stdout m :
  parseBlame stdout = Returned m -> Forall refComplete (mapValues m).
Proof.
  apply parseBlame_records; unfold refComplete; try (intros; simpl; assumption).
  - intros hash. simpl. split; intros [? [=]].
  - intros message c Hc. unfold GitBlameRefined.setSummary.
    pose proof (extractPRNumber_both_or_neither message) as Hpr.
    destruct (GitAdvanced.prNumber (extractPRNumber message)) as [n|]; [|exact Hc].
    destruct (truthy n); [|exact Hc]. simpl.
    split; intros _; [apply Hpr|]; eexists; reflexivity.
Qed.

Lemma day_in_range t : Z.abs t <= maxTime -> Z.abs (t / msPerDay * msPerDay) <= maxTime.
Proof.
  unfold maxTime, msPerDay. intros H.
  assert (H1 : -100000000 <= t / 86400000 <= 100000000).
  { split; [apply Z.div_le_lower_bound|apply Z.div_le_upper_bound]; lia. }
  lia.
Qed.

Lemma parseBlame_dated stdout m :
  parseBlame stdout = Returned m -> Forall dated (mapValues m).
Proof.
  apply parseBlame_records; unfold dated, dateInRange.
  - intros hash. simpl. split; [discriminate|discriminate].
  - intros a c Hc. exact Hc.
  - intros t c [_ _] Ht. simpl. split; [|eauto].
    intros d [= <-]. apply day_in_range. exact Ht.
  - intros message c [Hc _]. unfold GitBlameRefined.setSummary.
    destruct (match GitAdvanced.prNumber _ with Some _ => _ | None => _ end) as [[? ?] ?].
    simpl. split; [exact Hc|]. destruct (commitDate c); [eauto|discriminate].
Qed.

End ParserFacts.

Section DateRangeFacts.

Import GitAdvanced GitBlameRefined BlameProps.

Variables (tza ds oneYearAgo : Z).
Hypothesis tza_range : Z.abs tza <= msPerDay.
Hypothesis ds_range : -719528 <= ds <= 2932896.

Local Abbreviation setSummary := (GitBlameRefined.setSummary tza (Some ds) oneYearAgo).
Local Abbreviation step := (GitBlameRefined.step tza (Some ds) oneYearAgo).
Local Abbreviation parseLines := (GitBlameRefined.parseLines tza (Some ds) oneYearAgo).

(** Midnight of the local day of midnight UTC of day [d]. *)
Lemma localMidnight d :
  (d * msPerDay + tza) / msPerDay * msPerDay - tza = (d + tza / msPerDay) * msPerDay - tza.
Proof. rewrite Z.div_add_l by (unfold msPerDay; lia). reflexivity. Qed.

Lemma startDateObj_value :
  startDateObj tza (Some ds) = Some ((ds + tza / msPerDay) * msPerDay - tza).
Proof.
  unfold startDateObj, dateOfCalendar, setHours0, timeClip.
  replace (Z.abs (ds * msPerDay) <=? maxTime) with true
    by (symmetry; apply Z.leb_le; unfold msPerDay, maxTime; lia).
  rewrite localMidnight.
  assert (-1 <= tza / msPerDay <= 1).
  { unfold msPerDay in *. split; [apply Z.div_le_lower_bound|apply Z.div_le_upper_bound]; lia. }
  pose proof (Z.mul_div_le tza msPerDay ltac:(unfold msPerDay; lia)).
  replace (Z.abs _ <=? maxTime) with true; [reflexivity|].
  symmetry. apply Z.leb_le. unfold msPerDay, maxTime in *. lia.
Qed.

Local Abbreviation classified := (BlameProps.classified ds).
Local Abbreviation settled := (BlameProps.settled ds).

Lemma commitDateObj_value d t :
  setHours0 tza (dateOfCalendar d) = Some t ->
  exists dc, d = Some dc /\ t = (dc + tza / msPerDay) * msPerDay - tza.
Proof.
  destruct d as [dc|]; [|discriminate]. cbn [dateOfCalendar].
  unfold timeClip at 1. destruct (Z.abs (dc * msPerDay) <=? maxTime); [|discriminate].
  cbn [setHours0]. rewrite localMidnight. unfold timeClip.
  destruct (Z.abs _ <=? maxTime); [|discriminate].
  intros [= <-]. exists dc. auto.
Qed.

Lemma setSummary_classified message c : classified (setSummary message c).
Proof.
  unfold BlameProps.classified, GitBlameRefined.setSummary.
  destruct (match GitAdvanced.prNumber _ with Some _ => _ | None => _ end) as [[? ?] ?].
  cbn [withinOneYear commitDate inDateRange]. rewrite startDateObj_value.
  destruct (setHours0 tza (dateOfCalendar (commitDate c))) as [tc|] eqn:E; [|discriminate].
  apply commitDateObj_value in E as (dc & -> & ->). cbn [dateGe].
  intros _. exists dc. split; [reflexivity|].
  rewrite Z.leb_le. unfold msPerDay. lia.
Qed.

Lemma settled_any pending st :
  settled false st \/ currentCommit st = None -> settled pending st ->
  forall pending', settled pending' st.
Proof.
  intros Hor [Hnd H] pending'. split; [exact Hnd|]. intros h c Hin.
  destruct Hor as [[_ H']|Hcur].
  - destruct (H' h c Hin) as [[Hf _]|Hc]; [discriminate Hf|auto].
  - destruct (H h c Hin) as [[_ Hc]|Hc]; [congruence|auto].
Qed.

Lemma settled_new st hash :
  settled false st -> mapHas hash (commitMap st) = false ->
  settled false (mkState (commitMap st ++ [(hash, newCommit hash)]) (Some hash)).
Proof.
  intros [Hnd H] Hnew. split; simpl.
  - rewrite map_app. apply NoDup_app. split; [exact Hnd|]. split.
    + intros x Hx Hx'. apply list_elem_of_singleton in Hx'. subst x.
      exact (mapHas_false _ _ Hnew Hx).
    + apply NoDup_singleton.
  - intros h c Hin. apply elem_of_app in Hin as [Hin|Hin].
    + destruct (H h c Hin) as [[Hf _]|Hc]; [discriminate Hf|auto].
    + apply list_elem_of_singleton in Hin. injection Hin as -> ->.
      right. intros Hf. discriminate Hf.
Qed.

Lemma settled_update pending pending' st cur f :
  settled pending st -> currentCommit st = Some cur ->
  (pending' = true \/ (forall c, classified (f c)) \/
   (pending = false /\ forall c, classified c -> classified (f c))) ->
  settled pending' (mkState (mapUpdate cur f (commitMap st)) (Some cur)).
Proof.
  intros [Hnd H] Hcur Hor. split; simpl.
  - rewrite mapUpdate_keys. exact Hnd.
  - intros h c Hin.
    apply mapUpdate_elem in Hin as [[Hne Hin]|[Heq (c0 & Hin & Hc0)]]; [| |exact Hnd].
    + destruct (H h c Hin) as [[_ Hc]|Hc]; [congruence|auto].
    + subst h c. destruct Hor as [Hp|[Hall|[Hp Hkeep]]].
      * auto.
      * right. apply Hall.
      * subst pending. destruct (H cur c0 Hin) as [[Hf _]|Hc]; [discriminate Hf|auto].
Qed.

Lemma classified_setAuthor a c : classified c -> classified (setAuthor a c).
Proof. intros H. exact H. Qed.

Lemma parseLines_settled lines : forall pending st st',
  settled pending st -> summaryFollowsTime pending lines = true ->
  parseLines lines st = Returned st' -> settled false st'.
Proof.
  induction lines as [|line rest IH]; intros pending st st' Hs Hcheck Hparse.
  - simpl in *. injection Hparse as <-. destruct pending; [discriminate|exact Hs].
  - cbn [GitBlameRefined.parseLines] in Hparse.
    destruct (step line st) as [st1|] eqn:Hstep; [|discriminate]. cbn in Hparse.
    unfold GitBlameRefined.step in Hstep. cbn [summaryFollowsTime] in Hcheck.
    destruct (negb (truthy (trim line))).
    { injection Hstep as <-. exact (IH _ _ _ Hs Hcheck Hparse). }
    assert (Hs1 : settled pending (stepCommitLine line st)).
    { destruct (stepCommitLine_cases line st) as [->|(hash & Hline & Hnew & ->)]; [exact Hs|].
      rewrite Hline in Hcheck. destruct pending; [discriminate|].
      apply settled_new; assumption. }
    destruct (isCommitLine line && pending); [discriminate|].
    revert Hstep Hs1. generalize (stepCommitLine line st). intros st0 Hstep Hs1.
    unfold GitBlameRefined.stepMetadata in Hstep.
    destruct (currentCommit st0) as [cur|] eqn:Hcur.
    + destruct (startsWith "author " line).
      { injection Hstep as <-. eapply IH; [|exact Hcheck|exact Hparse].
        apply (settled_update pending); [exact Hs1|exact Hcur|].
        destruct pending; [left; reflexivity|right; right; auto using classified_setAuthor]. }
      destruct (startsWith "author-time " line).
      { destruct (toISODate _) as [d|]; [|discriminate]. injection Hstep as <-.
        eapply IH; [|exact Hcheck|exact Hparse].
        apply (settled_update pending); [exact Hs1|exact Hcur|]. left. reflexivity. }
      destruct (startsWith "summary " line).
      { injection Hstep as <-. eapply IH; [|exact Hcheck|exact Hparse].
        apply (settled_update pending); [exact Hs1|exact Hcur|].
        right. left. apply setSummary_classified. }
      injection Hstep as <-. exact (IH _ _ _ Hs1 Hcheck Hparse).
    + injection Hstep as <-.
      assert (Hall : forall p, settled p st0) by (apply (settled_any pending); auto).
      destruct (startsWith "author " line); [exact (IH _ _ _ (Hall _) Hcheck Hparse)|].
      destruct (startsWith "author-time " line); [exact (IH _ _ _ (Hall _) Hcheck Hparse)|].
      destruct (startsWith "summary " line); exact (IH _ _ _ (Hall _) Hcheck Hparse).
Qed.

End DateRangeFacts.

(* ===================================================================== *)
(** * The history analyzer                                                *)
(* ===================================================================== *)

Section AnalyzerFacts.

Import GitAdvanced GitBlameRefined BlameProps FileFinder FileProps.

Variables (tza : Z) (startDate : calendarDate) (oneYearAgo : Z).
Variable execAsync : string -> string -> outcome string.
Variables (filePath : string) (lineStart lineEnd : option nat) (projectRoot : string).

Local Abbreviation analyze :=
  (analyzeBlameResults tza startDate oneYearAgo execAsync filePath lineStart lineEnd projectRoot).
Local Abbreviation parseBlame := (GitBlameRefined.parseBlame tza startDate oneYearAgo).

Lemma analyze_returned out :
  analyze = Returned out ->
  out = [] \/
  exists stdout m,
    execAsync (blameCommand filePath lineStart lineEnd) projectRoot = Returned stdout /\
    parseBlame stdout = Returned m /\ out = postProcess m.
Proof.
  unfold analyzeBlameResults.
  destruct (execAsync _ _) as [stdout|]; [|intros [= <-]; left; reflexivity].
  cbn [mbind outcome_bind].
  destruct (GitBlameRefined.parseBlame _ _ _ stdout) as [m|] eqn:E;
    [|intros [= <-]; left; reflexivity].
  intros [= <-]. right. eauto.
Qed.

Lemma analyze_parsed stdout m :
  execAsync (blameCommand filePath lineStart lineEnd) projectRoot = Returned stdout ->
  parseBlame stdout = Returned m ->
  analyze = Returned (postProcess m).
Proof. intros He Hp. unfold analyzeBlameResults. rewrite He. cbn. rewrite Hp. reflexivity. Qed.

Lemma postProcess_elem m c :
  c ∈ postProcess m -> withinOneYear c = true /\ exists h, (h, c) ∈ m.
Proof.
  unfold postProcess. rewrite sortBy_Permutation. rewrite list_elem_of_In, filter_In.
  intros [Hin Hw]. split; [exact Hw|]. unfold mapValues in Hin.
  apply in_map_iff in Hin as ([h c'] & <- & Hin). exists h. apply list_elem_of_In. exact Hin.
Qed.

Lemma postProcess_values m c : c ∈ postProcess m -> c ∈ mapValues m.
Proof.
  intros (_ & h & Hin)%postProcess_elem. unfold mapValues.
  apply (list_elem_of_fmap_2 snd) in Hin. exact Hin.
Qed.

(** C8.  [extractPRNumber] yields a number exactly when it yields a source,
    and in every record that [analyzeBlameResults] returns [prNumber] is
    present exactly when [prSource] is. *)
Theorem prSource_iff_prNumber :
  (forall message,
     is_Some (GitAdvanced.prNumber (extractPRNumber message))
     <-> is_Some (GitAdvanced.prSource (extractPRNumber message))) /\
  (forall out c, analyze = Returned out -> c ∈ out ->
     (is_Some (prNumber c) <-> is_Some (prSource c)) /\
     (prNumber c = None -> prSource c = None)).
Proof.
  split; [exact extractPRNumber_both_or_neither|].
  intros out c Hout Hc.
  assert (H : is_Some (prNumber c) <-> is_Some (prSource c)).
  { apply analyze_returned in Hout as [->|(stdout & m & _ & Hp & ->)]; [inversion Hc|].
    apply parseBlame_refComplete in Hp. rewrite Forall_forall in Hp.
    apply Hp, postProcess_values, Hc. }
  split; [exact H|]. intros Hn. destruct (prSource c) eqn:E; [|reflexivity].
  destruct H as [_ H]. destruct H as [n Hn']; [eauto|congruence].
Qed.

(** C6.  When the blame tool prints [stdout] and parsing it leaves the
    records [parsed], [analyzeBlameResults] returns a sequence that is a
    rearrangement of the records of [parsed] whose [withinOneYear] is true, in
    which no record is dated later than one before it, and in which the
    records of any one date stand in the order they have in [parsed], the
    order of discovery. *)
Theorem analyzeBlameResults_retained_sorted stdout parsed :
  execAsync (blameCommand filePath lineStart lineEnd) projectRoot = Returned stdout ->
  parseBlame stdout = Returned parsed ->
  exists out,
    analyze = Returned out /\
    Permutation out (List.filter withinOneYear (mapValues parsed)) /\
    StronglySorted dateDesc out /\
    (forall d : Z,
       filter (fun c => commitDate c = Some d) out
       = filter (fun c => commitDate c = Some d)
           (List.filter withinOneYear (mapValues parsed))).
Proof.
  intros He Hp. exists (postProcess parsed). split; [apply analyze_parsed with stdout; assumption|].
  unfold postProcess. split; [apply sortBy_Permutation|].
  pose proof (parseBlame_dated _ _ _ _ _ Hp) as Hd.
  set (valid := fun c : GitBlameAnalysis =>
    exists d, commitDate c = Some d /\ Z.abs (d * msPerDay) <= maxTime).
  assert (Hvalid : Forall valid (List.filter withinOneYear (mapValues parsed))).
  { apply Forall_forall. intros c Hc. apply list_elem_of_In, filter_In in Hc as [Hc Hw].
    rewrite Forall_forall in Hd. destruct (Hd c) as [Hr Hs]; [apply list_elem_of_In, Hc|].
    destruct (Hs Hw) as [d Hdate]. exists d. auto. }
  assert (Hcmp : forall a b, valid a -> valid b ->
    exists da db, commitDate a = Some da /\ commitDate b = Some db /\
      byDateDesc a b = db * msPerDay - da * msPerDay).
  { intros a b (da & Ha & Hra) (db & Hb & Hrb). exists da, db.
    unfold byDateDesc, dateOfCalendar, timeClip. rewrite Ha, Hb.
    apply Z.leb_le in Hra, Hrb. rewrite Hra, Hrb. auto. }
  split.
  - apply (sortBy_sorted byDateDesc dateDesc valid); [| | |exact Hvalid].
    + unfold dateDesc. intros a b c.
      destruct (commitDate a), (commitDate b), (commitDate c); try tauto. lia.
    + intros a b Ha Hb Hle. destruct (Hcmp a b Ha Hb) as (da & db & Ea & Eb & E).
      unfold dateDesc. rewrite Ea, Eb. unfold msPerDay in E. lia.
    + intros a b Ha Hb Hlt. destruct (Hcmp a b Ha Hb) as (da & db & Ea & Eb & E).
      unfold dateDesc. rewrite Ea, Eb. unfold msPerDay in E. lia.
  - intros d. apply sortBy_filter. intros a b Ha Hb Hda Hdb.
    unfold byDateDesc. rewrite Hda, Hdb. destruct (dateOfCalendar (Some d)); lia.
Qed.

End AnalyzerFacts.

Section HistoryTheorems.

Import GitAdvanced GitBlameRefined BlameProps FileFinder FileProps.



Lemma analyzeBlameResults_retained_sorted_witness :
  exists out,
    analyzeBlameResults (-18000000) (Some 19675) 1690000000000 (shellPrinting blameOutput)
      "Orders.cs" (Some 12%nat) (Some 15%nat) "C:\proj" = Returned out /\
    Permutation out (List.filter withinOneYear [fixRounding; initialImport]) /\
    StronglySorted dateDesc out /\
    (forall d : Z,
       filter (fun c => commitDate c = Some d) out
       = filter (fun c => commitDate c = Some d)
           (List.filter withinOneYear [fixRounding; initialImport])).
Proof.
  apply (analyzeBlameResults_retained_sorted (-18000000) (Some 19675) 1690000000000
           (shellPrinting blameOutput) "Orders.cs" (Some 12%nat) (Some 15%nat) "C:\proj"
           blameOutput [("1f3a9c", fixRounding); ("7be2d0", initialImport)]).
  - reflexivity.
  - vm_compute. reflexivity.
Defined.

Lemma prSource_iff_prNumber_witness :
  (is_Some (prNumber fixRounding) <-> is_Some (prSource fixRounding)) /\
  (prNumber fixRounding = None -> prSource fixRounding = None).
Proof.
  apply (proj2 (prSource_iff_prNumber (-18000000) (Some 19675) 1690000000000
           (shellPrinting blameOutput) "Orders.cs" (Some 12%nat) (Some 15%nat) "C:\proj")
           [fixRounding; initialImport] fixRounding).
  - vm_compute. reflexivity.
  - apply list_elem_of_here.
Defined.


(** C9.  When the search command fails, [findSourceFile] returns absent;
    when the blame command fails, [analyzeBlameResults] returns the empty
    sequence; and neither of them ever ends in an exception, whatever the
    shell does. *)
Theorem tool_failure_is_absorbed
    (execAsync : string -> string -> outcome string)
    (namespace projectRoot filePath : string) (lineStart lineEnd : option nat)
    (tza : Z) (startDate : calendarDate) (oneYearAgo : Z) :
  (execAsync (searchCommand namespace) projectRoot = Thrown ->
     findSourceFile execAsync namespace projectRoot = Returned None) /\
  (execAsync (blameCommand filePath lineStart lineEnd) projectRoot = Thrown ->
     analyzeBlameResults tza startDate oneYearAgo execAsync filePath lineStart lineEnd
       projectRoot = Returned []) /\
  findSourceFile execAsync namespace projectRoot <> Thrown /\
  analyzeBlameResults tza startDate oneYearAgo execAsync filePath lineStart lineEnd
    projectRoot <> Thrown.
Proof.
  assert (Hcatch : forall A (body : outcome A) a, tryCatch body (Returned a) <> Thrown).
  { intros A [x|] a; discriminate. }
  split; [|split; [|split; [apply Hcatch|apply Hcatch]]].
  - intros H. unfold findSourceFile. rewrite H. reflexivity.
  - intros H. unfold analyzeBlameResults. rewrite H. reflexivity.
Qed.

Lemma tool_failure_is_absorbed_witness :
  findSourceFile brokenShell "App.Orders.OrderService" "C:\proj" = Returned None /\
  analyzeBlameResults 0 (Some 19675) 1690000000000 brokenShell "Orders.cs"
    (Some 12%nat) (Some 15%nat) "C:\proj" = Returned [].
Proof.
  destruct (tool_failure_is_absorbed brokenShell "App.Orders.OrderService" "C:\proj"
              "Orders.cs" (Some 12%nat) (Some 15%nat) 0 (Some 19675) 1690000000000)
    as (Hfind & Hblame & _).
  split; [apply Hfind; reflexivity|apply Hblame; reflexivity].
Defined.

End HistoryTheorems.

(* ===================================================================== *)
(** * What a match consumes and captures                                  *)
(* ===================================================================== *)

Section MatchFacts.

Import RegexSemantics.

Lemma string_app_assoc (a b c : string) : (a +:+ b) +:+ c = a +:+ b +:+ c.
Proof. induction a as [|x a IH]; [reflexivity|]. rewrite !app_cons, IH. reflexivity. Qed.

Lemma capturedBy_refl r caps : capturedBy r caps caps.
Proof. intros i v H. left. exact H. Qed.

Lemma capturedBy_trans r1 r2 r c1 c2 c3 :
  (forall x, In x (capsOf r1) -> In x (capsOf r)) ->
  (forall x, In x (capsOf r2) -> In x (capsOf r)) ->
  capturedBy r1 c1 c2 -> capturedBy r2 c2 c3 -> capturedBy r c1 c3.
Proof.
  intros H1 H2 H12 H23 i v Hv.
  destruct (H23 i v Hv) as [Hold|(r0 & Hin & Hl)]; [|right; eauto].
  destruct (H12 i v Hold) as [Hold'|(r0 & Hin & Hl)]; [left; exact Hold'|right; eauto].
Qed.

Lemma capturedBy_sub r1 r c1 c2 :
  (forall x, In x (capsOf r1) -> In x (capsOf r)) ->
  capturedBy r1 c1 c2 -> capturedBy r c1 c2.
Proof.
  intros H H12 i v Hv. destruct (H12 i v Hv) as [Hold|(r0 & Hin & Hl)]; [auto|right; eauto].
Qed.

Lemma repLoop_matches r body g k :
  matches r body ->
  forall fuel s caps res, repLoop body g k fuel s caps = Some res ->
    exists m rest caps', s = m +:+ rest /\ lang (Rep g r) m /\ k rest caps' = Some res /\
      capturedBy (Rep g r) caps caps'.
Proof.
  intros Hb. induction fuel as [|fuel IH]; intros s caps res H.
  - simpl in H. exists EmptyString, s, caps.
    split; [reflexivity|]. split; [constructor|]. split; [|apply capturedBy_refl].
    destruct g; [exact H|]. destruct (k s caps); [exact H|discriminate].
  - simpl in H.
    assert (Hmore : forall res',
      body s caps (fun s1 c1 => if (String.length s1 <? String.length s)%nat
                                then repLoop body g k fuel s1 c1 else None) = Some res' ->
      exists m rest caps', s = m +:+ rest /\ lang (Rep g r) m /\ k rest caps' = Some res' /\
        capturedBy (Rep g r) caps caps').
    { intros res' Hm. apply Hb in Hm as (a & s' & c' & -> & La & Hk & Hc).
      destruct (_ <? _)%nat; [|discriminate].
      apply IH in Hk as (b & rest & c'' & -> & Lb & Hk & Hc').
      exists (a +:+ b), rest, c''. rewrite string_app_assoc. split; [reflexivity|].
      split; [constructor; assumption|]. split; [assumption|].
      eapply (capturedBy_trans r (Rep g r)); eauto. }
    assert (Hstop : forall res', k s caps = Some res' ->
      exists m rest caps', s = m +:+ rest /\ lang (Rep g r) m /\ k rest caps' = Some res' /\
        capturedBy (Rep g r) caps caps').
    { intros res' Hk. exists EmptyString, s, caps. split; [reflexivity|].
      split; [constructor|]. split; [exact Hk|apply capturedBy_refl]. }
    destruct g.
    + destruct (body s caps _) eqn:E; [injection H as <-; eauto|eauto].
    + destruct (k s caps) eqn:E; [injection H as <-; eauto|eauto].
Qed.

Lemma matchRe_matches r : matches r (matchRe r).
Proof.
  induction r as [|p|r1 IH1 r2 IH2|r1 IH1 r2 IH2|g r1 IH1|i r1 IH1];
    intros s caps k res H; simpl in H.
  - exists EmptyString, s, caps. split; [reflexivity|]. split; [constructor|].
    split; [exact H|apply capturedBy_refl].
  - destruct s as [|c s']; [discriminate|]. destruct (p c) eqn:Hp; [|discriminate].
    exists (String c EmptyString), s', caps. split; [reflexivity|].
    split; [constructor; exact Hp|]. split; [exact H|apply capturedBy_refl].
  - apply IH1 in H as (a & s' & c' & -> & La & H & Hc).
    apply IH2 in H as (b & rest & c'' & -> & Lb & H & Hc').
    exists (a +:+ b), rest, c''. rewrite string_app_assoc. split; [reflexivity|].
    split; [constructor; assumption|]. split; [assumption|].
    eapply (capturedBy_trans r1 r2); eauto; simpl; intros x Hx; apply in_or_app; auto.
  - destruct (matchRe r1 s caps k) eqn:E.
    + injection H as <-. apply IH1 in E as (a & rest & c' & -> & La & Hk & Hc).
      exists a, rest, c'. split; [reflexivity|]. split; [apply lang_AltL; exact La|].
      split; [exact Hk|]. eapply capturedBy_sub; [|exact Hc].
      simpl. intros x Hx. apply in_or_app. auto.
    + apply IH2 in H as (a & rest & c' & -> & La & Hk & Hc).
      exists a, rest, c'. split; [reflexivity|]. split; [apply lang_AltR; exact La|].
      split; [exact Hk|]. eapply capturedBy_sub; [|exact Hc].
      simpl. intros x Hx. apply in_or_app. auto.
  - eapply repLoop_matches; eauto.
  - apply IH1 in H as (a & rest & c' & -> & La & Hk & Hc). rewrite takeN_app in Hk.
    exists a, rest, ((i, a) :: c'). split; [reflexivity|]. split; [constructor; exact La|].
    split; [exact Hk|]. intros j v Hv. simpl in Hv.
    destruct (Nat.eqb_spec j i) as [->|Hne].
    + injection Hv as <-. right. exists r1. split; [left; reflexivity|exact La].
    + destruct (Hc j v Hv) as [Hold|(r0 & Hin & Hl)]; [left; exact Hold|].
      right. exists r0. split; [right; exact Hin|exact Hl].
Qed.

Lemma matchHere_captures r s caps i v :
  matchHere r s = Some caps -> group i caps = Some v ->
  exists r1, In (i, r1) (capsOf r) /\ lang r1 v.
Proof.
  unfold matchHere. intros H Hv.
  apply matchRe_matches in H as (m & rest & c' & _ & _ & [= <-] & Hc).
  destruct (Hc i v Hv) as [Hold|Hnew]; [discriminate Hold|exact Hnew].
Qed.

Lemma search_captures r s caps i v :
  search r s = Some caps -> group i caps = Some v ->
  exists r1, In (i, r1) (capsOf r) /\ lang r1 v.
Proof.
  induction s as [|c s IH]; simpl; intros H Hv.
  - destruct (matchHere r EmptyString) eqn:E; [|discriminate]. injection H as ->.
    eapply matchHere_captures; eauto.
  - destruct (matchHere r (String c s)) eqn:E; [|auto]. injection H as ->.
    eapply matchHere_captures; eauto.
Qed.

Lemma lang_Rep_Cls g p m : lang (Rep g (Cls p)) m -> RegexProps.allChars p m = true.
Proof.
  remember (Rep g (Cls p)) as r eqn:E. induction 1; try discriminate.
  - reflexivity.
  - injection E as -> ->.
    match goal with L : lang (Cls p) _ |- _ => inversion L as [|p' c Hp| | | | | |]; subst end.
    rewrite app_cons, app_nil_l. simpl.
    rewrite IHlang2 by reflexivity. rewrite Hp. reflexivity.
Qed.

Lemma lang_Plus_Cls p m : lang (Plus (Cls p)) m -> wordOf p m.
Proof.
  unfold Plus. inversion 1 as [| |r1 r2 s1 s2 L1 L2| | | | |]; subst.
  apply lang_Rep_Cls in L2. inversion L1 as [|p' c Hp| | | | | |]; subst.
  rewrite app_cons, app_nil_l.
  split; [discriminate|]. simpl. rewrite L2, Hp. reflexivity.
Qed.

End MatchFacts.

(* ===================================================================== *)
(** * Frames of a trace                                                   *)
(* ===================================================================== *)

Section TraceFacts.

Import RegexSemantics JsMore StackTraceParser TraceParser.

Lemma split_pieces sep s : Forall (fun w => includesChar sep w = false) (split sep s).
Proof.
  induction s as [|c s IH]; simpl; [repeat constructor|].
  destruct (eqChar c sep) eqn:E; [constructor; [reflexivity|exact IH]|].
  destruct (split sep s) as [|w ws]; [repeat constructor; simpl; rewrite E; reflexivity|].
  apply Forall_cons in IH as [Hw Hws]. constructor; [|exact Hws].
  simpl. rewrite E, Hw. reflexivity.
Qed.

Lemma split_nonempty sep s : split sep s <> [].
Proof.
  destruct s as [|c s]; simpl; [discriminate|].
  destruct (eqChar c sep); [discriminate|]. destruct (split sep s); discriminate.
Qed.

Lemma cleanMethodName_no_angle methodName :
  includesChar ">"%char (cleanMethodName methodName) = false.
Proof.
  unfold cleanMethodName.
  pose proof (split_pieces ">"%char
    (replaceAll reDollarAngle "<" (replaceAll reBracketed EmptyString
       (replaceAll reArity EmptyString methodName)))) as H.
  destruct (split _ _) as [|w ws]; [reflexivity|].
  apply Forall_cons in H as [Hw _]. exact Hw.
Qed.

Lemma parseLine_elem i line e :
  e ∈ parseLine i line ->
  exists m ns raw, search reFrame line = Some m /\ group 1 m = Some ns /\
    group 2 m = Some raw /\ startsWith "System" ns = false /\
    e = mkEntry ns (cleanMethodName raw) line i.
Proof.
  unfold parseLine. destruct (search reFrame line) as [m|]; [|intros H; inversion H].
  destruct (group 1 m) as [ns|] eqn:E1; [|intros H; inversion H].
  destruct (group 2 m) as [raw|] eqn:E2; [|intros H; inversion H].
  destruct (startsWith "System" ns) eqn:E; [intros H; inversion H|].
  intros H. apply list_elem_of_singleton in H. exists m, ns, raw. repeat split; auto.
Qed.

Lemma parseFrom_elem lines : forall i e,
  e ∈ parseFrom i lines ->
  exists j line, lines !! j = Some line /\ e ∈ parseLine (i + j) line.
Proof.
  induction lines as [|line rest IH]; intros i e H; simpl in H; [inversion H|].
  apply elem_of_app in H as [H|H].
  - exists 0%nat, line. rewrite Nat.add_0_r. auto.
  - apply IH in H as (j & l & Hj & He). exists (S j), l.
    replace (i + S j)%nat with (S i + j)%nat by lia. auto.
Qed.

(** X1.  No frame of the runtime library comes out of the parser: whatever
    the trace, the namespace of a parsed entry does not start with "System". *)
Theorem parseStackTrace_skips_System (stackTrace : string) (e : StackTraceEntry) :
  e ∈ parseStackTrace stackTrace -> startsWith "System" (namespace e) = false.
Proof.
  intros H. apply parseFrom_elem in H as (j & line & _ & H).
  apply parseLine_elem in H as (m & ns & raw & _ & _ & _ & Hsys & ->). exact Hsys.
Qed.

Lemma parseStackTrace_skips_System_witness :
  startsWith "System"
    (namespace (mkEntry "App.Orders.OrderService" "Submit"
                  "   at App.Orders.OrderService.Submit(Order o)" 1)) = false.
Proof.
  apply (parseStackTrace_skips_System
           (joinLines [ "   at System.Linq.Enumerable.First(IEnumerable s)";
                        "   at App.Orders.OrderService.Submit(Order o)" ])).
  vm_compute. apply list_elem_of_here.
Defined.

(** X2.  The shape of a parsed entry: its namespace is a non-empty word of
    letters, digits, dots and underscores, and its method name holds no
    closing angle bracket. *)
Theorem parseStackTrace_entry_shape (stackTrace : string) (e : StackTraceEntry) :
  e ∈ parseStackTrace stackTrace ->
  wordOf isNamespaceChar (namespace e) /\ includesChar ">"%char (methodName e) = false.
Proof.
  intros H. apply parseFrom_elem in H as (j & line & _ & H).
  apply parseLine_elem in H as (m & ns & raw & Hm & Hns & _ & _ & ->). simpl. split.
  - destruct (search_captures _ _ _ _ _ Hm Hns) as (r1 & Hin & Hl).
    simpl in Hin. destruct Hin as [[= <-]|[[=]|[]]].
    apply lang_Plus_Cls. exact Hl.
  - apply cleanMethodName_no_angle.
Qed.

Lemma parseStackTrace_entry_shape_witness :
  wordOf isNamespaceChar "App.Tasks.Worker" /\ includesChar ">"%char "Run" = false.
Proof.
  apply (parseStackTrace_entry_shape "   at App.Tasks.Worker.Run>b__0(Object state)"
           (mkEntry "App.Tasks.Worker" "Run"
              "   at App.Tasks.Worker.Run>b__0(Object state)" 0)).
  vm_compute. apply list_elem_of_here.
Defined.

Lemma parseLine_index i line :
  Forall (fun e => lineIndex e = i /\ originalLine e = line) (parseLine i line) /\
  (length (parseLine i line) <= 1)%nat.
Proof.
  unfold parseLine. destruct (search reFrame line) as [m|]; [|split; [constructor|simpl; lia]].
  destruct (group 1 m); [|split; [constructor|simpl; lia]].
  destruct (group 2 m); [|split; [constructor|simpl; lia]].
  destruct (startsWith "System" _); [split; [constructor|simpl; lia]|].
  split; [repeat constructor|simpl; lia].
Qed.

Lemma parseFrom_sorted lines : forall i,
  Forall (fun e => (i <= lineIndex e)%nat) (parseFrom i lines) /\
  StronglySorted (fun a b => (lineIndex a < lineIndex b)%nat) (parseFrom i lines).
Proof.
  induction lines as [|line rest IH]; intros i; simpl; [split; constructor|].
  destruct (IH (S i)) as [Hge Hs]. destruct (parseLine_index i line) as [Hi Hlen].
  destruct (parseLine i line) as [|e [|e' l]]; simpl in *; [| |lia].
  - split; [|exact Hs]. eapply Forall_impl; [exact Hge|]. simpl. intros; lia.
  - apply Forall_cons in Hi as [[Hi _] _]. split.
    + constructor; [lia|]. eapply Forall_impl; [exact Hge|]. simpl. intros; lia.
    + constructor; [exact Hs|]. eapply Forall_impl; [exact Hge|]. simpl. intros; lia.
Qed.

(** X3.  Where a parsed entry comes from: [originalLine] is the line of the
    trace at index [lineIndex], and that line matches the frame pattern; the
    entries come in the order of their lines, at most one for each line. *)
Theorem parseStackTrace_line_of_entry (stackTrace : string) :
  (forall e, e ∈ parseStackTrace stackTrace ->
     split "010"%char stackTrace !! lineIndex e = Some (originalLine e) /\
     test reFrame (originalLine e) = true) /\
  StronglySorted (fun a b => (lineIndex a < lineIndex b)%nat) (parseStackTrace stackTrace).
Proof.
  split; [|apply parseFrom_sorted].
  intros e H. apply parseFrom_elem in H as (j & line & Hj & H).
  apply parseLine_elem in H as (m & ns & raw & Hm & _ & _ & _ & ->). simpl.
  split; [exact Hj|]. unfold test. rewrite Hm. reflexivity.
Qed.

(** X4.  Deduplicating twice changes nothing more, and a list whose keys
    are already distinct is left as it is. *)
Theorem deduplicateEntries_idempotent (entries : list StackTraceEntry) :
  deduplicateEntries (deduplicateEntries entries) = deduplicateEntries entries /\
  (NoDup (entryKey <$> entries) -> deduplicateEntries entries = entries).
Proof.
  assert (Hid : forall l seen, NoDup (entryKey <$> l) ->
            (forall e, e ∈ l -> entryKey e ∉ seen) -> dedupFrom seen l = l).
  { induction l as [|x l IH]; intros seen Hnd Hfresh; [reflexivity|]. simpl.
    rewrite fmap_cons in Hnd. apply NoDup_cons in Hnd as [Hx Hnd].
    rewrite decide_False by (apply Hfresh; left). f_equal. apply IH; [exact Hnd|].
    intros e He [Hin|Hin]%elem_of_union.
    - apply elem_of_singleton in Hin. apply Hx. rewrite <- Hin.
      apply list_elem_of_fmap_2. exact He.
    - apply (Hfresh e); [right; exact He|exact Hin]. }
  split.
  - apply Hid; [apply dedupFrom_NoDup|]. intros e _. apply not_elem_of_empty.
  - intros Hnd. apply Hid; [exact Hnd|]. intros e _. apply not_elem_of_empty.
Qed.

Lemma deduplicateEntries_idempotent_witness :
  deduplicateEntries [mkEntry "App.A" "Run" "at App.A.Run()" 0;
                      mkEntry "App.B" "Run" "at App.B.Run()" 1]
  = [mkEntry "App.A" "Run" "at App.A.Run()" 0; mkEntry "App.B" "Run" "at App.B.Run()" 1].
Proof.
  apply (proj2 (deduplicateEntries_idempotent
                  [mkEntry "App.A" "Run" "at App.A.Run()" 0;
                   mkEntry "App.B" "Run" "at App.B.Run()" 1])).
  vm_compute. apply NoDup_cons. split; [|apply NoDup_singleton].
  intros H. apply list_elem_of_singleton in H. discriminate H.
Defined.

End TraceFacts.

(* ===================================================================== *)
(** * More on the file resolver and the method locator                    *)
(* ===================================================================== *)

Section FinderFacts.

Import FileFinder FileProps FinderProps.

Lemma countPositional_bounds pathParts : forall namespaceParts,
  0 <= countPositional pathParts namespaceParts <= Z.of_nat (length namespaceParts).
Proof.
  induction pathParts as [|p ps IH]; intros [|n ns]; simpl; try lia.
  specialize (IH ns). destruct (String.eqb _ _); lia.
Qed.

Lemma countContained_bounds relativePath namespaceParts :
  0 <= countContained relativePath namespaceParts <= Z.of_nat (length namespaceParts).
Proof.
  induction namespaceParts as [|n ns IH]; simpl; [lia|].
  destruct (includes n relativePath); lia.
Qed.

Lemma lowerChar_idem c : lowerChar (lowerChar c) = lowerChar c.
Proof. destruct c as [[] [] [] [] [] [] [] []]; reflexivity. Qed.

Lemma lowerChar_backslash c :
  eqChar (lowerChar (if eqChar c "\"%char then "/"%char else c)) "\"%char = false.
Proof. destruct c as [[] [] [] [] [] [] [] []]; reflexivity. Qed.

Lemma normalize_idem p : normalize (normalize p) = normalize p.
Proof.
  unfold normalize. induction p as [|c p IH]; simpl; [reflexivity|].
  rewrite lowerChar_backslash, lowerChar_idem. f_equal. exact IH.
Qed.

(** X5.  The score is between 0 and 110 for each namespace part before the
    class name, and it only looks at the normalised path and root: writing
    the file path or the project root in another case, or with the other
    slash, gives the same score. *)
Theorem calculateNamespaceScore_bounds_and_normal_form (filePath namespace projectRoot : string) :
  0 <= calculateNamespaceScore filePath namespace projectRoot
    <= 110 * Z.of_nat (length (namespacePartsOf namespace)) /\
  calculateNamespaceScore (normalize filePath) namespace projectRoot
    = calculateNamespaceScore filePath namespace projectRoot /\
  calculateNamespaceScore filePath namespace (normalize projectRoot)
    = calculateNamespaceScore filePath namespace projectRoot.
Proof.
  split; [|split].
  - unfold calculateNamespaceScore. cbv zeta.
    pose proof (countPositional_bounds
      (split "/" (relativePathOf filePath projectRoot)) (namespacePartsOf namespace)).
    pose proof (countContained_bounds
      (relativePathOf filePath projectRoot) (namespacePartsOf namespace)). lia.
  - unfold calculateNamespaceScore, relativePathOf. rewrite normalize_idem. reflexivity.
  - unfold calculateNamespaceScore, relativePathOf. rewrite normalize_idem. reflexivity.
Qed.

(** The head of the stable sort by decreasing score: the first of the
    elements with the greatest score. *)
Lemma sortBy_score_head {A} (score : A -> Z) (l : list A) x rest :
  sortBy (fun a b => score b - score a) l = x :: rest ->
  exists pre post, l = pre ++ x :: post /\
    (forall p, p ∈ pre -> score p < score x) /\
    (forall p, p ∈ post -> score p <= score x).
Proof.
  revert x rest. induction l as [|y l IH]; intros x rest H; [discriminate|].
  cbn [sortBy fold_right] in H. fold (sortBy (fun a b => score b - score a) l) in H.
  destruct (sortBy (fun a b => score b - score a) l) as [|x0 rest0] eqn:E.
  - simpl in H. injection H as <- <-.
    assert (l = []) as ->.
    { apply Permutation_nil. rewrite <- (sortBy_Permutation (fun a b => score b - score a) l).
      rewrite E. reflexivity. }
    exists [], []. split; [reflexivity|]. split; intros p Hp; inversion Hp.
  - destruct (IH x0 rest0 eq_refl) as (pre & post & -> & Hpre & Hpost).
    simpl in H. destruct (score x0 - score y <=? 0) eqn:Hc.
    + injection H as <- <-. apply Z.leb_le in Hc.
      exists [], (pre ++ x0 :: post). split; [reflexivity|].
      split; [intros p Hp; inversion Hp|]. intros p Hp.
      apply elem_of_app in Hp as [Hp|Hp].
      * specialize (Hpre p Hp). lia.
      * apply elem_of_cons in Hp as [->|Hp]; [lia|]. specialize (Hpost p Hp). lia.
    + injection H as <- <-. apply Z.leb_gt in Hc.
      exists (y :: pre), post. split; [reflexivity|]. split; [|exact Hpost].
      intros p [->|Hp]%elem_of_cons; [lia|auto].
Qed.

(** X6.  What the resolver selects.  When the search prints no path the
    result is absent.  Otherwise it is one of the printed paths, the first of
    those with the highest score: no printed path scores higher and none
    before it scores as high. *)
Theorem findSourceFile_selects_best
    (execAsync : string -> string -> outcome string) (namespace projectRoot stdout : string) :
  execAsync (searchCommand namespace) projectRoot = Returned stdout ->
  (candidatePaths stdout = [] ->
     findSourceFile execAsync namespace projectRoot = Returned None) /\
  (candidatePaths stdout <> [] ->
     exists pre best post,
       findSourceFile execAsync namespace projectRoot = Returned (Some best) /\
       candidatePaths stdout = pre ++ best :: post /\
       (forall p, p ∈ pre ->
          calculateNamespaceScore p namespace projectRoot
          < calculateNamespaceScore best namespace projectRoot) /\
       (forall p, p ∈ post ->
          calculateNamespaceScore p namespace projectRoot
          <= calculateNamespaceScore best namespace projectRoot)).
Proof.
  intros Hexec. unfold findSourceFile. rewrite Hexec. cbn [mbind outcome_bind].
  fold (candidatePaths stdout).
  destruct (candidatePaths stdout) as [|p [|q l]] eqn:Hc.
  - split; [reflexivity|congruence].
  - split; [discriminate|]. intros _. exists [], p, []. split; [reflexivity|].
    split; [reflexivity|]. split; intros x Hx; inversion Hx.
  - split; [discriminate|]. intros _.
    pose (tag := fun filePath : string =>
      (filePath, calculateNamespaceScore filePath namespace projectRoot)).
    change (map _ (p :: q :: l)) with (map tag (p :: q :: l)).
    destruct (sortBy (fun a b => snd b - snd a) (map tag (p :: q :: l))) as [|x rest] eqn:Hs.
    { exfalso. assert (Hp : Permutation (map tag (p :: q :: l)) []).
      { rewrite <- Hs. symmetry. apply sortBy_Permutation. }
      apply Permutation_sym, Permutation_nil in Hp. discriminate Hp. }
    apply (sortBy_score_head snd) in Hs as (pre' & post' & Heq & Hpre & Hpost).
    apply fmap_app_inv in Heq as (pre & tl & Hpre' & Htl & Hl).
    symmetry in Htl. apply fmap_cons_inv in Htl as (best & post & Hx & Hpost' & ->).
    subst x pre' post'. exists pre, best, post. split; [reflexivity|].
    split; [exact Hl|]. split.
    + intros y Hy. apply (Hpre (tag y)). apply (list_elem_of_fmap_2 tag). exact Hy.
    + intros y Hy. apply (Hpost (tag y)). apply (list_elem_of_fmap_2 tag). exact Hy.
Qed.

Lemma findSourceFile_selects_best_witness :
  exists pre best post,
    findSourceFile (fun _ _ => Returned twoCandidates) "App.Orders.OrderService" "C:\proj"
    = Returned (Some best) /\
    candidatePaths twoCandidates = pre ++ best :: post /\
    (forall p, p ∈ pre ->
       calculateNamespaceScore p "App.Orders.OrderService" "C:\proj"
       < calculateNamespaceScore best "App.Orders.OrderService" "C:\proj") /\
    (forall p, p ∈ post ->
       calculateNamespaceScore p "App.Orders.OrderService" "C:\proj"
       <= calculateNamespaceScore best "App.Orders.OrderService" "C:\proj").
Proof.
  apply (proj2 (findSourceFile_selects_best (fun _ _ => Returned twoCandidates)
                  "App.Orders.OrderService" "C:\proj" twoCandidates eq_refl)).
  vm_compute. discriminate.
Defined.

Lemma findMethodStart_found pattern lines : forall i d,
  findMethodStart pattern i lines = Some d ->
  exists k line, d = (i + k)%nat /\ lines !! k = Some line /\ test pattern line = true /\
    forall j l, (j < k)%nat -> lines !! j = Some l -> test pattern l = false.
Proof.
  induction lines as [|x rest IH]; intros i d H; [discriminate|]. simpl in H.
  destruct (test pattern x) eqn:E.
  - injection H as <-. exists 0%nat, x. repeat split; [lia|exact E|]. intros j l Hj. lia.
  - apply IH in H as (k & line & -> & Hk & Ht & Hbefore). exists (S k), line.
    repeat split; [lia|exact Hk|exact Ht|]. intros [|j] l Hj Hl.
    + injection Hl as <-. exact E.
    + apply (Hbefore j l); [lia|exact Hl].
Qed.

Lemma scanBraces_bounds lines : forall i braceCount found methodEndLine,
  scanBraces lines i braceCount found methodEndLine = methodEndLine \/
  (i <= scanBraces lines i braceCount found methodEndLine < i + length lines)%nat.
Proof.
  induction lines as [|line rest IH]; intros i c f e; [left; reflexivity|].
  cbn [scanBraces]. destruct (_ && _); [right; simpl; lia|].
  destruct (IH (S i) (c + countChar "{" line - countChar "}" line)
              (if 0 <? c + countChar "{" line - countChar "}" line then true else f) e)
    as [->|H]; [left; reflexivity|right; simpl; lia].
Qed.

(** X7.  A range that the locator returns is well formed: the file exists,
    the range is counted from 1 and lies within the file with its start not
    after its end, the line at its start matches the pattern of the method
    and no line before it does. *)
Theorem findMethodLineRange_range_well_formed
    (fs : string -> fileState) (filePath methodName : string) (range : lineRange) :
  findMethodLineRange fs filePath methodName = Returned (Some range) ->
  exists content declaration,
    fs filePath = FileContent content /\
    (1 <= range_start range <= range_end range)%nat /\
    (range_end range <= length (split "010"%char content))%nat /\
    split "010"%char content !! (range_start range - 1)%nat = Some declaration /\
    test (methodPattern methodName) declaration = true /\
    (forall j l, (j < range_start range - 1)%nat -> split "010"%char content !! j = Some l ->
       test (methodPattern methodName) l = false).
Proof.
  unfold findMethodLineRange, existsSync, readFileSync.
  destruct (fs filePath) as [| |content] eqn:Hfs; cbn; try discriminate.
  destruct (findMethodStart _ 0 _) as [d|] eqn:Hd; [|discriminate].
  apply findMethodStart_found in Hd as (k & line & -> & Hk & Ht & Hbefore).
  cbn [Nat.add]. intros [= <-]. exists content, line. cbn [range_start range_end].
  pose proof (lookup_lt_Some _ _ _ Hk) as Hlen.
  pose proof (scanBraces_bounds (drop k (split "010" content)) k 0 false k) as Hb.
  rewrite length_drop in Hb.
  replace (k + 1 - 1)%nat with k by lia.
  split; [reflexivity|]. split; [lia|]. split; [lia|]. auto.
Qed.

Lemma findMethodLineRange_range_well_formed_witness :
  exists content declaration,
    classDisk "OrderService.cs" = FileContent content /\
    (1 <= range_start (mkRange 3 6) <= range_end (mkRange 3 6))%nat /\
    (range_end (mkRange 3 6) <= length (split "010"%char content))%nat /\
    split "010"%char content !! (range_start (mkRange 3 6) - 1)%nat = Some declaration /\
    test (methodPattern "Submit") declaration = true /\
    (forall j l, (j < range_start (mkRange 3 6) - 1)%nat ->
       split "010"%char content !! j = Some l ->
       test (methodPattern "Submit") l = false).
Proof.
  apply (findMethodLineRange_range_well_formed classDisk "OrderService.cs" "Submit"
           (mkRange 3 6)).
  vm_compute. reflexivity.
Defined.

Lemma closesAt_cons braceCount found line rest k :
  closesAt braceCount found (line :: rest) (S k) <->
  closesAt (braceCount + countChar "{" line - countChar "}" line)
    (if 0 <? braceCount + countChar "{" line - countChar "}" line then true else found)
    rest k.
Proof.
  unfold closesAt. rewrite runningCount_take_cons. unfold braceDelta.
  set (c' := braceCount + countChar "{" line - countChar "}" line).
  replace (braceCount + (countChar "{" line - countChar "}" line + runningCount (take (S k) rest)))
    with (c' + runningCount (take (S k) rest)) by (unfold c'; lia).
  assert (Hfirst :
    (found = true \/ exists j, (j <= S k)%nat /\
       0 < braceCount + runningCount (take (S j) (line :: rest))) <->
    ((if 0 <? c' then true else found) = true \/ exists j, (j <= k)%nat /\
       0 < c' + runningCount (take (S j) rest))).
  { split.
    - intros [->|(j & Hj & Hpos)]; [left; destruct (0 <? c'); reflexivity|].
      rewrite runningCount_take_cons in Hpos. unfold braceDelta in Hpos. destruct j as [|j].
      + rewrite take_0 in Hpos. cbn in Hpos. left.
        replace (0 <? c') with true; [reflexivity|]. symmetry. apply Z.ltb_lt. unfold c'. lia.
      + right. exists j. split; [lia|]. unfold c'. lia.
    - intros [Hf|(j & Hj & Hpos)].
      + destruct (0 <? c') eqn:E; [|left; exact Hf]. apply Z.ltb_lt in E.
        right. exists 0%nat. split; [lia|]. rewrite runningCount_take_cons, take_0.
        unfold braceDelta. cbn. unfold c' in E. lia.
      + right. exists (S j). split; [lia|]. rewrite runningCount_take_cons.
        unfold braceDelta. unfold c' in Hpos. lia. }
  rewrite Hfirst. reflexivity.
Qed.

Lemma closesAt_head braceCount found line rest :
  closesAt braceCount found (line :: rest) 0 <->
  (if 0 <? braceCount + countChar "{" line - countChar "}" line then true else found)
  && (braceCount + countChar "{" line - countChar "}" line =? 0) = true.
Proof.
  unfold closesAt. rewrite runningCount_take_cons, take_0. unfold braceDelta. cbn [runningCount fold_right].
  set (c' := braceCount + countChar "{" line - countChar "}" line).
  rewrite andb_true_iff, Z.eqb_eq. split.
  - intros [[->|(j & Hj & Hpos)] Hz].
    + split; [destruct (0 <? c'); reflexivity|unfold c'; lia].
    + assert (j = 0%nat) as -> by lia. rewrite runningCount_take_cons, take_0 in Hpos.
      unfold braceDelta in Hpos. cbn in Hpos. unfold c' in *. lia.
  - intros [Hf Hz]. split; [|unfold c' in Hz; lia].
    destruct (0 <? c') eqn:E; [apply Z.ltb_lt in E; lia|left; exact Hf].
Qed.

Lemma scanBraces_closes lines : forall k i braceCount found methodEndLine,
  closesAt braceCount found lines k ->
  (forall j, (j < k)%nat -> ~ closesAt braceCount found lines j) ->
  (k < length lines)%nat ->
  scanBraces lines i braceCount found methodEndLine = (i + k)%nat.
Proof.
  induction lines as [|line rest IH]; intros k i c f e Hk Hmin Hlen; [simpl in Hlen; lia|].
  cbn [scanBraces]. destruct k as [|k].
  - apply closesAt_head in Hk. rewrite Hk. lia.
  - destruct (_ && _) eqn:E.
    + exfalso. apply (Hmin 0%nat); [lia|]. apply closesAt_head. exact E.
    + rewrite (IH k); [lia| | |simpl in Hlen; lia].
      * apply closesAt_cons. exact Hk.
      * intros j Hj Hc. apply (Hmin (S j)); [lia|]. apply closesAt_cons. exact Hc.
Qed.

Lemma scanBraces_never_closes lines : forall i braceCount found methodEndLine,
  (forall k, (k < length lines)%nat -> ~ closesAt braceCount found lines k) ->
  scanBraces lines i braceCount found methodEndLine = methodEndLine.
Proof.
  induction lines as [|line rest IH]; intros i c f e Hno; [reflexivity|].
  cbn [scanBraces]. destruct (_ && _) eqn:E.
  - exfalso. apply (Hno 0%nat); [simpl; lia|]. apply closesAt_head. exact E.
  - apply IH. intros k Hk Hc. apply (Hno (S k)); [simpl; lia|]. apply closesAt_cons. exact Hc.
Qed.

(** X8.  Where the body ends.  Let the pattern first match on line [d]
    (counted from 0).  If [k] lines further is the first line after which the
    brace counter, having been positive, is back at zero, the range ends on
    that line, [d + k + 1]: nested blocks do not end the body early.  If there
    is no such line to the end of the file, the range is the declaration line
    alone. *)
Theorem findMethodLineRange_ends_at_balance
    (fs : string -> fileState) (filePath methodName content declaration : string) (d : nat) :
  fs filePath = FileContent content ->
  split "010"%char content !! d = Some declaration ->
  test (methodPattern methodName) declaration = true ->
  (forall j l, (j < d)%nat -> split "010"%char content !! j = Some l ->
     test (methodPattern methodName) l = false) ->
  (forall k, (d + k < length (split "010"%char content))%nat ->
     closesAt 0 false (drop d (split "010"%char content)) k ->
     (forall j, (j < k)%nat -> ~ closesAt 0 false (drop d (split "010"%char content)) j) ->
     findMethodLineRange fs filePath methodName
     = Returned (Some (mkRange (d + 1) (d + k + 1)))) /\
  ((forall k, ~ closesAt 0 false (drop d (split "010"%char content)) k) ->
     findMethodLineRange fs filePath methodName
     = Returned (Some (mkRange (d + 1) (d + 1)))).
Proof.
  intros Hfs Hd Ht Hfirst.
  assert (Hrun : findMethodLineRange fs filePath methodName
    = Returned (Some (mkRange (d + 1)
        (Nat.min (scanBraces (drop d (split "010" content)) d 0 false d + 1)
                 (length (split "010" content)))))).
  { unfold findMethodLineRange, existsSync, readFileSync. rewrite Hfs.
    cbn [negb mbind outcome_bind].
    rewrite (findMethodStart_first _ _ 0 d declaration Hd Ht Hfirst). reflexivity. }
  rewrite Hrun. apply lookup_lt_Some in Hd. split.
  - intros k Hk Hc Hmin. rewrite (scanBraces_closes _ k); [|exact Hc|exact Hmin|].
    + do 3 f_equal. lia.
    + rewrite length_drop. lia.
  - intros Hno. rewrite scanBraces_never_closes by (intros k _; apply Hno).
    do 3 f_equal. lia.
Qed.

Lemma classFile_closes :
  closesAt 0 false (drop 2 (split "010"%char classFile)) 3 /\
  forall j, (j < 3)%nat -> ~ closesAt 0 false (drop 2 (split "010"%char classFile)) j.
Proof.
  split.
  - split; [right; exists 1%nat; split; [lia|vm_compute; reflexivity]|vm_compute; reflexivity].
  - intros [|[|[|j]]] Hj [Hpos Hz]; [|vm_compute in Hz; discriminate Hz ..|lia].
    destruct Hpos as [Hf|(i & Hi & Hpos)]; [discriminate Hf|].
    assert (i = 0%nat) as -> by lia. vm_compute in Hpos. discriminate Hpos.
Qed.

Lemma findMethodLineRange_ends_at_balance_witness :
  findMethodLineRange classDisk "OrderService.cs" "Submit" = Returned (Some (mkRange 3 6)).
Proof.
  refine (proj1 (findMethodLineRange_ends_at_balance classDisk "OrderService.cs" "Submit"
                   classFile "  public void Submit(Order o)" 2 _ _ _ _) 3%nat _ _ _).
  - reflexivity.
  - reflexivity.
  - vm_compute. reflexivity.
  - intros [|[|j]] l Hj Hl; [| |lia]; vm_compute in Hl; injection Hl as <-; vm_compute; reflexivity.
  - vm_compute. lia.
  - apply classFile_closes.
  - apply classFile_closes.
Defined.

End FinderFacts.

(* ===================================================================== *)
(** * More on pull-request references and the history analyzer            *)
(* ===================================================================== *)

Section ReferenceFacts.

Import RegexSemantics GitAdvanced.

Lemma rule_captures_number r message m n :
  capsOf r = [(1%nat, Plus (Cls isDigit))] ->
  search r message = Some m -> group 1 m = Some n -> wordOf isDigit n.
Proof.
  intros Hr Hm Hn. destruct (search_captures _ _ _ _ _ Hm Hn) as (r1 & Hin & Hl).
  rewrite Hr in Hin. destruct Hin as [[= <-]|[]]. apply lang_Plus_Cls. exact Hl.
Qed.

Lemma extractPRNumber_number message n :
  prNumber (extractPRNumber message) = Some n -> wordOf isDigit n.
Proof.
  unfold extractPRNumber.
  destruct (search reMergePullRequest message) eqn:E1;
    [apply (rule_captures_number reMergePullRequest message); [reflexivity|exact E1]|].
  destruct (search reParenHash message) eqn:E2;
    [apply (rule_captures_number reParenHash message); [reflexivity|exact E2]|].
  destruct (search reParenPR message) eqn:E3;
    [apply (rule_captures_number reParenPR message); [reflexivity|exact E3]|].
  destruct (search reHash message) eqn:E4;
    [apply (rule_captures_number reHash message); [reflexivity|exact E4]|].
  destruct (search rePR message) eqn:E5;
    [apply (rule_captures_number rePR message); [reflexivity|exact E5]|].
  discriminate.
Qed.

(** X9.  A number that [extractPRNumber] returns is a non-empty word of
    decimal digits, so it is never the empty string and the test
    [if (prNumber)] of its callers succeeds whenever a rule matched. *)
Theorem extractPRNumber_yields_digits (message n : string) :
  prNumber (extractPRNumber message) = Some n ->
  wordOf isDigit n /\ truthy n = true.
Proof.
  intros H. apply extractPRNumber_number in H. split; [exact H|].
  destruct H as [Hne _]. destruct n; [congruence|reflexivity].
Qed.

Lemma extractPRNumber_yields_digits_witness :
  wordOf isDigit "1532" /\ truthy "1532" = true.
Proof.
  apply (extractPRNumber_yields_digits "Fix rounding (PR 1532)" "1532"). reflexivity.
Defined.

(** X10.  Links are told apart by what they were built from: two links
    are equal only if the numbers are equal and both or neither are for
    azure; any source but azure, also an absent one, gives the github link. *)
Theorem getPRUrl_injective (n1 n2 : string) (s1 s2 : option prSourceT) :
  (getPRUrl n1 s1 = getPRUrl n2 s2 -> n1 = n2 /\ (s1 = Some azure <-> s2 = Some azure)) /\
  getPRUrl n1 None = getPRUrl n1 (Some github).
Proof.
  split; [|reflexivity].
  destruct s1 as [[]|], s2 as [[]|]; unfold getPRUrl; intros H;
    try (apply String.app_inj in H; split; [exact H|split; intros; congruence]);
    try (exfalso; cbv [String.append] in H; discriminate H).
Qed.

End ReferenceFacts.

Section HistoryFacts.

Import RegexSemantics GitAdvanced GitBlameRefined BlameProps HistoryProps.

Variables (tza : Z) (startDate : calendarDate) (oneYearAgo : Z).

Local Abbreviation setSummary := (GitBlameRefined.setSummary tza startDate oneYearAgo).
Local Abbreviation step := (GitBlameRefined.step tza startDate oneYearAgo).
Local Abbreviation parseLines := (GitBlameRefined.parseLines tza startDate oneYearAgo).
Local Abbreviation parseBlame := (GitBlameRefined.parseBlame tza startDate oneYearAgo).

Lemma stepCommitLine_hash line st :
  stepCommitLine line st = st \/
  exists hash, isCommitLine line = true /\ mapHas hash (commitMap st) = false /\
    wordOf isLowerHex hash /\
    stepCommitLine line st
    = mkState (commitMap st ++ [(hash, newCommit hash)]) (Some hash).
Proof.
  unfold stepCommitLine, isCommitLine.
  destruct (matchHere reCommitLine line) as [m|] eqn:Hm; [|left; reflexivity].
  destruct (negb (includesChar tab line)); [|left; reflexivity].
  destruct (group 1 m) as [hash|] eqn:Hg; [|left; reflexivity].
  destruct (mapHas hash (commitMap st)) eqn:E; [left; reflexivity|].
  right. exists hash. cbn [negb]. rewrite mapSet_new by exact E.
  split; [reflexivity|]. split; [exact E|]. split; [|reflexivity].
  destruct (matchHere_captures _ _ _ _ _ Hm Hg) as (r1 & Hin & Hl).
  simpl in Hin. destruct Hin as [[= <-]|[]]. apply lang_Plus_Cls. exact Hl.
Qed.

Lemma keyedByHash_update cur f m :
  (forall c, commitHash (f c) = commitHash c) ->
  keyedByHash m -> keyedByHash (mapUpdate cur f m).
Proof.
  intros Hf [Hnd Hall]. split; [rewrite mapUpdate_keys; exact Hnd|].
  clear Hnd. induction Hall as [|[h c] m [Hh Hw] Hall IH]; simpl; [constructor|].
  destruct (String.eqb h cur); constructor; simpl in *; auto.
  split; [rewrite Hf; exact Hh|exact Hw].
Qed.

Lemma setSummary_hash message c : commitHash (setSummary message c) = commitHash c.
Proof.
  unfold GitBlameRefined.setSummary.
  destruct (match GitAdvanced.prNumber _ with Some _ => _ | None => _ end) as [[? ?] ?].
  reflexivity.
Qed.

Lemma parseLines_keyedByHash lines : forall st st',
  keyedByHash (commitMap st) -> parseLines lines st = Returned st' ->
  keyedByHash (commitMap st').
Proof.
  induction lines as [|line rest IH]; intros st st' H; simpl.
  - intros [= <-]. exact H.
  - destruct (step line st) as [st1|] eqn:E; [|discriminate]. simpl. apply IH.
    unfold GitBlameRefined.step in E. destruct (negb (truthy (trim line))).
    { injection E as <-. exact H. }
    assert (H1 : keyedByHash (commitMap (stepCommitLine line st))).
    { destruct (stepCommitLine_hash line st) as [->|(hash & _ & Hnew & Hw & ->)]; [exact H|].
      destruct H as [Hnd Hall]. split; simpl.
      - rewrite map_app. apply NoDup_app. split; [exact Hnd|]. split.
        + intros x Hx Hx'. apply list_elem_of_singleton in Hx'. subst x.
          exact (mapHas_false _ _ Hnew Hx).
        + apply NoDup_singleton.
      - apply Forall_app. split; [exact Hall|].
        constructor; [split; [reflexivity|exact Hw]|constructor]. }
    revert E H1. generalize (stepCommitLine line st). intros st0 E H1.
    unfold GitBlameRefined.stepMetadata in E.
    destruct (currentCommit st0) as [cur|]; [|injection E as <-; exact H1].
    destruct (startsWith "author " line).
    { injection E as <-. apply keyedByHash_update; [reflexivity|exact H1]. }
    destruct (startsWith "author-time " line).
    { destruct (toISODate _); [|discriminate]. injection E as <-.
      apply keyedByHash_update; [reflexivity|exact H1]. }
    destruct (startsWith "summary " line).
    { injection E as <-. apply keyedByHash_update; [apply setSummary_hash|exact H1]. }
    injection E as <-. exact H1.
Qed.

Lemma parseBlame_keyedByHash stdout m :
  parseBlame stdout = Returned m -> keyedByHash m.
Proof.
  unfold GitBlameRefined.parseBlame.
  destruct (parseLines _ _) as [st|] eqn:E; [|discriminate]. intros [= <-].
  apply parseLines_keyedByHash in E; [exact E|]. split; constructor.
Qed.

Lemma postProcess_sublist m : exists l, Permutation (postProcess m) l /\ l `sublist_of` mapValues m.
Proof.
  exists (List.filter withinOneYear (mapValues m)). split; [apply sortBy_Permutation|].
  induction (mapValues m) as [|c l IH]; simpl; [constructor|].
  destruct (withinOneYear c); [apply sublist_skip|apply sublist_cons]; exact IH.
Qed.

Variable execAsync : string -> string -> outcome string.
Variables (filePath : string) (lineStart lineEnd : option nat) (projectRoot : string).

Local Abbreviation analyze :=
  (analyzeBlameResults tza startDate oneYearAgo execAsync filePath lineStart lineEnd projectRoot).

(** X11.  No commit is returned twice: the hashes of the returned records
    are pairwise distinct, and each is a non-empty word of lower-case
    hexadecimal digits. *)
Theorem analyzeBlameResults_distinct_hashes (out : list GitBlameAnalysis) :
  analyze = Returned out ->
  NoDup (commitHash <$> out) /\ Forall (fun c => wordOf isLowerHex (commitHash c)) out.
Proof.
  intros H. apply analyze_returned in H as [->|(stdout & m & _ & Hp & ->)];
    [split; constructor|].
  apply parseBlame_keyedByHash in Hp as [Hnd Hall].
  assert (Hkeys : commitHash <$> mapValues m = map fst m).
  { unfold mapValues. clear Hnd. induction Hall as [|[h c] m' [Hh _] _ IH]; [reflexivity|].
    simpl in *. rewrite Hh. f_equal. exact IH. }
  destruct (postProcess_sublist m) as (l & Hperm & Hsub).
  split.
  - rewrite Hperm. apply (sublist_NoDup _ (commitHash <$> mapValues m));
      [rewrite Hkeys; exact Hnd|apply fmap_sublist; exact Hsub].
  - rewrite Hperm. apply Forall_forall. intros c Hc.
    assert (Hin : c ∈ mapValues m) by (eapply elem_of_sublist; eauto).
    unfold mapValues in Hin. apply list_elem_of_fmap in Hin as ([h c'] & -> & Hin).
    rewrite Forall_forall in Hall. destruct (Hall _ Hin) as [Hh Hw]. simpl in *.
    rewrite Hh. exact Hw.
Qed.

End HistoryFacts.

Section HistoryFacts2.

Import RegexSemantics GitAdvanced GitBlameRefined BlameProps HistoryProps.

Variables (tza : Z) (startDate : calendarDate) (oneYearAgo : Z).

Local Abbreviation setSummary := (GitBlameRefined.setSummary tza startDate oneYearAgo).
Local Abbreviation step := (GitBlameRefined.step tza startDate oneYearAgo).
Local Abbreviation parseLines := (GitBlameRefined.parseLines tza startDate oneYearAgo).
Local Abbreviation parseBlame := (GitBlameRefined.parseBlame tza startDate oneYearAgo).
Local Abbreviation flagsExact := (HistoryProps.flagsExact tza startDate oneYearAgo).

Lemma parseBlame_linked stdout m :
  parseBlame stdout = Returned m -> Forall linked (mapValues m).
Proof.
  apply parseBlame_records; unfold linked; try (intros; simpl; assumption).
  - intros hash. reflexivity.
  - intros message c Hc. unfold GitBlameRefined.setSummary.
    destruct (GitAdvanced.prNumber (extractPRNumber message)) as [n|] eqn:En; [|exact Hc].
    destruct (truthy n); [|exact Hc]. simpl.
    split; [apply (extractPRNumber_number message); exact En|reflexivity].
Qed.

Lemma setSummary_flagsExact message c : flagsExact (setSummary message c).
Proof.
  unfold HistoryProps.flagsExact, commitDateObj, GitBlameRefined.setSummary.
  destruct (match GitAdvanced.prNumber _ with Some _ => _ | None => _ end) as [[? ?] ?].
  split; reflexivity.
Qed.

Section Settling.

Variable Q : GitBlameAnalysis -> Prop.
Hypothesis Q_new : forall hash, Q (newCommit hash).
Hypothesis Q_author : forall a c, Q c -> Q (setAuthor a c).
Hypothesis Q_summary : forall message c, Q (setSummary message c).

Lemma settledBy_update pending pending' st cur f :
  settledBy Q pending st -> currentCommit st = Some cur ->
  (pending' = true \/ (forall c, Q (f c)) \/ (pending = false /\ forall c, Q c -> Q (f c))) ->
  settledBy Q pending' (mkState (mapUpdate cur f (commitMap st)) (Some cur)).
Proof.
  intros [Hnd H] Hcur Hor. split; simpl.
  - rewrite mapUpdate_keys. exact Hnd.
  - intros h c Hin.
    apply mapUpdate_elem in Hin as [[Hne Hin]|[Heq (c0 & Hin & Hc0)]]; [| |exact Hnd].
    + destruct (H h c Hin) as [[_ Hc]|Hc]; [congruence|auto].
    + subst h c. destruct Hor as [Hp|[Hall|[Hp Hkeep]]].
      * auto.
      * right. apply Hall.
      * subst pending. destruct (H cur c0 Hin) as [[Hf _]|Hc]; [discriminate Hf|auto].
Qed.

Lemma parseLines_settledBy lines : forall pending st st',
  settledBy Q pending st -> summaryFollowsTime pending lines = true ->
  parseLines lines st = Returned st' -> settledBy Q false st'.
Proof.
  induction lines as [|line rest IH]; intros pending st st' Hs Hcheck Hparse.
  - simpl in *. injection Hparse as <-. destruct pending; [discriminate|exact Hs].
  - cbn [GitBlameRefined.parseLines] in Hparse.
    destruct (step line st) as [st1|] eqn:Hstep; [|discriminate]. cbn in Hparse.
    unfold GitBlameRefined.step in Hstep. cbn [summaryFollowsTime] in Hcheck.
    destruct (negb (truthy (trim line))).
    { injection Hstep as <-. exact (IH _ _ _ Hs Hcheck Hparse). }
    assert (Hs1 : settledBy Q pending (stepCommitLine line st)).
    { destruct (stepCommitLine_cases line st) as [->|(hash & Hline & Hnew & ->)]; [exact Hs|].
      rewrite Hline in Hcheck. destruct pending; [discriminate|].
      destruct Hs as [Hnd H]. split; simpl.
      - rewrite map_app. apply NoDup_app. split; [exact Hnd|]. split.
        + intros x Hx Hx'. apply list_elem_of_singleton in Hx'. subst x.
          exact (mapHas_false _ _ Hnew Hx).
        + apply NoDup_singleton.
      - intros h c Hin. apply elem_of_app in Hin as [Hin|Hin].
        + destruct (H h c Hin) as [[Hf _]|Hc]; [discriminate Hf|auto].
        + apply list_elem_of_singleton in Hin. injection Hin as -> ->. right. apply Q_new. }
    destruct (isCommitLine line && pending); [discriminate|].
    revert Hstep Hs1. generalize (stepCommitLine line st). intros st0 Hstep Hs1.
    unfold GitBlameRefined.stepMetadata in Hstep.
    destruct (currentCommit st0) as [cur|] eqn:Hcur.
    + destruct (startsWith "author " line).
      { injection Hstep as <-. refine (IH _ _ _ _ Hcheck Hparse).
        apply (settledBy_update pending); [exact Hs1|exact Hcur|].
        destruct pending; [left; reflexivity|right; right; auto]. }
      destruct (startsWith "author-time " line).
      { destruct (toISODate _) as [d|]; [|discriminate]. injection Hstep as <-.
        refine (IH _ _ _ _ Hcheck Hparse).
        apply (settledBy_update pending); [exact Hs1|exact Hcur|]. left. reflexivity. }
      destruct (startsWith "summary " line).
      { injection Hstep as <-. refine (IH _ _ _ _ Hcheck Hparse).
        apply (settledBy_update pending); [exact Hs1|exact Hcur|]. right. left. exact (Q_summary _). }
      injection Hstep as <-. exact (IH _ _ _ Hs1 Hcheck Hparse).
    + injection Hstep as <-.
      assert (Hall : forall p, settledBy Q p st0).
      { intros p. destruct Hs1 as [Hnd H]. split; [exact Hnd|]. intros h c Hin.
        destruct (H h c Hin) as [[_ Hc]|Hc]; [congruence|auto]. }
      destruct (startsWith "author " line); [exact (IH _ _ _ (Hall _) Hcheck Hparse)|].
      destruct (startsWith "author-time " line); [exact (IH _ _ _ (Hall _) Hcheck Hparse)|].
      destruct (startsWith "summary " line); exact (IH _ _ _ (Hall _) Hcheck Hparse).
Qed.

End Settling.

Lemma parseBlame_flagsExact stdout m :
  summaryFollowsTime false (split "010"%char stdout) = true ->
  parseBlame stdout = Returned m -> Forall flagsExact (mapValues m).
Proof.
  intros Hshape. unfold GitBlameRefined.parseBlame.
  destruct (parseLines _ _) as [st|] eqn:E; [|discriminate]. intros [= <-].
  apply (parseLines_settledBy flagsExact) with (pending := false) in E.
  - destruct E as [_ H]. unfold mapValues. apply Forall_forall. intros c Hc.
    apply list_elem_of_fmap in Hc as ([h c'] & -> & Hin).
    destruct (H h c' Hin) as [[Hf _]|Hq]; [discriminate Hf|exact Hq].
  - intros hash. split; reflexivity.
  - intros a c Hc. exact Hc.
  - apply setSummary_flagsExact.
  - split; [constructor|]. intros h c Hin. inversion Hin.
  - exact Hshape.
Qed.

Variable execAsync : string -> string -> outcome string.
Variables (filePath : string) (lineStart lineEnd : option nat) (projectRoot : string).

Local Abbreviation analyze :=
  (analyzeBlameResults tza startDate oneYearAgo execAsync filePath lineStart lineEnd projectRoot).

(** X12.  The link of every returned record is the one [getPRUrl] builds
    from the record's own number and source, the number is a non-empty word
    of digits, and a record without a number has no link. *)
Theorem analyzeBlameResults_links (out : list GitBlameAnalysis) (c : GitBlameAnalysis) :
  analyze = Returned out -> c ∈ out ->
  match prNumber c with
  | Some n => wordOf isDigit n /\ prUrl c = Some (getPRUrl n (prSource c))
  | None => prUrl c = None
  end.
Proof.
  intros H Hc. apply analyze_returned in H as [->|(stdout & m & _ & Hp & ->)]; [inversion Hc|].
  apply parseBlame_linked in Hp. rewrite Forall_forall in Hp.
  apply (Hp c). apply postProcess_values. exact Hc.
Qed.

(** X13.  The retention window.  When the blame output has its summary
    lines after the author-time lines, both flags of every parsed record are
    the comparisons of the date the record ends up with, taken at midnight of
    its day in the local zone; so every returned record has a date, and that
    midnight is not before [oneYearAgo]. *)
Theorem analyzeBlameResults_retention (stdout : string) (parsed : commitMapT)
    (out : list GitBlameAnalysis) :
  execAsync (blameCommand filePath lineStart lineEnd) projectRoot = Returned stdout ->
  summaryFollowsTime false (split "010"%char stdout) = true ->
  parseBlame stdout = Returned parsed ->
  analyze = Returned out ->
  (forall c, c ∈ mapValues parsed ->
     withinOneYear c = dateGe (commitDateObj tza c) (Some oneYearAgo) /\
     inDateRange c = dateGe (commitDateObj tza c) (startDateObj tza startDate)) /\
  (forall c, c ∈ out ->
     exists dc, commitDate c = Some dc /\
       oneYearAgo <= (dc + tza / msPerDay) * msPerDay - tza).
Proof.
  intros Hexec Hshape Hparse Hout.
  pose proof (parseBlame_flagsExact _ _ Hshape Hparse) as Hflags.
  rewrite Forall_forall in Hflags. split.
  - intros c Hc. destruct (Hflags c Hc) as [Hi Hw]. auto.
  - rewrite (analyze_parsed _ _ _ _ _ _ _ _ _ _ Hexec Hparse) in Hout. injection Hout as <-.
    intros c Hc. pose proof (postProcess_values _ _ Hc) as Hin.
    apply postProcess_elem in Hc as [Hw _].
    destruct (Hflags c Hin) as [_ Hw']. rewrite Hw in Hw'. unfold commitDateObj in Hw'.
    destruct (setHours0 tza (dateOfCalendar (commitDate c))) as [t|] eqn:E; [|discriminate].
    apply commitDateObj_value in E as (dc & Hdc & ->). exists dc. split; [exact Hdc|].
    simpl in Hw'. symmetry in Hw'. apply Z.leb_le in Hw'. exact Hw'.
Qed.

Lemma parseLines_app l1 : forall l2 st,
  parseLines (l1 ++ l2) st = (st1 ← parseLines l1 st; parseLines l2 st1).
Proof.
  induction l1 as [|line l1 IH]; intros l2 st; [reflexivity|]. simpl.
  destruct (step line st) as [st1|]; [|reflexivity]. simpl. apply IH.
Qed.

Lemma reCommitLine_author_time s : matchHere reCommitLine ("author-time " +:+ s) = None.
Proof. reflexivity. Qed.

(** X14.  One unreadable timestamp loses the whole history.  If, after
    lines that parse and leave a current commit, an [author-time] line holds
    no number, or one beyond the range of dates, the analysis returns the
    empty sequence whatever the other lines say. *)
Theorem analyzeBlameResults_bad_timestamp
    (stdout value : string) (before after : list string) (st : parseState) (cur : string) :
  execAsync (blameCommand filePath lineStart lineEnd) projectRoot = Returned stdout ->
  split "010"%char stdout = before ++ ("author-time " +:+ value) :: after ->
  parseLines before (mkState [] None) = Returned st ->
  currentCommit st = Some cur ->
  (parseInt value = None \/ exists n, parseInt value = Some n /\ maxTime < Z.abs (n * 1000)) ->
  analyze = Returned [].
Proof.
  intros Hexec Hsplit Hbefore Hcur Hbad. unfold analyzeBlameResults. rewrite Hexec.
  cbn [mbind outcome_bind]. unfold GitBlameRefined.parseBlame.
  rewrite Hsplit, parseLines_app, Hbefore. cbn [mbind outcome_bind GitBlameRefined.parseLines].
  replace (step ("author-time " +:+ value) st) with (@Thrown parseState); [reflexivity|].
  unfold GitBlameRefined.step. change (truthy (trim ("author-time " +:+ value))) with
    (truthy (trimEnd (String "a" ("uthor-time " +:+ value)))).
  assert (Htr : truthy (trimEnd (String "a" ("uthor-time " +:+ value))) = true).
  { cbn [trimEnd]. destruct (trimEnd _); reflexivity. }
  rewrite Htr. cbn [negb]. unfold stepCommitLine. rewrite reCommitLine_author_time.
  unfold GitBlameRefined.stepMetadata. rewrite Hcur.
  change (startsWith "author " ("author-time " +:+ value)) with false.
  replace (startsWith "author-time " ("author-time " +:+ value)) with true
    by (cbn; destruct value; reflexivity).
  replace (replaceFirst "author-time " EmptyString ("author-time " +:+ value)) with value
    by (cbn; destruct value; reflexivity).
  destruct Hbad as [->|(n & -> & Hn)]; [reflexivity|]. cbn [option_map dateOfNumber].
  unfold timeClip. replace (Z.abs (n * 1000) <=? maxTime) with false; [reflexivity|].
  symmetry. apply Z.leb_gt. exact Hn.
Qed.

End HistoryFacts2.

Section HistoryWitnesses.

Import RegexSemantics GitAdvanced GitBlameRefined BlameProps HistoryProps.

Lemma analyzeBlameResults_distinct_hashes_witness :
  NoDup (commitHash <$> [fixRounding; initialImport]) /\
  Forall (fun c => wordOf isLowerHex (commitHash c)) [fixRounding; initialImport].
Proof.
  apply (analyzeBlameResults_distinct_hashes (-18000000) (Some 19675) 1690000000000
           (shellPrinting blameOutput) "Orders.cs" (Some 12%nat) (Some 15%nat) "C:\proj").
  vm_compute. reflexivity.
Defined.

Lemma analyzeBlameResults_links_witness :
  wordOf isDigit "1532" /\ prUrl fixRounding = Some (getPRUrl "1532" (prSource fixRounding)).
Proof.
  apply (analyzeBlameResults_links (-18000000) (Some 19675) 1690000000000
           (shellPrinting blameOutput) "Orders.cs" (Some 12%nat) (Some 15%nat) "C:\proj"
           [fixRounding; initialImport] fixRounding).
  - vm_compute. reflexivity.
  - apply list_elem_of_here.
Defined.

Lemma analyzeBlameResults_retention_witness :
  (forall c, c ∈ [fixRounding; initialImport] ->
     withinOneYear c = dateGe (commitDateObj (-18000000) c) (Some 1690000000000) /\
     inDateRange c = dateGe (commitDateObj (-18000000) c)
                       (startDateObj (-18000000) (Some 19675))) /\
  (forall c, c ∈ [fixRounding; initialImport] ->
     exists dc, commitDate c = Some dc /\
       1690000000000 <= (dc + -18000000 / msPerDay) * msPerDay - -18000000).
Proof.
  apply (analyzeBlameResults_retention (-18000000) (Some 19675) 1690000000000
           (shellPrinting blameOutput) "Orders.cs" (Some 12%nat) (Some 15%nat) "C:\proj"
           blameOutput [("1f3a9c", fixRounding); ("7be2d0", initialImport)]
           [fixRounding; initialImport]).
  - reflexivity.
  - vm_compute. reflexivity.
  - vm_compute. reflexivity.
  - vm_compute. reflexivity.
Defined.

Lemma analyzeBlameResults_bad_timestamp_witness :
  analyzeBlameResults (-18000000) (Some 19675) 1690000000000
    (shellPrinting (joinLines ["1f3a9c 12 12 1"; "author Alice"; "author-time soon";
                               "summary Fix rounding (PR 1532)"]))
    "Orders.cs" (Some 12%nat) (Some 12%nat) "C:\proj" = Returned [].
Proof.
  apply (analyzeBlameResults_bad_timestamp (-18000000) (Some 19675) 1690000000000
           (shellPrinting (joinLines ["1f3a9c 12 12 1"; "author Alice"; "author-time soon";
                                      "summary Fix rounding (PR 1532)"]))
           "Orders.cs" (Some 12%nat) (Some 12%nat) "C:\proj"
           (joinLines ["1f3a9c 12 12 1"; "author Alice"; "author-time soon";
                       "summary Fix rounding (PR 1532)"])
           "soon" ["1f3a9c 12 12 1"; "author Alice"] ["summary Fix rounding (PR 1532)"]
           (mkState [("1f3a9c", setAuthor "Alice" (newCommit "1f3a9c"))] (Some "1f3a9c"))
           "1f3a9c").
  - reflexivity.
  - vm_compute. reflexivity.
  - vm_compute. reflexivity.
  - reflexivity.
  - left. vm_compute. reflexivity.
Defined.

End HistoryWitnesses.

Section RouteFacts.

Import JsMore Orchestrator RouteProps GitBlameRefined.

Lemma testWhole_reDateFormat s : testWhole reDateFormat s = dateShaped s.
Proof.
  unfold testWhole, reDateFormat, dateShaped.
  do 10 (destruct s as [|? s];
         [cbn -[isDigit eqChar];
          repeat (match goal with
                  | |- context [isDigit ?c] => destruct (isDigit c)
                  | |- context [eqChar ?x ?c] => destruct (eqChar x c)
                  end; cbn -[isDigit eqChar]); reflexivity|]).
  destruct s; cbn -[isDigit eqChar];
    repeat (match goal with
            | |- context [isDigit ?c] => destruct (isDigit c)
            | |- context [eqChar ?x ?c] => destruct (eqChar x c)
            end; cbn -[isDigit eqChar]); reflexivity.
Qed.

Lemma truthy_nonempty s : truthy s = true <-> s <> EmptyString.
Proof. destruct s; simpl; split; intros H; congruence. Qed.

Lemma tryCatch_returns {A} (body : outcome A) (a : A) :
  exists r, tryCatch body (Returned a) = Returned r.
Proof. destruct body; simpl; eauto. Qed.

Lemma findMethodLineRange_ordered fs filePath methodName range :
  FileFinder.findMethodLineRange fs filePath methodName = Returned (Some range) ->
  (1 <= FileFinder.range_start range <= FileFinder.range_end range)%nat.
Proof.
  unfold FileFinder.findMethodLineRange, FileFinder.existsSync, FileFinder.readFileSync.
  destruct (fs filePath) as [| |content] eqn:Hfs; cbn; try discriminate.
  destruct (FileFinder.findMethodStart _ 0 _) as [d|] eqn:Hd; [|discriminate].
  apply findMethodStart_found in Hd as (k & line & -> & Hk & _).
  cbn [Nat.add]. intros [= <-]. cbn [FileFinder.range_start FileFinder.range_end].
  pose proof (lookup_lt_Some _ _ _ Hk) as Hlen.
  pose proof (scanBraces_bounds (drop k (split "010" content)) k 0 false k) as Hb.
  rewrite length_drop in Hb. lia.
Qed.

Lemma analyze_without_start tza oneYearAgo execAsync filePath lineStart lineEnd projectRoot out :
  analyzeBlameResults tza None oneYearAgo execAsync filePath lineStart lineEnd projectRoot
  = Returned out ->
  Forall (fun c => inDateRange c = false) out.
Proof.
  intros H. apply analyze_returned in H as [->|(stdout & m & _ & Hp & ->)]; [constructor|].
  apply (parseBlame_records tza None oneYearAgo (fun c => inDateRange c = false)) in Hp.
  - rewrite Forall_forall in Hp |- *. intros c Hc. apply Hp, postProcess_values. exact Hc.
  - reflexivity.
  - intros a c Hc. exact Hc.
  - intros t c Hc _. exact Hc.
  - intros message c _. unfold GitBlameRefined.setSummary.
    destruct (match GitAdvanced.prNumber _ with Some _ => _ | None => _ end) as [[? ?] ?].
    cbn [inDateRange]. destruct (setHours0 tza (dateOfCalendar (commitDate c))); reflexivity.
Qed.

Lemma analyze_within tza start oneYearAgo execAsync filePath lineStart lineEnd projectRoot out :
  analyzeBlameResults tza start oneYearAgo execAsync filePath lineStart lineEnd projectRoot
  = Returned out ->
  Forall (fun c => withinOneYear c = true) out.
Proof.
  intros H. apply analyze_returned in H as [->|(stdout & m & _ & _ & ->)]; [constructor|].
  apply Forall_forall. intros c Hc. apply postProcess_elem in Hc as [Hw _]. exact Hw.
Qed.

Lemma StronglySorted_le_app (l1 l2 : list nat) :
  StronglySorted le l1 -> StronglySorted le l2 ->
  (forall x y, x ∈ l1 -> y ∈ l2 -> (x <= y)%nat) ->
  StronglySorted le (l1 ++ l2).
Proof.
  induction l1 as [|a l1 IH]; intros H1 H2 H; [exact H2|].
  apply StronglySorted_inv in H1 as [H1 Ha]. cbn [app]. apply SSorted_cons.
  - apply IH; [exact H1|exact H2|]. intros x y Hx Hy. apply H; [right; exact Hx|exact Hy].
  - apply List.Forall_app. split; [exact Ha|].
    apply List.Forall_forall. intros y Hy. apply H; [left|apply list_elem_of_In; exact Hy].
Qed.

Lemma paired_app l1 l2 : paired l1 -> paired l2 -> paired (l1 ++ l2).
Proof.
  revert l1. fix IH 1. intros [|a [|b l1]]; simpl.
  - auto.
  - intros [].
  - intros [Hc H1] H2. split; [exact Hc|]. apply IH; assumption.
Qed.

Variable execAsync : string -> string -> outcome string.
Variable fs : string -> FileFinder.fileState.
Variable tza : Z.
Variable parseDate : string -> calendarDate.
Variable roundPercent : nat -> nat -> Z.
Variable timestampAt : nat -> string.
Variable oneYearAgoAt : nat -> Z.
Variable endDate : string.
Variable caughtMessage : string.

Local Abbreviation logProgress := (Orchestrator.logProgress roundPercent timestampAt).
Local Abbreviation processEntry :=
  (Orchestrator.processEntry execAsync fs tza parseDate roundPercent timestampAt oneYearAgoAt
     caughtMessage).
Local Abbreviation processEntries :=
  (Orchestrator.processEntries execAsync fs tza parseDate roundPercent timestampAt oneYearAgoAt
     caughtMessage).
Local Abbreviation POST :=
  (Orchestrator.POST execAsync fs tza parseDate roundPercent timestampAt oneYearAgoAt endDate
     caughtMessage).
Local Abbreviation settled startDate :=
  (settledResult execAsync fs tza (parseDate startDate) oneYearAgoAt).

Lemma findSourceFile_returns ns root :
  exists r, FileFinder.findSourceFile execAsync ns root = Returned r.
Proof. unfold FileFinder.findSourceFile. apply tryCatch_returns. Qed.

Lemma findMethodLineRange_returns path mn :
  exists r, FileFinder.findMethodLineRange fs path mn = Returned r.
Proof. unfold FileFinder.findMethodLineRange. apply tryCatch_returns. Qed.

Lemma analyzeBlameResults_returns start oneYearAgo path s e root :
  exists r, analyzeBlameResults tza start oneYearAgo execAsync path s e root = Returned r.
Proof. unfold analyzeBlameResults. apply tryCatch_returns. Qed.

Ltac turn_steps :=
  unfold turnSteps; cbn [app fileFound methodFound Nat.b2n];
  split; [cbn [paired]; unfold closes; cbn [status stepNumber title];
          repeat split; first [reflexivity | discriminate]|];
  split; [reflexivity|];
  split; [repeat (apply List.Forall_cons; [split; [reflexivity|cbn [stepNumber]; lia]|]);
          apply List.Forall_nil
         |cbn [fmap list_fmap stepNumber];
          repeat (apply SSorted_cons;
                  [|repeat (apply List.Forall_cons; [lia|]); apply List.Forall_nil]);
          apply SSorted_nil].

Lemma processEntry_spec startDate total i entry log :
  exists r steps,
    processEntry startDate total i entry log = (r, log ++ steps) /\
    resultPair r = entryPair entry /\
    settled startDate i r /\
    turnSteps total i r steps.
Proof.
  unfold Orchestrator.processEntry, Orchestrator.analyzeEntry, Orchestrator.logProgress.
  destruct entry as [ns mn line idx].
  cbn [StackTraceParser.namespace StackTraceParser.methodName].
  unfold settledResult, stoppedAtFile, stoppedAtMethod, analysed, resultPair, entryPair.
  destruct (findSourceFile_returns ns PROJECT_ROOT) as [found Hfound]. rewrite Hfound.
  assert (Hfile : (exists p, found = Some p /\ truthy p = true) \/
                  found = None \/ found = Some EmptyString).
  { destruct found as [[|c p]|]; eauto. }
  destruct Hfile as [(p & -> & Hp)|Hnone].
  - rewrite Hp. pose proof (proj1 (truthy_nonempty p) Hp) as Hne.
    destruct (findMethodLineRange_returns p mn) as [[range|] Hrange]; rewrite Hrange.
    + destruct (analyzeBlameResults_returns (parseDate startDate) (oneYearAgoAt i) p
                  (Some (FileFinder.range_start range)) (Some (FileFinder.range_end range))
                  PROJECT_ROOT) as [blame Hblame].
      rewrite Hblame. rewrite <- !app_assoc. eexists _, _. split; [reflexivity|].
      split; [reflexivity|]. split; [|turn_steps].
      right. right. cbn. repeat split; auto. exists range. repeat split; auto.
      * apply (findMethodLineRange_ordered _ _ _ _ Hrange).
      * apply (findMethodLineRange_ordered _ _ _ _ Hrange).
    + rewrite <- !app_assoc. eexists _, _. split; [reflexivity|].
      split; [reflexivity|]. split; [|turn_steps].
      right. left. cbn. repeat split; auto.
  - assert (Hnot : match found with Some p => if truthy p then Some p else None | None => None end
                   = None) by (destruct Hnone as [->| ->]; reflexivity).
    rewrite Hnot. rewrite <- !app_assoc. eexists _, _. split; [reflexivity|].
    split; [reflexivity|]. split; [|turn_steps].
    left. cbn. repeat split; auto. destruct Hnone as [->| ->]; auto.
Qed.

Lemma processEntries_spec startDate total entries : forall i results log,
  exists rs steps,
    processEntries startDate total i entries results log = (results ++ rs, log ++ steps) /\
    resultPair <$> rs = entryPair <$> entries /\
    (forall k r, rs !! k = Some r -> settled startDate (i + k) r) /\
    loopSteps total i (length entries) rs steps.
Proof.
  induction entries as [|entry rest IH]; intros i results log.
  - exists [], []. rewrite !app_nil_r. split; [reflexivity|]. split; [reflexivity|].
    split; [intros k r Hk; inversion Hk|].
    repeat split; simpl; constructor.
  - cbn [Orchestrator.processEntries].
    destruct (processEntry_spec startDate total i entry log)
      as (r & steps & -> & Hpair & Hsettled & Hp & Hlen & Hall & Hsorted).
    destruct (IH (S i) (results ++ [r]) (log ++ steps))
      as (rs & steps' & -> & Hpairs & Hsettleds & Hp' & Hlen' & Hall' & Hsorted').
    exists (r :: rs), (steps ++ steps'). rewrite <- !app_assoc. split; [reflexivity|].
    split; [cbn [fmap list_fmap]; f_equal; assumption|].
    split.
    { intros [|k] r' Hk.
      - injection Hk as <-. rewrite Nat.add_0_r. exact Hsettled.
      - replace (i + S k)%nat with (S i + k)%nat by lia. apply Hsettleds. exact Hk. }
    split; [apply paired_app; assumption|].
    split.
    { rewrite List.length_app, Hlen, Hlen'. cbn [List.filter length].
      destruct (fileFound r), (methodFound r); cbn [length Nat.b2n]; lia. }
    split.
    { apply Forall_app. split.
      - eapply Forall_impl; [exact Hall|]. cbn [length]. intros s [? ?]. split; [assumption|lia].
      - eapply Forall_impl; [exact Hall'|]. cbn [length]. intros s [? ?]. split; [assumption|lia]. }
    rewrite fmap_app. apply StronglySorted_le_app; [exact Hsorted|exact Hsorted'|].
    intros x y Hx Hy.
    apply list_elem_of_fmap in Hx as (sx & -> & Hx), Hy as (sy & -> & Hy).
    rewrite Forall_forall in Hall, Hall'.
    destruct (Hall sx Hx) as [_ ?], (Hall' sy Hy) as [_ ?]. lia.
Qed.

Lemma dedupFrom_nil seen entries :
  StackTraceParser.dedupFrom seen entries = [] -> Forall (fun e => StackTraceParser.entryKey e ∈ seen) entries.
Proof.
  revert seen. induction entries as [|x rest IH]; intros seen; simpl; [constructor|].
  case_decide as Hx; [|discriminate]. intros H. constructor; [exact Hx|apply IH, H].
Qed.

Lemma deduplicateEntries_nil entries :
  StackTraceParser.deduplicateEntries entries = [] <-> entries = [].
Proof.
  split; [|intros ->; reflexivity]. intros H. apply dedupFrom_nil in H.
  destruct entries as [|x rest]; [reflexivity|]. inversion H as [|? ? Hx _]. set_solver.
Qed.

Lemma filter_length_le {A} (f g : A -> bool) (l : list A) :
  (forall x, x ∈ l -> f x = true -> g x = true) ->
  (length (List.filter f l) <= length (List.filter g l))%nat.
Proof.
  induction l as [|x l IH]; intros H; [reflexivity|]. cbn [List.filter].
  assert (IH' : (length (List.filter f l) <= length (List.filter g l))%nat).
  { apply IH. intros y Hy. apply H. right. exact Hy. }
  destruct (f x) eqn:Ef.
  - rewrite (H x (list_elem_of_here _ _) Ef). cbn [length]. lia.
  - destruct (g x); cbn [length]; lia.
Qed.

Lemma filter_none {A} (f : A -> bool) (l : list A) :
  (forall x, x ∈ l -> f x = false) -> List.filter f l = [].
Proof.
  induction l as [|x l IH]; intros H; [reflexivity|]. cbn [List.filter].
  rewrite (H x (list_elem_of_here _ _)). apply IH. intros y Hy. apply H. right. exact Hy.
Qed.

Lemma filter_length_bound {A} (f : A -> bool) (l : list A) :
  (length (List.filter f l) <= length l)%nat.
Proof. induction l as [|x l IH]; [reflexivity|]. cbn. destruct (f x); cbn; lia. Qed.

Lemma settled_flags startDate i r :
  settled startDate i r ->
  (methodFound r = true -> fileFound r = true) /\
  (gitBlameResults r <> [] -> methodFound r = true).
Proof.
  intros [H|[H|H]].
  - destruct H as (_ & _ & Hm & _ & _ & Hb & _). rewrite Hm, Hb. split; [discriminate|congruence].
  - destruct H as (_ & _ & Hf & _ & _ & _ & Hb & _). rewrite Hb. split; [auto|congruence].
  - destruct H as (_ & Hf & Hm & _). auto.
Qed.

Lemma POST_ok json before results summary progress :
  fst (POST json before) = Json200 results summary progress ->
  exists trace date,
    json = Returned (mkBody (Some trace) (Some date)) /\
    trace <> EmptyString /\ dateShaped date = true /\
    let entries := StackTraceParser.deduplicateEntries (TraceParser.parseStackTrace trace) in
    entries <> [] /\
    resultPair <$> results = entryPair <$> entries /\
    (forall k r, results !! k = Some r -> settled date k r) /\
    summary = mkSummary (length results) (length (List.filter fileFound results))
                (length (List.filter methodFound results))
                (length (List.filter (fun r => existsb inDateRange (gitBlameResults r)) results))
                date endDate /\
    snd (POST json before) = progress /\
    exists s1 s2 steps,
      progress = s1 :: s2 :: steps /\ parseSteps (length entries) s1 s2 /\
      loopSteps (1 + length entries * 3) 0 (length entries) results steps.
Proof.
  unfold Orchestrator.POST. destruct json as [[[trace|] [date|]]|]; cbn [fst snd]; try discriminate.
  2:{ cbn [falsy body_stackTrace body_startDate]. rewrite orb_true_r. discriminate. }
  cbn [falsy body_stackTrace body_startDate default from_option id].
  destruct (truthy trace) eqn:Htrace; [|discriminate].
  destruct (truthy date) eqn:Hdate; [|discriminate]. cbn [negb orb].
  rewrite testWhole_reDateFormat. destruct (dateShaped date) eqn:Hshape; [|discriminate].
  cbn [negb].
  set (entries := StackTraceParser.deduplicateEntries (TraceParser.parseStackTrace trace)).
  destruct (length entries =? 0)%nat eqn:Hlen; [discriminate|].
  apply Nat.eqb_neq in Hlen.
  unfold Orchestrator.logProgress. cbn [app length].
  match goal with
  | |- context [processEntries date ?t 0%nat entries [] ?l] =>
      destruct (processEntries_spec date t entries 0%nat [] l)
        as (rs & steps & -> & Hpairs & Hsettled & Hloop)
  end.
  cbn [app fst snd]. intros [= <- <- <-].
  exists trace, date. split; [reflexivity|]. split; [apply truthy_nonempty, Htrace|].
  split; [exact Hshape|]. cbv zeta. fold entries.
  split; [intros He; rewrite He in Hlen; apply Hlen; reflexivity|].
  split; [exact Hpairs|]. split; [exact Hsettled|]. split; [reflexivity|].
  split; [reflexivity|]. eexists _, _, steps. split; [reflexivity|]. split; [|exact Hloop].
  unfold parseSteps, closes. cbn. repeat split; first [reflexivity|discriminate].
Qed.


(** X16.  One result for each distinct frame, in the order of the trace:
    the results of a 200 answer carry, position by position, the namespace
    and method of the deduplicated entries of the trace; no two results have
    the same key, there is at least one, and [totalEntries] counts them. *)
Theorem POST_results_follow_entries (json : outcome requestBody) (before : list ProgressStep)
    (results : list AnalysisResult) (summary : summaryT) (progress : list ProgressStep) :
  fst (POST json before) = Json200 results summary progress ->
  exists trace date,
    json = Returned (mkBody (Some trace) (Some date)) /\
    resultPair <$> results
    = entryPair <$> StackTraceParser.deduplicateEntries (TraceParser.parseStackTrace trace) /\
    NoDup (resultKey <$> results) /\
    results <> [] /\
    totalEntries summary = length results.
Proof.
  intros H. apply POST_ok in H as (trace & date & Hjson & _ & _ & Hne & Hpairs & _ & -> & _).
  exists trace, date. split; [exact Hjson|]. split; [exact Hpairs|].
  split; [|split; [|reflexivity]].
  - assert (Hkeys : resultKey <$> results
                    = StackTraceParser.entryKey <$>
                        StackTraceParser.deduplicateEntries (TraceParser.parseStackTrace trace)).
    { apply (f_equal (fmap (fun p : string * string => fst p +:+ "." +:+ snd p))) in Hpairs.
      rewrite <- !list_fmap_compose in Hpairs. exact Hpairs. }
    rewrite Hkeys. apply dedupFrom_NoDup.
  - intros ->. destruct (StackTraceParser.deduplicateEntries _); [apply Hne; reflexivity|].
    discriminate Hpairs.
Qed.

(** X17.  Each result tells how far the analysis of its entry went, and is
    consistent with the tools.  The result at position [k] either stopped at
    the search for the file, or at the search for the method in the file
    that the search selected, or holds the range that the locator returned,
    well formed, with what the history analysis returned for that file and
    range; in the last case only has it no [error], and every commit it
    lists is within the year.  The message of the handler of the loop never
    appears: none of the three tools throws. *)
Theorem POST_result_settled (json : outcome requestBody) (before : list ProgressStep)
    (results : list AnalysisResult) (summary : summaryT) (progress : list ProgressStep)
    (k : nat) (r : AnalysisResult) :
  fst (POST json before) = Json200 results summary progress ->
  results !! k = Some r ->
  settled (dateRange_startDate summary) k r /\
  (error r = None <-> methodFound r = true) /\
  (is_Some (lineRange r) <-> methodFound r = true) /\
  (filePath r <> EmptyString <-> fileFound r = true) /\
  Forall (fun c => withinOneYear c = true) (gitBlameResults r).
Proof.
  intros H Hk. apply POST_ok in H as (trace & date & _ & _ & _ & _ & _ & Hsettled & -> & _).
  cbn [dateRange_startDate]. pose proof (Hsettled k r Hk) as Hr. split; [exact Hr|].
  destruct Hr as [Hr|[Hr|Hr]].
  - destruct Hr as (_ & Hf & Hm & Hp & Hl & Hb & He). rewrite He, Hm, Hl, Hp, Hf, Hb.
    repeat split; try discriminate; try congruence; try constructor.
    intros [x Hx]. discriminate Hx.
  - destruct Hr as (_ & _ & Hf & Hm & Hp & Hl & Hb & He). rewrite He, Hm, Hl, Hf, Hb.
    repeat split; try discriminate; try congruence; try constructor.
    intros [x Hx]. discriminate Hx.
  - destruct Hr as (_ & Hf & Hm & Hp & He & range & _ & Hl & _ & Hb). rewrite He, Hm, Hl, Hf.
    repeat split; try discriminate; try congruence; eauto.
    apply analyze_within in Hb. exact Hb.
Qed.



(** X20.  A start date that is none.  The date check asks for the form
    only; when the accepted [startDate] does not denote a day, the analysis
    still answers 200, and then no commit of any result is in the date range
    and [withChanges] is 0. *)
Theorem POST_unreal_start_date (json : outcome requestBody) (before : list ProgressStep)
    (results : list AnalysisResult) (summary : summaryT) (progress : list ProgressStep) :
  fst (POST json before) = Json200 results summary progress ->
  parseDate (dateRange_startDate summary) = None ->
  withChanges summary = 0%nat /\
  forall r c, r ∈ results -> c ∈ gitBlameResults r -> inDateRange c = false.
Proof.
  intros H. apply POST_ok in H as (trace & date & _ & _ & _ & _ & _ & Hsettled & -> & _).
  cbn [dateRange_startDate withChanges]. intros Hdate.
  assert (Hall : forall r, r ∈ results ->
            Forall (fun c => inDateRange c = false) (gitBlameResults r)).
  { intros r Hr. apply list_elem_of_lookup in Hr as [k Hk].
    destruct (Hsettled k r Hk) as [Hr|[Hr|Hr]].
    - destruct Hr as (_ & _ & _ & _ & _ & -> & _). constructor.
    - destruct Hr as (_ & _ & _ & _ & _ & _ & -> & _). constructor.
    - destruct Hr as (_ & _ & _ & _ & _ & range & _ & _ & _ & Hb). rewrite Hdate in Hb.
      apply analyze_without_start in Hb. exact Hb. }
  split.
  - rewrite filter_none; [reflexivity|]. intros r Hr.
    specialize (Hall r Hr). induction Hall as [|c l Hc _ IH]; [reflexivity|].
    cbn [existsb]. rewrite Hc, IH. reflexivity.
  - intros r c Hr Hc. specialize (Hall r Hr). rewrite Forall_forall in Hall. exact (Hall c Hc).
Qed.

End RouteFacts.

Section RouteWitnesses.

Import Orchestrator RouteProps GitBlameRefined.

Lemma POST_results_follow_entries_witness :
  exists results summary progress,
    fst (sampleRun (fun _ => Some 19675) "2023-11-14") = Json200 results summary progress /\
    exists trace date,
      sampleRequest "2023-11-14" = Returned (mkBody (Some trace) (Some date)) /\
      resultPair <$> results
      = entryPair <$> StackTraceParser.deduplicateEntries (TraceParser.parseStackTrace trace) /\
      NoDup (resultKey <$> results) /\
      results <> [] /\
      totalEntries summary = length results.
Proof.
  eexists _, _, _. split; [reflexivity|].
  eapply (POST_results_follow_entries sampleShell FinderProps.classDisk (-18000000)
           (fun _ => Some 19675)
           (fun stepNumber totalSteps => Z.of_nat (stepNumber * 100 / totalSteps))
           (fun _ => "2024-05-01T10:00:00.000Z") (fun _ => 1690000000000) "2024-05-01"
           "unexpected" (sampleRequest "2023-11-14") []).
  reflexivity.
Defined.

Lemma POST_result_settled_witness :
  exists results summary progress r,
    fst (sampleRun (fun _ => Some 19675) "2023-11-14") = Json200 results summary progress /\
    results !! 0%nat = Some r /\
    settledResult sampleShell FinderProps.classDisk (-18000000) (Some 19675)
      (fun _ => 1690000000000) 0 r /\
    (error r = None <-> methodFound r = true) /\
    (is_Some (lineRange r) <-> methodFound r = true) /\
    (filePath r <> EmptyString <-> fileFound r = true) /\
    Forall (fun c => withinOneYear c = true) (gitBlameResults r).
Proof.
  eexists _, _, _, _. split; [reflexivity|]. split; [reflexivity|].
  eapply (POST_result_settled sampleShell FinderProps.classDisk (-18000000)
           (fun _ => Some 19675)
           (fun stepNumber totalSteps => Z.of_nat (stepNumber * 100 / totalSteps))
           (fun _ => "2024-05-01T10:00:00.000Z") (fun _ => 1690000000000) "2024-05-01"
           "unexpected" (sampleRequest "2023-11-14") [] _ _ _ 0%nat).
  - reflexivity.
  - reflexivity.
Defined.



Lemma POST_unreal_start_date_witness :
  exists results summary progress,
    fst (sampleRun (fun _ => None) "2023-99-99") = Json200 results summary progress /\
    withChanges summary = 0%nat /\
    forall r c, r ∈ results -> c ∈ gitBlameResults r -> inDateRange c = false.
Proof.
  eexists _, _, _. split; [reflexivity|].
  eapply (POST_unreal_start_date sampleShell FinderProps.classDisk (-18000000)
           (fun _ => None)
           (fun stepNumber totalSteps => Z.of_nat (stepNumber * 100 / totalSteps))
           (fun _ => "2024-05-01T10:00:00.000Z") (fun _ => 1690000000000) "2024-05-01"
           "unexpected" (sampleRequest "2023-99-99") [] _ _ _).
  - reflexivity.
  - reflexivity.
Defined.

End RouteWitnesses.

Section TrackerFacts.

Import ProgressTracker TrackerProps.

Variable number : Type.
Variable roundPercent : nat -> nat -> number.
Variable timeAt : nat -> string.

Local Abbreviation startStep := (ProgressTracker.startStep number roundPercent timeAt).
Local Abbreviation completeStep := (ProgressTracker.completeStep number roundPercent timeAt).
Local Abbreviation errorStep := (ProgressTracker.errorStep number timeAt).
Local Abbreviation perform := (ProgressTracker.perform number roundPercent timeAt).
Local Abbreviation performAll := (ProgressTracker.performAll number roundPercent timeAt).
Local Abbreviation notify := (ProgressTracker.notify number).
Local Abbreviation store := (ProgressTracker.store number).

Local Abbreviation sees o n :=
  (fun oc : nat * ProgressStep number => (fst oc =? o)%nat && (stepNumber (snd oc) =? n)%nat).

Lemma stepAt_Some index (t : tracker number) s :
  stepAt index t = Some s ->
  1 <= index /\ steps t !! Z.to_nat (index - 1) = Some s /\
  (Z.to_nat (index - 1) < length (steps t))%nat.
Proof.
  unfold stepAt. destruct (1 <=? index) eqn:E; [|discriminate]. intros H.
  split; [apply Z.leb_le, E|]. split; [exact H|]. exact (lookup_lt_Some _ _ _ H).
Qed.

Lemma stepAt_out_of_range index (t : tracker number) :
  index < 1 \/ Z.of_nat (length (steps t)) < index -> stepAt index t = None.
Proof.
  intros H. unfold stepAt. destruct (1 <=? index) eqn:E; [|reflexivity].
  apply Z.leb_le in E. apply lookup_ge_None. lia.
Qed.

Lemma sees_notified o n m (step : ProgressStep number) :
  List.filter (sees o n) (map (fun observer => (observer, step)) (seq 0 m))
  = if (o <? m)%nat && (stepNumber step =? n)%nat then [(o, step)] else [].
Proof.
  induction m as [|m IH]; [reflexivity|].
  rewrite seq_S, map_app, List.filter_app, IH. cbn [map List.filter fst snd Nat.add].
  destruct (stepNumber step =? n)%nat; rewrite ?andb_false_r; [|reflexivity].
  rewrite !andb_true_r. destruct (Nat.eqb_spec m o) as [->|Hne].
  - rewrite (proj2 (Nat.ltb_ge o o)) by lia. rewrite (proj2 (Nat.ltb_lt o (S o))) by lia.
    reflexivity.
  - destruct (Nat.ltb_spec o m) as [Hlt|Hge].
    + rewrite (proj2 (Nat.ltb_lt o (S m))) by lia. apply app_nil_r.
    + rewrite (proj2 (Nat.ltb_ge o (S m))) by lia. reflexivity.
Qed.

Lemma sees_replayed o o' n (l : list (ProgressStep number)) :
  snd <$> List.filter (sees o n) (map (fun step => (o', step)) l)
  = if (o' =? o)%nat then List.filter (fun s => (stepNumber s =? n)%nat) l else [].
Proof.
  induction l as [|s l IH]; cbn [map List.filter fst snd]; [destruct (o' =? o)%nat; reflexivity|].
  destruct (o' =? o)%nat; cbn [andb].
  - destruct (stepNumber s =? n)%nat; cbn [fmap list_fmap snd]; rewrite IH; reflexivity.
  - exact IH.
Qed.

Lemma numbered_filter (l : list (ProgressStep number)) i :
  (forall j s, l !! j = Some s -> stepNumber s = S j) ->
  List.filter (fun s => (stepNumber s =? S i)%nat) l
  = match l !! i with Some s => [s] | None => [] end.
Proof.
  induction l as [|x l IH] using rev_ind; intros H; [reflexivity|].
  assert (Hl : forall j s, l !! j = Some s -> stepNumber s = S j).
  { intros j s Hj. apply H. rewrite lookup_app_l; [exact Hj|]. exact (lookup_lt_Some _ _ _ Hj). }
  assert (Hx : stepNumber x = S (length l)).
  { apply H. rewrite lookup_app_r by lia. rewrite Nat.sub_diag. reflexivity. }
  rewrite List.filter_app, (IH Hl). cbn [List.filter]. rewrite Hx.
  change (S (length l) =? S i)%nat with (length l =? i)%nat.
  destruct (Nat.eqb_spec (length l) i) as [<-|Hne].
  - rewrite (lookup_ge_None_2 l (length l)) by lia.
    rewrite lookup_app_r by lia. rewrite Nat.sub_diag. reflexivity.
  - destruct (l !! i) as [s|] eqn:Hi.
    + rewrite lookup_app_l by exact (lookup_lt_Some _ _ _ Hi). rewrite Hi. reflexivity.
    + apply lookup_ge_None in Hi. rewrite lookup_app_r by lia.
      destruct (i - length l)%nat as [|k] eqn:Hk; [lia|]. reflexivity.
Qed.

Lemma lastSeen_notify o n (step : ProgressStep number) (t : tracker number) :
  lastSeen o n (notify step t)
  = if (o <? observers t)%nat && (stepNumber step =? n)%nat then Some step else lastSeen o n t.
Proof.
  unfold lastSeen, ProgressTracker.notify. cbn [calls].
  rewrite List.filter_app, fmap_app, last_app, sees_notified.
  destruct ((o <? observers t)%nat && (stepNumber step =? n)%nat); reflexivity.
Qed.

Lemma wellNumbered_perform total c t :
  wellNumbered total t -> wellNumbered total (perform c t).
Proof.
  intros (Hcur & Htot & Hsteps). unfold wellNumbered.
  destruct c as [|name det|index det|index msg]; cbn.
  - split; [exact Hcur|]. split; [exact Htot|exact Hsteps].
  - split; [rewrite List.length_app, Hcur; cbn; lia|]. split; [exact Htot|].
    intros i s Hi. apply lookup_snoc_Some in Hi as [[_ Hi]|[-> <-]]; [apply Hsteps, Hi|].
    cbn. rewrite Hcur. repeat split; [exact Htot|discriminate].
  - unfold ProgressTracker.completeStep. destruct (stepAt index t) as [s0|] eqn:Hat; cbn.
    + apply stepAt_Some in Hat as (_ & Hk & _). destruct (Hsteps _ _ Hk) as (Hn & Ht & _).
      split; [rewrite length_insert; exact Hcur|]. split; [exact Htot|].
      intros i s Hi. apply list_lookup_insert_Some in Hi as [(<- & <- & _)|[_ Hi]].
      * cbn. repeat split; [exact Hn|exact Ht|discriminate].
      * apply Hsteps, Hi.
    + split; [exact Hcur|]. split; [exact Htot|exact Hsteps].
  - unfold ProgressTracker.errorStep. destruct (stepAt index t) as [s0|] eqn:Hat; cbn.
    + apply stepAt_Some in Hat as (_ & Hk & _). destruct (Hsteps _ _ Hk) as (Hn & Ht & _).
      split; [rewrite length_insert; exact Hcur|]. split; [exact Htot|].
      intros i s Hi. apply list_lookup_insert_Some in Hi as [(<- & <- & _)|[_ Hi]].
      * cbn. repeat split; [exact Hn|exact Ht|discriminate].
      * apply Hsteps, Hi.
    + split; [exact Hcur|]. split; [exact Htot|exact Hsteps].
Qed.

Lemma wellNumbered_performAll total cs : forall t,
  wellNumbered total t -> wellNumbered total (performAll cs t).
Proof.
  induction cs as [|c cs IH]; intros t H; [exact H|].
  apply IH, wellNumbered_perform, H.
Qed.

Lemma wellNumbered_new total : wellNumbered total (new (number := number) total).
Proof. split; [reflexivity|]. split; [reflexivity|]. intros i s Hi. inversion Hi. Qed.

Lemma calls_notify o s (step : ProgressStep number) (t : tracker number) :
  (o, s) ∈ calls (notify step t) -> (o, s) ∈ calls t \/ (o < observers t)%nat.
Proof.
  unfold ProgressTracker.notify. cbn [calls]. intros [H|H]%elem_of_app; [left; exact H|right].
  apply list_elem_of_In, in_map_iff in H as (o' & [= <- _] & Ho). apply in_seq in Ho. lia.
Qed.

Lemma lastSeen_calls o n (t t' : tracker number) :
  calls t' = calls t -> lastSeen o n t' = lastSeen o n t.
Proof. unfold lastSeen. intros ->. reflexivity. Qed.

Lemma upToDate_changed index step' (t : tracker number) s0 total :
  wellNumbered total t -> upToDate t ->
  stepAt index t = Some s0 -> stepNumber step' = stepNumber s0 ->
  upToDate (notify step' (store index step' t)).
Proof.
  intros (Hcur & Htot & Hsteps) [Hcalls Hseen] Hat Hnum.
  apply stepAt_Some in Hat as (_ & Hk & Hlt). destruct (Hsteps _ _ Hk) as (Hn & _).
  rewrite Hn in Hnum. split.
  - intros o s [H|H]%calls_notify; [exact (Hcalls o s H)|exact H].
  - intros o i s Ho Hi. rewrite lastSeen_notify.
    cbn [observers ProgressTracker.store ProgressTracker.notify] in Ho |- *.
    rewrite (proj2 (Nat.ltb_lt _ _) Ho), Hnum. cbn [andb].
    cbn [steps ProgressTracker.store ProgressTracker.notify] in Hi.
    apply list_lookup_insert_Some in Hi as [(<- & <- & _)|[Hne Hi]].
    + rewrite Nat.eqb_refl. reflexivity.
    + change (S (Z.to_nat (index - 1)) =? S i)%nat with (Z.to_nat (index - 1) =? i)%nat.
      rewrite (proj2 (Nat.eqb_neq _ _) Hne).
      rewrite (lastSeen_calls o (S i) t) by reflexivity. exact (Hseen o i s Ho Hi).
Qed.

Lemma upToDate_perform total c t :
  wellNumbered total t -> upToDate t -> upToDate (perform c t).
Proof.
  intros Hwell Hup. pose proof Hwell as (Hcur & Htot & Hsteps). pose proof Hup as [Hcalls Hseen].
  destruct c as [|name det|index det|index msg]; cbn [ProgressTracker.perform].
  - unfold subscribe. split; cbn [calls observers steps].
    + intros o s [H|H]%elem_of_app; [specialize (Hcalls o s H); lia|].
      apply list_elem_of_In, in_map_iff in H as (s' & [= <- _] & _). lia.
    + intros o i s Ho Hi. unfold lastSeen. cbn [calls].
      rewrite List.filter_app, fmap_app, last_app, sees_replayed.
      destruct (Nat.eqb_spec (observers t) o) as [<-|Hne].
      * rewrite numbered_filter by (intros j s' Hj; apply (Hsteps j s' Hj)).
        rewrite Hi. reflexivity.
      * cbn [last]. apply (Hseen o i s); [lia|exact Hi].
  - unfold ProgressTracker.startStep. cbn [snd]. split.
    + intros o s [H|H]%calls_notify; [exact (Hcalls o s H)|exact H].
    + intros o i s Ho Hi. rewrite lastSeen_notify.
      cbn [observers steps stepNumber ProgressTracker.notify] in Ho, Hi |- *.
      rewrite (proj2 (Nat.ltb_lt _ _) Ho). cbn [andb].
      apply lookup_snoc_Some in Hi as [[Hlt Hi]|[-> <-]].
      * change (S (currentStepNumber t) =? S i)%nat with (currentStepNumber t =? i)%nat.
        rewrite (proj2 (Nat.eqb_neq _ _)) by lia.
        rewrite (lastSeen_calls o (S i) t) by reflexivity. exact (Hseen o i s Ho Hi).
      * rewrite Hcur, Nat.eqb_refl. reflexivity.
  - unfold ProgressTracker.completeStep. destruct (stepAt index t) as [s0|] eqn:Hat; [|exact Hup].
    apply (upToDate_changed index _ t s0 total Hwell Hup Hat). reflexivity.
  - unfold ProgressTracker.errorStep. destruct (stepAt index t) as [s0|] eqn:Hat; [|exact Hup].
    apply (upToDate_changed index _ t s0 total Hwell Hup Hat). reflexivity.
Qed.

Lemma upToDate_performAll total cs : forall t,
  wellNumbered total t -> upToDate t -> upToDate (performAll cs t).
Proof.
  induction cs as [|c cs IH]; intros t Hwell Hup; [exact Hup|].
  apply IH; [apply wellNumbered_perform, Hwell|apply (upToDate_perform total), Hup; exact Hwell].
Qed.

(** X21.  The numbering of the steps.  After any sequence of calls on a new
    tracker the array holds [currentStepNumber] steps, the step at index [i]
    has number [i + 1] and the total of the instance, and none is pending.
    So the number that [startStep] returns addresses the step it started,
    and [completeStep] and [errorStep] with a number below 1 or above the
    number of steps started change nothing and call no observer. *)
Theorem ProgressTracker_steps_numbered (total : nat) (cs : list call) :
  let t := performAll cs (new total) in
  wellNumbered total t /\
  (forall name details,
     let started := startStep name details t in
     fst started = S (length (getSteps t)) /\
     exists step, stepAt (Z.of_nat (fst started)) (snd started) = Some step /\
       stepName step = name /\ status step = running) /\
  (forall index text,
     index < 1 \/ Z.of_nat (length (getSteps t)) < index ->
     completeStep index text t = t /\ errorStep index text t = t).
Proof.
  intros t. assert (Hwell : wellNumbered total t).
  { apply wellNumbered_performAll, wellNumbered_new. }
  split; [exact Hwell|]. destruct Hwell as (Hcur & _). split.
  - intros name det started. unfold started, ProgressTracker.startStep, getSteps.
    cbn [fst snd stepNumber]. split; [rewrite Hcur; reflexivity|].
    eexists. split; [|split].
    + unfold stepAt, ProgressTracker.notify. cbn [steps].
      rewrite (proj2 (Z.leb_le 1 _)) by lia.
      replace (Z.to_nat (Z.of_nat (S (currentStepNumber t)) - 1)) with (length (steps t)) by lia.
      rewrite lookup_app_r by lia. rewrite Nat.sub_diag. reflexivity.
    + reflexivity.
    + reflexivity.
  - intros index text Hout. unfold ProgressTracker.completeStep, ProgressTracker.errorStep.
    rewrite (stepAt_out_of_range index t Hout). split; reflexivity.
Qed.

(** X22.  Observers are kept up to date.  After any sequence of calls on a
    new tracker, every subscribed observer, also one subscribed late, was
    last passed each step exactly as [getSteps] holds it now, and no call
    went to anyone who had not subscribed. *)
Theorem ProgressTracker_observers_up_to_date (total : nat) (cs : list call) :
  let t := performAll cs (new total) in
  (forall o i s, (o < observers t)%nat -> getSteps t !! i = Some s ->
     lastSeen o (S i) t = Some s) /\
  (forall o s, (o, s) ∈ calls t -> (o < observers t)%nat).
Proof.
  intros t. assert (Hup : upToDate t).
  { apply (upToDate_performAll total); [apply wellNumbered_new|].
    split; [intros o s H; inversion H|]. intros o i s Ho. cbn in Ho. lia. }
  destruct Hup as [Hcalls Hseen]. split; [exact Hseen|exact Hcalls].
Qed.

End TrackerFacts.

Section QueryFacts.

Import RegexSemantics GitBlameQuery QueryProps.

Variable tza : Z.
Variable parseDate : string -> option Z.
Variable startDate : string.

Local Abbreviation summaryLine := (GitBlameQuery.summaryLine tza parseDate startDate).
Local Abbreviation step := (GitBlameQuery.step tza parseDate startDate).
Local Abbreviation parseLines := (GitBlameQuery.parseLines tza parseDate startDate).

Lemma has_false hash m : has hash m = false -> hash ∉ (fst <$> m).
Proof.
  unfold has. intros H Hin. apply list_elem_of_fmap in Hin as ([k r] & -> & Hin).
  assert (Hex : existsb (fun kv => String.eqb (fst kv) k) m = true).
  { apply existsb_exists. exists (k, r). split; [apply list_elem_of_In, Hin|apply String.eqb_refl]. }
  simpl in H. congruence.
Qed.

(** What a line can do to the Map: nothing, or add a record under a hash
    that has none yet, the current one. *)
Lemma step_results line st :
  results (step line st) = results st \/
  exists hash r,
    results (step line st) = results st ++ [(hash, r)] /\
    (hash ∉ (fst <$> results st)) /\
    partial_commitHash (currentCommit st) = Some hash /\
    commitHash r = hash /\
    author r = orElse (partial_author (currentCommit st)) "Unknown" /\
    commitDate r = orElse (partial_commitDate (currentCommit st)) EmptyString /\
    inDateRange r
    = dateGe (setHours0 tza (newDate parseDate (commitDate r)))
        (startDateObj tza parseDate startDate) /\
    prNumber r = extractPRNumber (commitMessage r) /\
    prUrl r = match prNumber r with
              | Some n => if truthy n then Some (GITHUB_REPO +:+ "/pull/" +:+ n) else None
              | None => None
              end.
Proof.
  unfold GitBlameQuery.step. destruct (negb (truthy (trim line))); [left; reflexivity|].
  destruct (matchHere reCommitHash line); [left; reflexivity|].
  destruct (startsWith "author " line); [left; reflexivity|].
  destruct (startsWith "author-date " line); [left; reflexivity|].
  destruct (startsWith "summary " line); [|left; reflexivity].
  unfold GitBlameQuery.summaryLine. cbn [partial_commitHash partial_author partial_commitDate].
  destruct (partial_commitHash (currentCommit st)) as [hash|]; [|left; reflexivity].
  destruct (truthy hash && negb (has hash (results st))) eqn:E; [|left; reflexivity].
  apply andb_true_iff in E as [_ Hnew]. apply negb_true_iff, has_false in Hnew.
  right. eexists _, _. split; [reflexivity|]. cbn.
  repeat split; auto.
Qed.

Lemma step_prefix line st : (results st) `prefix_of` (results (step line st)).
Proof.
  destruct (step_results line st) as [->|(hash & r & -> & _)]; [reflexivity|].
  apply prefix_app_r. reflexivity.
Qed.

Lemma step_NoDup line st :
  NoDup (fst <$> results st) -> NoDup (fst <$> results (step line st)).
Proof.
  intros H. destruct (step_results line st) as [->|(hash & r & -> & Hnew & _)]; [exact H|].
  rewrite fmap_app. apply NoDup_app. split; [exact H|]. split; [|apply NoDup_singleton].
  intros x Hx Hx'. apply list_elem_of_singleton in Hx'. subst x. exact (Hnew Hx).
Qed.

Lemma parseLines_prefix lines : forall st,
  (results st) `prefix_of` (results (parseLines lines st)).
Proof.
  induction lines as [|line rest IH]; intros st; [reflexivity|].
  cbn. etransitivity; [apply (step_prefix line)|apply IH].
Qed.

Lemma parseLines_NoDup lines : forall st,
  NoDup (fst <$> results st) -> NoDup (fst <$> results (parseLines lines st)).
Proof.
  induction lines as [|line rest IH]; intros st H; [exact H|].
  cbn. apply IH, step_NoDup, H.
Qed.

(** X23.  The first mention of a commit decides its record.  A record
    that is in the Map after some lines is there, unchanged and in the same
    place, after any further lines; and no hash is ever stored twice. *)
Theorem queryGitBlame_first_seen_wins (lines more : list string) :
  let before := results (parseLines lines initial) in
  let after := results (parseLines (lines ++ more) initial) in
  before `prefix_of` after /\
  NoDup (fst <$> after) /\
  (forall hash r r', (hash, r) ∈ before -> (hash, r') ∈ after -> r' = r).
Proof.
  intros before after.
  assert (Hpre : before `prefix_of` after).
  { unfold before, after, GitBlameQuery.parseLines. rewrite fold_left_app.
    apply parseLines_prefix. }
  assert (Hnd : NoDup (fst <$> after)) by (apply parseLines_NoDup; constructor).
  split; [exact Hpre|]. split; [exact Hnd|].
  intros hash r r' Hr Hr'. destruct Hpre as [k Hk].
  assert (Hr2 : (hash, r) ∈ after) by (rewrite Hk; apply elem_of_app; left; exact Hr).
  clear Hk. revert Hnd Hr2 Hr'. generalize after. intros l. induction l as [|[h x] l IH].
  - intros _ H. inversion H.
  - rewrite fmap_cons, NoDup_cons. cbn [fst]. intros [Hh Hnd] H1 H2.
    apply elem_of_cons in H1 as [E1|H1]; apply elem_of_cons in H2 as [E2|H2].
    + congruence.
    + exfalso. apply Hh. apply (list_elem_of_fmap_2 fst) in H2. injection E1 as <- _. exact H2.
    + exfalso. apply Hh. apply (list_elem_of_fmap_2 fst) in H1. injection E2 as <- _. exact H1.
    + apply IH; assumption.
Qed.

Lemma step_current_date line st :
  startsWith "author-date " line = false ->
  partial_commitDate (currentCommit st) = None ->
  partial_commitDate (currentCommit (step line st)) = None.
Proof.
  intros Hline Hst. unfold GitBlameQuery.step. rewrite Hline.
  destruct (negb (truthy (trim line))); [exact Hst|].
  destruct (matchHere reCommitHash line); [reflexivity|].
  destruct (startsWith "author " line); [exact Hst|].
  destruct (startsWith "summary " line); [|exact Hst].
  unfold GitBlameQuery.summaryLine. cbn [partial_commitHash].
  destruct (partial_commitHash (currentCommit st)) as [hash|]; [|exact Hst].
  destruct (truthy hash && negb (has hash (results st))); exact Hst.
Qed.

Local Abbreviation undated :=
  (fun kv : string * GitBlameResult =>
     commitDate (snd kv) = EmptyString /\ inDateRange (snd kv) = false).

Lemma parseLines_undated lines : forall st,
  Forall (fun line => startsWith "author-date " line = false) lines ->
  partial_commitDate (currentCommit st) = None ->
  Forall undated (results st) ->
  Forall undated (results (parseLines lines st)).
Proof.
  induction lines as [|line rest IH]; intros st Hlines Hcur Hres; [exact Hres|].
  apply Forall_cons in Hlines as [Hline Hrest]. cbn. apply IH; [exact Hrest| |].
  - apply step_current_date; assumption.
  - destruct (step_results line st)
      as [->|(hash & r & -> & _ & _ & _ & _ & Hd & Hin & _)]; [exact Hres|].
    apply Forall_app. split; [exact Hres|]. rewrite Hcur in Hd. cbn in Hd.
    constructor; [|constructor]. cbn [snd]. split; [exact Hd|]. rewrite Hin, Hd. reflexivity.
Qed.

Lemma lang_times p n : forall m,
  lang (times n (Cls p)) m -> String.length m = n /\ RegexProps.allChars p m = true.
Proof.
  induction n as [|n IH]; intros m H; cbn [times] in H.
  - inversion H. split; reflexivity.
  - inversion H as [| |r1 r2 s1 s2 L1 L2| | | | |]; subst.
    inversion L1 as [|p' c Hp| | | | | |]; subst. destruct (IH _ L2) as [Hlen Hall].
    rewrite app_cons, app_nil_l. cbn. rewrite Hlen, Hp, Hall. split; reflexivity.
Qed.

Lemma isLowerHex_no_blank c :
  isLowerHex c = true -> eqChar c " " = false /\ eqChar c "009" = false.
Proof.
  destruct c as [[] [] [] [] [] [] [] []]; vm_compute; intros H;
    first [discriminate H | split; reflexivity].
Qed.

Lemma allChars_no_blank m :
  RegexProps.allChars isLowerHex m = true ->
  includesChar " " m = false /\ includesChar "009" m = false.
Proof.
  induction m as [|c m IH]; cbn; [split; reflexivity|].
  intros H. apply andb_true_iff in H as [Hc Hm].
  destruct (isLowerHex_no_blank c Hc) as [-> ->]. exact (IH Hm).
Qed.

Lemma firstPiece_app sep m rest :
  includesChar sep m = false -> firstPiece sep (m +:+ rest) = m +:+ firstPiece sep rest.
Proof.
  unfold firstPiece. induction m as [|c m IH]; intros H.
  - rewrite !app_nil_l. reflexivity.
  - cbn in H. apply orb_false_iff in H as [Hc Hm]. rewrite !app_cons. cbn [split]. rewrite Hc.
    specialize (IH Hm). destruct (split sep (m +:+ rest)) as [|w ws] eqn:E.
    + destruct (split_nonempty _ _ E).
    + rewrite IH. reflexivity.
Qed.

Lemma split_keeps_out c sep s :
  includesChar c s = false -> Forall (fun w => includesChar c w = false) (split sep s).
Proof.
  induction s as [|x s IH]; cbn; [repeat constructor|].
  intros H. apply orb_false_iff in H as [Hx Hs]. specialize (IH Hs).
  destruct (eqChar x sep); [constructor; [reflexivity|exact IH]|].
  destruct (split sep s) as [|w ws]; [repeat constructor; cbn; rewrite Hx; reflexivity|].
  apply Forall_cons in IH as [Hw Hws]. constructor; [|exact Hws]. cbn. rewrite Hx, Hw. reflexivity.
Qed.

Lemma firstPiece_keeps_out c sep s :
  includesChar c s = false -> includesChar c (firstPiece sep s) = false.
Proof.
  intros H. apply (split_keeps_out c sep) in H. unfold firstPiece.
  destruct (split sep s) as [|w ws]; [reflexivity|]. apply Forall_cons in H as [Hw _]. exact Hw.
Qed.

Lemma firstPiece_pieces sep s : includesChar sep (firstPiece sep s) = false.
Proof.
  pose proof (split_pieces sep s) as H. unfold firstPiece.
  destruct (split sep s) as [|w ws]; [reflexivity|]. apply Forall_cons in H as [Hw _]. exact Hw.
Qed.

Lemma commit_line_hash line caps :
  matchHere reCommitHash line = Some caps ->
  fullHash (firstPiece " " (firstPiece "009" line)).
Proof.
  unfold matchHere. intros H.
  apply matchRe_matches in H as (m & rest & _ & -> & Hm & _).
  apply lang_times in Hm as [Hlen Hall]. destruct (allChars_no_blank m Hall) as [Hsp Htab].
  split; [|split].
  - rewrite (firstPiece_app "009" m rest Htab), (firstPiece_app " " m _ Hsp). eauto.
  - apply firstPiece_pieces.
  - apply firstPiece_keeps_out, firstPiece_pieces.
Qed.

Lemma extractPRNumber_digits message n :
  extractPRNumber message = Some n -> wordOf isDigit n.
Proof.
  unfold GitBlameQuery.extractPRNumber.
  destruct (search reHashNumber message) eqn:E1;
    [apply (rule_captures_number reHashNumber message); [reflexivity|exact E1]|].
  destruct (search rePrNumber message) eqn:E2;
    [apply (rule_captures_number rePrNumber message); [reflexivity|exact E2]|].
  discriminate.
Qed.

Lemma step_current_hash line st :
  (forall h, partial_commitHash (currentCommit st) = Some h -> fullHash h) ->
  forall h, partial_commitHash (currentCommit (step line st)) = Some h -> fullHash h.
Proof.
  intros Hst h. unfold GitBlameQuery.step.
  destruct (negb (truthy (trim line))); [apply Hst|].
  destruct (matchHere reCommitHash line) as [caps|] eqn:E.
  { cbn. intros [= <-]. exact (commit_line_hash line caps E). }
  destruct (startsWith "author " line); [apply Hst|].
  destruct (startsWith "author-date " line); [apply Hst|].
  destruct (startsWith "summary " line); [|apply Hst].
  unfold GitBlameQuery.summaryLine. cbn [partial_commitHash].
  destruct (partial_commitHash (currentCommit st)) as [hash|] eqn:Eh; [|cbn; discriminate].
  destruct (truthy hash && negb (has hash (results st))); cbn; intros [= <-]; apply Hst; reflexivity.
Qed.

Lemma parseLines_wellFormed lines : forall st,
  (forall h, partial_commitHash (currentCommit st) = Some h -> fullHash h) ->
  Forall (fun kv => wellFormed (snd kv)) (results st) ->
  Forall (fun kv => wellFormed (snd kv)) (results (parseLines lines st)).
Proof.
  induction lines as [|line rest IH]; intros st Hcur Hres; [exact Hres|].
  cbn. apply IH; [apply step_current_hash, Hcur|].
  destruct (step_results line st)
    as [->|(hash & r & -> & _ & Hh & Hhash & Ha & _ & _ & Hn & Hu)]; [exact Hres|].
  apply Forall_app. split; [exact Hres|]. constructor; [|constructor]. cbn [snd].
  split; [rewrite Hhash; apply Hcur, Hh|]. split.
  - rewrite Ha. unfold orElse. destruct (partial_author (currentCommit st)) as [[|c a]|]; discriminate.
  - rewrite Hu. destruct (prNumber r) as [n|]; [|reflexivity].
    symmetry in Hn. apply extractPRNumber_digits in Hn. split; [exact Hn|].
    destruct n; [destruct Hn as [Hn _]; destruct (Hn eq_refl)|reflexivity].
Qed.

Variable execAsync : string -> string -> outcome string.
Variables (filePath : string) (lineStart lineEnd : option nat) (projectRoot : string).

Local Abbreviation query :=
  (queryGitBlame tza parseDate startDate execAsync filePath lineStart lineEnd projectRoot).

Lemma query_returned out :
  query = Returned out ->
  out = [] \/
  exists stdout,
    execAsync (blameCommand filePath lineStart lineEnd) projectRoot = Returned stdout /\
    Permutation out (map snd (results (parseLines (split "010"%char stdout) initial))).
Proof.
  unfold queryGitBlame. destruct (execAsync _ _) as [stdout|]; cbn.
  - intros [= <-]. right. exists stdout. split; [reflexivity|]. apply sortBy_Permutation.
  - intros [= <-]. left. reflexivity.
Qed.

(** X24.  Without [author-date] lines nothing is dated.  When no line of
    the blame output starts with [author-date ] (the porcelain format prints
    [author-time]), every returned record has the empty [commitDate] and is
    not in the date range, whatever the start date. *)
Theorem queryGitBlame_without_author_date (stdout : string) (out : list GitBlameResult) :
  execAsync (blameCommand filePath lineStart lineEnd) projectRoot = Returned stdout ->
  Forall (fun line => startsWith "author-date " line = false) (split "010"%char stdout) ->
  query = Returned out ->
  Forall (fun r => commitDate r = EmptyString /\ inDateRange r = false) out.
Proof.
  intros Hexec Hlines Hout.
  apply query_returned in Hout as [->|(stdout' & Hexec' & Hperm)]; [constructor|].
  rewrite Hexec in Hexec'. injection Hexec' as <-.
  rewrite Hperm. apply Forall_fmap.
  apply parseLines_undated; [exact Hlines|reflexivity|constructor].
Qed.

(** X25.  The shape of a returned record: its hash starts with forty
    lower-case hexadecimal digits and holds no blank or tab, its author is
    not empty, a number it has is a non-empty word of digits and its link is
    the pull-request page of that number on GitHub, and without a number it
    has no link. *)
Theorem queryGitBlame_record_shape (out : list GitBlameResult) :
  query = Returned out -> Forall wellFormed out.
Proof.
  intros Hout. apply query_returned in Hout as [->|(stdout & _ & Hperm)]; [constructor|].
  rewrite Hperm. apply Forall_fmap.
  apply parseLines_wellFormed; [discriminate|constructor].
Qed.

End QueryFacts.

Section QueryWitnesses.

Import GitBlameQuery QueryProps.

Lemma queryGitBlame_without_author_date_witness :
  exists out,
    queryGitBlame 0 (fun _ => Some 1700000000000) "2023-11-01"
      (fun _ _ => Returned porcelainOutput) "Orders.cs" None None "C:\proj" = Returned out /\
    Forall (fun r => commitDate r = EmptyString /\ inDateRange r = false) out.
Proof.
  eexists. split; [reflexivity|].
  eapply (queryGitBlame_without_author_date 0 (fun _ => Some 1700000000000) "2023-11-01"
            (fun _ _ => Returned porcelainOutput) "Orders.cs" None None "C:\proj"
            porcelainOutput).
  - reflexivity.
  - vm_compute. repeat constructor.
  - reflexivity.
Defined.

Lemma queryGitBlame_record_shape_witness :
  exists out,
    queryGitBlame 0 (fun _ => Some 1700000000000) "2023-11-01"
      (fun _ _ => Returned porcelainOutput) "Orders.cs" None None "C:\proj" = Returned out /\
    Forall wellFormed out.
Proof.
  eexists. split; [reflexivity|].
  eapply (queryGitBlame_record_shape 0 (fun _ => Some 1700000000000) "2023-11-01"
            (fun _ _ => Returned porcelainOutput) "Orders.cs" None None "C:\proj").
  reflexivity.
Defined.

End QueryWitnesses.

Section LogFacts.

Import JsMore GitAdvanced GitLog LogProps.

Lemma split_one sep w : includesChar sep w = false -> split sep w = [w].
Proof.
  induction w as [|c w IH]; cbn; [reflexivity|]. intros H.
  apply orb_false_iff in H as [Hc Hw]. rewrite Hc, (IH Hw). reflexivity.
Qed.

Lemma split_app_sep sep w rest :
  includesChar sep w = false -> split sep (w +:+ String sep rest) = w :: split sep rest.
Proof.
  induction w as [|c w IH]; intros H.
  - rewrite app_nil_l. cbn [split]. unfold eqChar. rewrite Ascii.eqb_refl. reflexivity.
  - cbn in H. apply orb_false_iff in H as [Hc Hw]. rewrite app_cons. cbn [split].
    rewrite Hc, (IH Hw). reflexivity.
Qed.

Lemma split_concat sep ws :
  ws <> [] -> Forall (fun w => includesChar sep w = false) ws ->
  split sep (String.concat (String sep EmptyString) ws) = ws.
Proof.
  induction ws as [|w ws IH]; intros Hne Hall; [destruct (Hne eq_refl)|].
  apply Forall_cons in Hall as [Hw Hws]. destruct ws as [|w' ws].
  - cbn [String.concat]. apply split_one, Hw.
  - change (String.concat (String sep EmptyString) (w :: w' :: ws))
      with (w +:+ String sep EmptyString +:+ String.concat (String sep EmptyString) (w' :: ws)).
    rewrite app_cons, app_nil_l, (split_app_sep sep w _ Hw), IH; [reflexivity|discriminate|exact Hws].
Qed.

Lemma trimEnd_blank ws : RegexProps.allChars isSpace ws = true -> trimEnd ws = EmptyString.
Proof.
  induction ws as [|c ws IH]; cbn; [reflexivity|]. intros H.
  apply andb_true_iff in H as [Hc Hws]. rewrite (IH Hws), Hc. reflexivity.
Qed.

Lemma trimEnd_app_blank a ws :
  RegexProps.allChars isSpace ws = true -> trimEnd (a +:+ ws) = trimEnd a.
Proof.
  intros H. induction a as [|c a IH].
  - rewrite app_nil_l. apply trimEnd_blank, H.
  - rewrite app_cons. cbn [trimEnd]. rewrite IH. reflexivity.
Qed.

Lemma trimEnd_app_clean a s : cleanEnd s -> trimEnd (a +:+ s) = a +:+ s.
Proof.
  intros [Hne Hs]. induction a as [|c a IH].
  - rewrite app_nil_l. exact Hs.
  - rewrite app_cons. cbn [trimEnd]. rewrite IH.
    destruct (a +:+ s) as [|c' t] eqn:E; [|reflexivity].
    destruct a; [rewrite app_nil_l in E; contradiction|rewrite app_cons in E; discriminate].
Qed.

Lemma trimStart_app_blank ws x :
  RegexProps.allChars isSpace ws = true -> trimStart (ws +:+ x) = trimStart x.
Proof.
  induction ws as [|c ws IH]; intros H; [rewrite app_nil_l; reflexivity|].
  cbn in H. apply andb_true_iff in H as [Hc Hws]. rewrite app_cons. cbn [trimStart].
  rewrite Hc. apply IH, Hws.
Qed.

Lemma trimStart_length s : (String.length (trimStart s) <= String.length s)%nat.
Proof. induction s as [|c s IH]; cbn; [lia|]. destruct (isSpace c); cbn; lia. Qed.

Lemma trimStart_app_clean h x : cleanStart h -> trimStart (h +:+ x) = h +:+ x.
Proof.
  intros [Hne Hh]. destruct h as [|c h]; [contradiction|]. rewrite app_cons.
  cbn [trimStart] in Hh |- *. destruct (isSpace c); [|reflexivity].
  pose proof (trimStart_length h) as Hlen. rewrite Hh in Hlen. cbn in Hlen. lia.
Qed.

Lemma countChar_trimEnd sep x : countChar sep (trimEnd x) <= countChar sep x.
Proof.
  induction x as [|c x IH]; cbn [trimEnd countChar]; [lia|].
  destruct (trimEnd x) as [|c' t].
  - cbn [countChar] in IH. destruct (isSpace c); cbn [countChar]; destruct (eqChar c sep); lia.
  - cbn [countChar] in IH |- *. lia.
Qed.

Lemma countChar_nonneg sep x : 0 <= countChar sep x.
Proof. induction x as [|c x IH]; cbn; [lia|]. destruct (eqChar c sep); lia. Qed.

Lemma split_length sep x : Z.of_nat (length (split sep x)) = 1 + countChar sep x.
Proof.
  induction x as [|c x IH]; cbn [split countChar]; [reflexivity|].
  destruct (eqChar c sep).
  - cbn [length]. lia.
  - pose proof (countChar_nonneg sep x).
    destruct (split sep x) as [|w ws]; cbn [length] in IH |- *; lia.
Qed.

Lemma countChar_app c a b : countChar c (a +:+ b) = countChar c a + countChar c b.
Proof.
  induction a as [|x a IH]; [rewrite app_nil_l; reflexivity|].
  rewrite app_cons. cbn [countChar]. rewrite IH. lia.
Qed.

Lemma countChar_oneLine s : oneLine s -> countChar "010" s = 0.
Proof.
  unfold oneLine. induction s as [|c s IH]; cbn; [reflexivity|]. intros H.
  apply orb_false_iff in H as [Hc Hs]. rewrite Hc, (IH Hs). reflexivity.
Qed.

Lemma allChars_app p a b :
  RegexProps.allChars p (a +:+ b) = RegexProps.allChars p a && RegexProps.allChars p b.
Proof.
  induction a as [|x a IH]; [rewrite app_nil_l; reflexivity|].
  rewrite app_cons. cbn [RegexProps.allChars]. rewrite IH, andb_assoc. reflexivity.
Qed.

Lemma string_app_nil_r s : s +:+ EmptyString = s.
Proof. induction s as [|c s IH]; [reflexivity|]. rewrite app_cons, IH. reflexivity. Qed.

Variable execAsync : string -> string -> outcome string.
Variable dateTime : string -> option Z.

Local Abbreviation commitOfLines := (GitLog.commitOfLines dateTime).
Local Abbreviation getCommitInfo := (GitLog.getCommitInfo execAsync dateTime).
Local Abbreviation commitOf := (commitOfFields dateTime).

Lemma printed_head h an ae ai s :
  printed h an ae ai s
  = h +:+ (newline +:+ an +:+ newline +:+ ae +:+ newline +:+ ai +:+ newline +:+ s).
Proof. reflexivity. Qed.

Lemma printed_last h an ae ai s :
  printed h an ae ai s
  = (h +:+ newline +:+ an +:+ newline +:+ ae +:+ newline +:+ ai +:+ newline) +:+ s.
Proof. rewrite printed_head, !string_app_assoc. reflexivity. Qed.

Lemma trim_printed pre h an ae ai s post :
  RegexProps.allChars isSpace pre = true -> RegexProps.allChars isSpace post = true ->
  cleanStart h -> cleanEnd s ->
  trim (pre +:+ printed h an ae ai s +:+ post) = printed h an ae ai s.
Proof.
  intros Hpre Hpost Hh Hs. unfold trim. rewrite (trimStart_app_blank pre _ Hpre).
  assert (Hstart : trimStart (printed h an ae ai s +:+ post) = printed h an ae ai s +:+ post).
  { rewrite printed_head, string_app_assoc. apply trimStart_app_clean, Hh. }
  rewrite Hstart, (trimEnd_app_blank _ post Hpost), printed_last.
  apply trimEnd_app_clean, Hs.
Qed.

Lemma commitOfLines_printed h an ae ai s :
  oneLine h -> oneLine an -> oneLine ae -> oneLine ai -> oneLine s ->
  commitOfLines (split "010"%char (printed h an ae ai s)) = Some (commitOf h an ae ai s).
Proof.
  intros H1 H2 H3 H4 H5. unfold printed, joinLines, newline.
  rewrite split_concat; [reflexivity|discriminate|]. repeat constructor; assumption.
Qed.

(** X26.  [getCommitInfo] reads back what the log prints.  When the tool
    prints the five fields of the format on five lines, followed by white
    space only, the result is the commit with exactly these fields, its time
    stamp the time of the date field and its reference the one
    [extractPRNumber] finds in the subject. *)
Theorem getCommitInfo_reads_back
    (commitHash projectRoot h an ae ai s trailing : string) :
  cleanStart h -> cleanEnd s ->
  oneLine h -> oneLine an -> oneLine ae -> oneLine ai -> oneLine s ->
  RegexProps.allChars isSpace trailing = true ->
  execAsync (commitInfoCommand commitHash) projectRoot
  = Returned (printed h an ae ai s +:+ trailing) ->
  getCommitInfo commitHash projectRoot = Returned (Some (commitOf h an ae ai s)).
Proof.
  intros Hh Hs H1 H2 H3 H4 H5 Htr Hexec. unfold GitLog.getCommitInfo. rewrite Hexec.
  cbn [mbind outcome_bind mret outcome_ret tryCatch].
  pose proof (trim_printed EmptyString h an ae ai s trailing eq_refl Htr Hh Hs) as Ht.
  rewrite app_nil_l in Ht. rewrite Ht, commitOfLines_printed by assumption. reflexivity.
Qed.

(** X27.  A commit without a subject is not found.  When the subject that
    the tool prints is empty or blank, trimming the output leaves at most
    four lines and the result is null, as for a commit that does not exist. *)
Theorem getCommitInfo_blank_subject
    (commitHash projectRoot h an ae ai s trailing : string) :
  cleanStart h ->
  oneLine h -> oneLine an -> oneLine ae -> oneLine ai ->
  RegexProps.allChars isSpace s = true ->
  RegexProps.allChars isSpace trailing = true ->
  execAsync (commitInfoCommand commitHash) projectRoot
  = Returned (printed h an ae ai s +:+ trailing) ->
  getCommitInfo commitHash projectRoot = Returned None.
Proof.
  intros Hh H1 H2 H3 H4 Hs Htr Hexec. unfold GitLog.getCommitInfo. rewrite Hexec.
  cbn [mbind outcome_bind mret outcome_ret tryCatch]. unfold GitLog.commitOfLines.
  replace (length (split "010" (trim (printed h an ae ai s +:+ trailing))) <? 5)%nat with true;
    [reflexivity|].
  symmetry. apply Nat.ltb_lt.
  set (four := h +:+ newline +:+ an +:+ newline +:+ ae +:+ newline +:+ ai).
  assert (Hy : printed h an ae ai s +:+ trailing = four +:+ (newline +:+ s +:+ trailing)).
  { unfold four. rewrite printed_head, !string_app_assoc. reflexivity. }
  assert (Hblank : RegexProps.allChars isSpace (newline +:+ s +:+ trailing) = true).
  { unfold newline. rewrite app_cons, app_nil_l. cbn [RegexProps.allChars].
    rewrite allChars_app, Hs, Htr. reflexivity. }
  assert (Hstart : trimStart (four +:+ (newline +:+ s +:+ trailing))
                   = four +:+ (newline +:+ s +:+ trailing)).
  { unfold four. rewrite string_app_assoc. apply trimStart_app_clean, Hh. }
  unfold trim. rewrite Hy, Hstart, (trimEnd_app_blank _ _ Hblank).
  pose proof (split_length "010" (trimEnd four)) as Hlen.
  pose proof (countChar_trimEnd "010" four) as Hle.
  assert (Hfour : countChar "010" four = 3).
  { unfold four, newline. rewrite !countChar_app.
    rewrite (countChar_oneLine h H1), (countChar_oneLine an H2), (countChar_oneLine ae H3),
      (countChar_oneLine ai H4). reflexivity. }
  lia.
Qed.

End LogFacts.

Section SplitFacts.

Import JsMore.

Lemma prefix_app_cases p : forall t y,
  String.prefix p (t +:+ y) = true ->
  String.prefix p t = true \/ exists u, p = t +:+ u /\ String.prefix u y = true.
Proof.
  induction p as [|c p IH]; intros t y H.
  - left. destruct t; reflexivity.
  - destruct t as [|d t].
    + right. exists (String c p). rewrite app_nil_l in H |- *. split; [reflexivity|exact H].
    + rewrite app_cons in H. cbn [String.prefix] in H |- *.
      destruct (Ascii.ascii_dec c d) as [->|Hne]; [|discriminate].
      destruct (IH t y H) as [Hl|(u & -> & Hu)]; [left; exact Hl|].
      right. exists u. rewrite app_cons. split; [reflexivity|exact Hu].
Qed.

Lemma prefix_refl_app p y : String.prefix p (p +:+ y) = true.
Proof.
  induction p as [|c p IH]; [rewrite app_nil_l; destruct y; reflexivity|].
  rewrite app_cons. cbn [String.prefix]. destruct (Ascii.ascii_dec c c); [exact IH|contradiction].
Qed.

Lemma splitOnFrom_skip sep x : forall rest,
  splitOnFrom sep (String.length x) (x +:+ rest) = splitOnFrom sep 0 rest.
Proof.
  induction x as [|c x IH]; intros rest; [rewrite app_nil_l; reflexivity|].
  rewrite app_cons. cbn [String.length splitOnFrom]. apply IH.
Qed.

Lemma splitOn_found c sep rest :
  splitOn (String c sep) (String c sep +:+ rest) = EmptyString :: splitOn (String c sep) rest.
Proof.
  unfold splitOn. rewrite app_cons. cbn [splitOnFrom].
  rewrite <- app_cons, prefix_refl_app.
  replace (String.length (String c sep) - 1)%nat with (String.length sep) by (cbn; lia).
  rewrite splitOnFrom_skip. reflexivity.
Qed.

Lemma splitOn_step sep c s :
  String.prefix sep (String c s) = false ->
  splitOn sep (String c s)
  = match splitOn sep s with
    | w :: ws => String c w :: ws
    | [] => [String c EmptyString]
    end.
Proof. unfold splitOn. cbn [splitOnFrom]. intros ->. reflexivity. Qed.

(** The first marker after a line break ends the piece, when the text
    before the break holds no marker and the marker no line break. *)
Lemma splitOn_line c sep a rest :
  includesChar "010" (String c sep) = false ->
  includes (String c sep) a = false ->
  splitOn (String c sep) (a +:+ newline +:+ String c sep +:+ rest)
  = (a +:+ newline) :: splitOn (String c sep) rest.
Proof.
  intros Hsep. induction a as [|x a IH]; intros Ha.
  - rewrite !app_nil_l. unfold newline. rewrite app_cons, app_nil_l.
    rewrite splitOn_step.
    + rewrite splitOn_found. reflexivity.
    + cbn [String.prefix]. cbn [includesChar] in Hsep. apply orb_false_iff in Hsep as [Hc _].
      destruct (Ascii.ascii_dec c "010") as [->|Hne]; [|reflexivity].
      unfold eqChar in Hc. rewrite Ascii.eqb_refl in Hc. discriminate.
  - cbn [includes] in Ha. apply orb_false_iff in Ha as [Hp Ha].
    assert (Hno : String.prefix (String c sep)
                    (String x a +:+ newline +:+ String c sep +:+ rest) = false).
    { destruct (String.prefix (String c sep) (String x a +:+ newline +:+ String c sep +:+ rest))
        eqn:E; [|reflexivity].
      apply prefix_app_cases in E as [E|(u & Hu & Hpre)]; [congruence|].
      destruct u as [|y u].
      - rewrite string_app_nil_r in Hu. rewrite <- Hu in Hp.
        pose proof (prefix_refl_app (String c sep) EmptyString) as Hr.
        rewrite string_app_nil_r in Hr. congruence.
      - unfold newline in Hpre. rewrite app_cons in Hpre. cbn [String.prefix] in Hpre.
        destruct (Ascii.ascii_dec y "010") as [->|Hne]; [|discriminate].
        rewrite Hu in Hsep. clear -Hsep. exfalso.
        induction (String x a) as [|z t IHt].
        + rewrite app_nil_l in Hsep. cbn in Hsep. discriminate.
        + rewrite app_cons in Hsep. cbn [includesChar] in Hsep.
          apply orb_false_iff in Hsep as [_ Hsep]. exact (IHt Hsep). }
    rewrite (app_cons x a) in Hno |- *. rewrite (splitOn_step _ _ _ Hno), (IH Ha).
    rewrite (app_cons x a). reflexivity.
Qed.

End SplitFacts.

Section LogReaderFacts.

Import JsMore GitAdvanced GitLog LogProps.

Variable execAsync : string -> string -> outcome string.
Variable dateTime : string -> option Z.

Local Abbreviation commitsOfRecords := (GitLog.commitsOfRecords dateTime).
Local Abbreviation nonBlank := (fun r : string => truthy (trim r)).

Lemma printedLog_cons c cs :
  printedLog (c :: cs)
  = printedFields c +:+ newline +:+ endMarker +:+
    match cs with [] => EmptyString | _ => newline +:+ printedLog cs end.
Proof.
  unfold printedLog, joinLines. destruct cs as [|c' cs]; cbn [map String.concat].
  - rewrite string_app_nil_r. reflexivity.
  - rewrite !string_app_assoc. reflexivity.
Qed.

Lemma commits_of_log cs : Forall printable cs -> forall pre,
  pre = EmptyString \/ pre = newline ->
  commitsOfRecords (List.filter nonBlank (splitOn endMarker (pre +:+ printedLog cs)))
  = map (commitOf dateTime) cs.
Proof.
  induction 1 as [|c cs Hc Hcs IH]; intros pre Hpre.
  - destruct Hpre as [-> | ->]; reflexivity.
  - destruct Hc as (Hh & Hs & H1 & H2 & H3 & H4 & H5 & Hmark).
    assert (Hblank : allChars isSpace pre = true) by (destruct Hpre as [-> | ->]; reflexivity).
    assert (Hpm : includes endMarker (pre +:+ printedFields c) = false).
    { destruct Hpre as [-> | ->]; [rewrite app_nil_l; exact Hmark|].
      unfold newline. rewrite app_cons, app_nil_l. cbn [includes]. rewrite Hmark.
      reflexivity. }
    rewrite printedLog_cons.
    replace (pre +:+ printedFields c +:+ newline +:+ endMarker +:+
             match cs with [] => EmptyString | _ :: _ => newline +:+ printedLog cs end)
      with ((pre +:+ printedFields c) +:+ newline +:+ endMarker +:+
            match cs with [] => EmptyString | _ :: _ => newline +:+ printedLog cs end)
      by (rewrite !string_app_assoc; reflexivity).
    change endMarker with (String "-" "--END---") in Hpm |- *.
    rewrite splitOn_line; [|reflexivity|exact Hpm].
    change (String "-" "--END---") with endMarker. cbn [List.filter].
    assert (Htrim : trim ((pre +:+ printedFields c) +:+ newline) = printedFields c).
    { rewrite string_app_assoc. apply trim_printed; [exact Hblank|reflexivity|exact Hh|exact Hs]. }
    rewrite Htrim.
    assert (Hne : truthy (printedFields c) = true).
    { unfold printedFields. rewrite printed_head. destruct Hh as [Hne _].
      destruct (f_hash c); [contradiction|reflexivity]. }
    rewrite Hne. unfold GitLog.commitsOfRecords. cbn [omap list_omap]. rewrite Htrim.
    unfold printedFields at 1. rewrite commitOfLines_printed by assumption.
    cbn [map]. f_equal. destruct cs as [|c' cs'].
    + reflexivity.
    + apply (IH newline). right. reflexivity.
Qed.

Local Abbreviation getFileCommitsInDateRange :=
  (GitLog.getFileCommitsInDateRange execAsync dateTime).


End LogReaderFacts.

Section LogWitnesses.

Import JsMore GitAdvanced GitLog LogProps.

Lemma getCommitInfo_reads_back_witness :
  getCommitInfo
    (fun _ _ => Returned (printed "1f3a9c0b5d7e2a4c6f8091b3d5e7f9a1c3e5a7b9" "Alice"
                            "alice@example.com" "2023-11-14 22:13:20 +0000"
                            "Fix rounding (PR 1532)" +:+ newline))
    sampleDateTime "1f3a9c0" "C:\proj"
  = Returned (Some (commitOfFields sampleDateTime "1f3a9c0b5d7e2a4c6f8091b3d5e7f9a1c3e5a7b9"
                      "Alice" "alice@example.com" "2023-11-14 22:13:20 +0000"
                      "Fix rounding (PR 1532)")).
Proof.
  apply (getCommitInfo_reads_back _ sampleDateTime "1f3a9c0" "C:\proj"
           "1f3a9c0b5d7e2a4c6f8091b3d5e7f9a1c3e5a7b9" "Alice" "alice@example.com"
           "2023-11-14 22:13:20 +0000" "Fix rounding (PR 1532)" newline);
    try reflexivity; split; first [discriminate | reflexivity].
Defined.

Lemma getCommitInfo_blank_subject_witness :
  getCommitInfo
    (fun _ _ => Returned (printed "1f3a9c0b5d7e2a4c6f8091b3d5e7f9a1c3e5a7b9" "Alice"
                            "alice@example.com" "2023-11-14 22:13:20 +0000"
                            EmptyString +:+ newline))
    sampleDateTime "1f3a9c0" "C:\proj"
  = Returned None.
Proof.
  apply (getCommitInfo_blank_subject _ sampleDateTime "1f3a9c0" "C:\proj"
           "1f3a9c0b5d7e2a4c6f8091b3d5e7f9a1c3e5a7b9" "Alice" "alice@example.com"
           "2023-11-14 22:13:20 +0000" EmptyString newline);
    try reflexivity. split; first [discriminate | reflexivity].
Defined.


End LogWitnesses.

Section ViewFacts.

Import GitAdvanced GitBlameRefined BlameProps HistoryProps ResultsView.

Variables (tza : Z) (startDate : calendarDate) (oneYearAgo : Z).
Variable execAsync : string -> string -> outcome string.
Variables (filePath : string) (lineStart lineEnd : option nat) (projectRoot : string).

Local Abbreviation parseBlame := (GitBlameRefined.parseBlame tza startDate oneYearAgo).
Local Abbreviation analyze :=
  (analyzeBlameResults tza startDate oneYearAgo execAsync filePath lineStart lineEnd projectRoot).

(** A record without a link has a message without [(PR n)]. *)
Local Abbreviation noHiddenLink :=
  (fun c : GitBlameAnalysis =>
     prUrl c = None -> search reParenPR (commitMessage c) = None).

Lemma parseBlame_noHiddenLink stdout m :
  parseBlame stdout = Returned m -> Forall noHiddenLink (mapValues m).
Proof.
  apply parseBlame_records.
  - intros hash _. reflexivity.
  - intros a c Hc. exact Hc.
  - intros t c Hc _. exact Hc.
  - intros message c Hc. unfold GitBlameRefined.setSummary.
    destruct (GitAdvanced.prNumber (extractPRNumber message)) as [n|] eqn:En.
    + pose proof (extractPRNumber_number message n En) as [Hne _].
      destruct n as [|x n]; [destruct (Hne eq_refl)|]. cbn. discriminate.
    + cbn. intros _.
      assert (Hs : GitAdvanced.prSource (extractPRNumber message) = None).
      { destruct (GitAdvanced.prSource (extractPRNumber message)) as [src|] eqn:Es; [|reflexivity].
        pose proof (proj2 (extractPRNumber_both_or_neither message)) as H.
        rewrite Es, En in H. destruct H as [x Hx]; [eexists; reflexivity|discriminate Hx]. }
      unfold extractPRNumber in Hs.
      destruct (search reMergePullRequest message); [discriminate Hs|].
      destruct (search reParenHash message); [discriminate Hs|].
      destruct (search reParenPR message); [discriminate Hs|reflexivity].
Qed.

Lemma getPRUrl_truthy n source : truthy (getPRUrl n source) = true.
Proof. unfold getPRUrl. destruct source as [[]|]; rewrite app_cons; reflexivity. Qed.

(** X29.  The list shows the links of the analysis.  For every record
    that [analyzeBlameResults] returns, the link and the source that a row
    of the result list shows are the record's own: the search of the
    message for [(PR n)], which the component falls back on, finds nothing
    when the record has no link. *)
Theorem AnalysisResults_shows_own_links (out : list GitBlameAnalysis) (c : GitBlameAnalysis) :
  analyze = Returned out -> c ∈ out ->
  shownUrl c = prUrl c /\ shownSource c = prSource c /\
  (prUrl c = None -> extractAzureDevOpsPRUrl (commitMessage c) = None).
Proof.
  intros H Hc. apply analyze_returned in H as [->|(stdout & m & _ & Hp & ->)]; [inversion Hc|].
  apply postProcess_values in Hc.
  pose proof (parseBlame_linked _ _ _ _ _ Hp) as Hl.
  pose proof (parseBlame_refComplete _ _ _ _ _ Hp) as Hr.
  pose proof (parseBlame_noHiddenLink _ _ Hp) as Hn.
  rewrite Forall_forall in Hl, Hr, Hn.
  specialize (Hl c Hc). specialize (Hr c Hc). specialize (Hn c Hc). cbv beta in Hn.
  unfold linked, refComplete in *.
  assert (Hfall : prUrl c = None -> extractAzureDevOpsPRUrl (commitMessage c) = None).
  { intros Hu. unfold extractAzureDevOpsPRUrl. rewrite (Hn Hu). reflexivity. }
  split; [|split; [|exact Hfall]].
  - unfold shownUrl. destruct (prUrl c) as [u|] eqn:Eu; [|apply Hfall; reflexivity].
    destruct (prNumber c) as [n|]; [|discriminate Hl]. destruct Hl as [_ [= ->]].
    rewrite getPRUrl_truthy. reflexivity.
  - unfold shownSource. destruct (prSource c) as [src|] eqn:Es; [reflexivity|].
    destruct (prNumber c) as [n|].
    + destruct (proj1 Hr (ex_intro _ n eq_refl)) as [x Hx]. discriminate Hx.
    + rewrite (Hfall Hl). reflexivity.
Qed.

End ViewFacts.

Section ViewWitnesses.

Import GitAdvanced GitBlameRefined BlameProps ResultsView.

Lemma AnalysisResults_shows_own_links_witness :
  shownUrl initialImport = prUrl initialImport /\
  shownSource initialImport = prSource initialImport /\
  (prUrl initialImport = None -> extractAzureDevOpsPRUrl (commitMessage initialImport) = None).
Proof.
  apply (AnalysisResults_shows_own_links (-18000000) (Some 19675) 1690000000000
           (shellPrinting blameOutput) "Orders.cs" (Some 12%nat) (Some 15%nat) "C:\proj"
           [fixRounding; initialImport] initialImport).
  - vm_compute. reflexivity.
  - right. left.
Defined.

End ViewWitnesses.
